(** * Session and wizard core of the visit-pricing bot (bot.py)

    A shallow embedding of the pricing tables, the customer ledger, the
    per-actor quote session and the operator's visit-entry wizard, followed
    by the properties the specification states about them.

    Conventions of the embedding.
    - Python [str] is [string]; [int] is [Z]; a [dict] is a [gmap]; a [list]
      is a [list].  A Python exception is a value of [exn]; a handler that
      raises keeps every mutation it made before the raise.
    - Customer records carry the five keys [ensure_customer] writes, so the
      [.get(key, default)] fall-backs of the source are never taken.
    - Telegram user identifiers are positive integers.
    - Calendar dates are day ordinals ([date.toordinal()]); the upper end of
      the calendar is not modelled.
    - Calls to the notification channel ([answer], [edit_message_text],
      [reply_text], [send_message], [delete_message]) are assumed to return;
      the model keeps the reply that reaches the actor.
    - Library functions whose result the source only consumes (holiday
      calendar, [strptime], [isoformat], [int] on free text, [strip]) are
      fields of [pylib] and every statement holds for all of them. *)

From Stdlib Require Import ZArith Ascii String DecimalString DecimalPos Lia.
From stdpp Require Import gmap strings list fin_maps.

Open Scope Z_scope.

(** ** Python primitives *)

Inductive exn := KeyError | IndexError | ValueError.

(** [parts = s.split(":")] *)
Fixpoint split_colon (s : string) : list string :=
  match s with
  | EmptyString => [EmptyString]
  | String c rest =>
      if Ascii.eqb c ":"%char then EmptyString :: split_colon rest
      else match split_colon rest with
           | [] => [String c EmptyString]
           | p :: ps => String c p :: ps
           end
  end.

(** [s.split(":", 1)[1]]: what follows the first colon. *)
Fixpoint after_colon (s : string) : option string :=
  match s with
  | EmptyString => None
  | String c rest => if Ascii.eqb c ":"%char then Some rest else after_colon rest
  end.

(** [s.startswith(p)] *)
Definition startswith (s p : string) : bool := String.prefix p s.

Definition digit_of_ascii (c : ascii) : option Z :=
  let n := Z.of_N (N_of_ascii c) in
  if (48 <=? n) && (n <=? 57) then Some (n - 48) else None.

(** Value of a run of decimal digits read left to right, [None] as soon as
    a character is not a digit. *)
Fixpoint digits_value (acc : Z) (s : string) : option Z :=
  match s with
  | EmptyString => Some acc
  | String c rest =>
      match digit_of_ascii c with
      | Some d => digits_value (10 * acc + d) rest
      | None => None
      end
  end.

(** [s.isdigit()] on an ASCII string: non-empty and digits only. *)
Definition isdigit (s : string) : bool :=
  match s with
  | EmptyString => false
  | _ => bool_decide (is_Some (digits_value 0 s))
  end.

(** [int(s)] for a string that passed [isdigit]. *)
Definition int_of_digits (s : string) : Z := default 0 (digits_value 0 s).

(** [str(n)] for an integer. *)
Definition str (n : Z) : string := NilZero.string_of_int (Z.to_int n).

(** [max(xs)]: [ValueError] on an empty sequence. *)
Definition py_max (xs : list Z) : option Z :=
  match xs with
  | [] => None
  | x :: rest => Some (foldl Z.max x rest)
  end.

(** [l.remove(x)] guarded by [x in l]: drops the first occurrence. *)
Fixpoint list_remove (x : string) (l : list string) : list string :=
  match l with
  | [] => []
  | y :: rest => if decide (x = y) then rest else y :: list_remove x rest
  end.

(** [l.pop(i)] for [0 <= i < len(l)]. *)
Definition list_pop {A} (i : nat) (l : list A) : list A := take i l ++ drop (S i) l.

(** Library functions the handlers call. *)
Record pylib := {
  is_holiday : Z -> bool;            (* [date_obj in RU_HOLIDAYS] *)
  strptime : string -> option Z;     (* [datetime.strptime(s, "%Y-%m-%d").date()] *)
  isoformat : Z -> string;           (* [d.isoformat()] *)
  py_int : string -> option Z;       (* [int(s)], [None] on ValueError *)
  strip : string -> string;          (* [s.strip()] *)
}.

(** ** Tariff resolver *)

Definition TARIFFS_DISCOUNT : gmap string (gmap string Z) :=
  list_to_map [
    ("free", list_to_map [("4", 20000); ("8", 23000); ("night_4", 27000); ("night_8", 30000)]);
    ("exact", list_to_map [("4", 22000); ("8", 25000); ("night_4", 27000); ("night_8", 30000)]);
    ("urgent_tomorrow", list_to_map [("4", 25000); ("8", 27000); ("night_4", 27000); ("night_8", 30000)]);
    ("urgent_today", list_to_map [("4", 27000); ("8", 30000); ("night_4", 27000); ("night_8", 30000)]);
    ("holiday", list_to_map [("4", 35000); ("8", 35000); ("night_4", 35000); ("night_8", 35000)])
  ].

Definition TARIFFS_STANDARD : gmap string (gmap string Z) :=
  list_to_map [
    ("free", list_to_map [("4", 22000); ("8", 25000); ("night_4", 35000); ("night_8", 40000)]);
    ("exact", list_to_map [("4", 25000); ("8", 30000); ("night_4", 35000); ("night_8", 40000)]);
    ("urgent_tomorrow", list_to_map [("4", 30000); ("8", 35000); ("night_4", 35000); ("night_8", 40000)]);
    ("urgent_today", list_to_map [("4", 35000); ("8", 40000); ("night_4", 35000); ("night_8", 40000)]);
    ("holiday", list_to_map [("4", 40000); ("8", 45000); ("night_4", 40000); ("night_8", 45000)])
  ].

(** [prices[kind][duration]]; [None] is the KeyError. *)
Definition calc_price (kind duration : string) (discount : bool) : option Z :=
  let prices := if discount then TARIFFS_DISCOUNT else TARIFFS_STANDARD in
  row ← prices !! kind; row !! duration.

(** A reading of [now_msk()]: local calendar day and hour of day. *)
Record datetime := { dt_date : Z; dt_hour : Z }.

(** [classify_kind] reads the clock twice: [now1] yields [today], [now2]
    yields [now.hour]. *)
Definition classify_kind (E : pylib) (now1 now2 : datetime) (selected_date : Z) : string :=
  let today := dt_date now1 in
  let now := now2 in
  if is_holiday E selected_date then "holiday"
  else if selected_date =? today then "urgent_today"
  else if (selected_date =? today + 1) && (17 <=? dt_hour now) then "urgent_tomorrow"
  else "exact".

(** The categories and durations of the closed pricing space. *)
Definition KINDS : list string := ["free"; "exact"; "urgent_tomorrow"; "urgent_today"; "holiday"].
Definition DURATIONS : list string := ["4"; "8"; "night_4"; "night_8"].

(** ** State of the process *)

Record visit := {
  v_date : string;         (* ISO date, or "free" *)
  v_kind : string;
  v_duration : string;
  v_price : Z;
  v_tariff_type : string;
}.

Record customer := {
  name : string;
  ids : list string;       (* linked actors, as decimal strings *)
  projects_sum : Z;
  discount : bool;
  visits : list visit;
}.

Definition set_ids (f : list string -> list string) (c : customer) : customer :=
  {| name := name c; ids := f (ids c); projects_sum := projects_sum c;
     discount := discount c; visits := visits c |}.
Definition set_projects_sum (s : Z) (c : customer) : customer :=
  {| name := name c; ids := ids c; projects_sum := s;
     discount := discount c; visits := visits c |}.
Definition set_discount (b : bool) (c : customer) : customer :=
  {| name := name c; ids := ids c; projects_sum := projects_sum c;
     discount := b; visits := visits c |}.
Definition set_visits (vs : list visit) (c : customer) : customer :=
  {| name := name c; ids := ids c; projects_sum := projects_sum c;
     discount := discount c; visits := vs |}.

(** One entry of [bot_data["calc_store"]]. *)
Record calc_session := { session : string; ts : Z }.

(** A job of the queue; its data is [{"user_id": user_id}]. *)
Record job := { job_name : string; job_user_id : positive }.

(** [user_data['admin_visit']]: the wizard's draft, a dict filled key by key. *)
Record draft := {
  d_cid : option string;
  d_customer_name : option string;
  d_date : option string;
  d_kind : option string;
  d_duration : option string;
  d_tariff_type : option string;
  d_price : option Z;
}.

Definition empty_draft : draft :=
  {| d_cid := None; d_customer_name := None; d_date := None; d_kind := None;
     d_duration := None; d_tariff_type := None; d_price := None |}.

Definition set_d_cid (x : string) (d : draft) : draft :=
  {| d_cid := Some x; d_customer_name := d_customer_name d; d_date := d_date d;
     d_kind := d_kind d; d_duration := d_duration d;
     d_tariff_type := d_tariff_type d; d_price := d_price d |}.
Definition set_d_customer_name (x : string) (d : draft) : draft :=
  {| d_cid := d_cid d; d_customer_name := Some x; d_date := d_date d;
     d_kind := d_kind d; d_duration := d_duration d;
     d_tariff_type := d_tariff_type d; d_price := d_price d |}.
Definition set_d_date (x : string) (d : draft) : draft :=
  {| d_cid := d_cid d; d_customer_name := d_customer_name d; d_date := Some x;
     d_kind := d_kind d; d_duration := d_duration d;
     d_tariff_type := d_tariff_type d; d_price := d_price d |}.
Definition set_d_kind (x : string) (d : draft) : draft :=
  {| d_cid := d_cid d; d_customer_name := d_customer_name d; d_date := d_date d;
     d_kind := Some x; d_duration := d_duration d;
     d_tariff_type := d_tariff_type d; d_price := d_price d |}.
Definition set_d_duration (x : string) (d : draft) : draft :=
  {| d_cid := d_cid d; d_customer_name := d_customer_name d; d_date := d_date d;
     d_kind := d_kind d; d_duration := Some x;
     d_tariff_type := d_tariff_type d; d_price := d_price d |}.
Definition set_d_tariff_type (x : string) (d : draft) : draft :=
  {| d_cid := d_cid d; d_customer_name := d_customer_name d; d_date := d_date d;
     d_kind := d_kind d; d_duration := d_duration d;
     d_tariff_type := Some x; d_price := d_price d |}.
Definition set_d_price (x : Z) (d : draft) : draft :=
  {| d_cid := d_cid d; d_customer_name := d_customer_name d; d_date := d_date d;
     d_kind := d_kind d; d_duration := d_duration d;
     d_tariff_type := d_tariff_type d; d_price := Some x |}.

(** The mutable state the handlers share: the ledger [data["customers"]],
    the application-wide [bot_data], the job queue, and the operator's
    [user_data]. *)
Record world := {
  customers : gmap string customer;
  calc_store : gmap positive calc_session;
  jobs : list job;
  admin_visit : option draft;
  link_cid : option string;
  set_sum_cid : option string;
  pending_link_user_id : option string;
}.

Definition set_customers (f : gmap string customer -> gmap string customer) (w : world) : world :=
  {| customers := f (customers w); calc_store := calc_store w; jobs := jobs w;
     admin_visit := admin_visit w; link_cid := link_cid w;
     set_sum_cid := set_sum_cid w; pending_link_user_id := pending_link_user_id w |}.
Definition set_calc_store (f : gmap positive calc_session -> gmap positive calc_session) (w : world) : world :=
  {| customers := customers w; calc_store := f (calc_store w); jobs := jobs w;
     admin_visit := admin_visit w; link_cid := link_cid w;
     set_sum_cid := set_sum_cid w; pending_link_user_id := pending_link_user_id w |}.
Definition set_jobs (f : list job -> list job) (w : world) : world :=
  {| customers := customers w; calc_store := calc_store w; jobs := f (jobs w);
     admin_visit := admin_visit w; link_cid := link_cid w;
     set_sum_cid := set_sum_cid w; pending_link_user_id := pending_link_user_id w |}.
Definition set_admin_visit (d : option draft) (w : world) : world :=
  {| customers := customers w; calc_store := calc_store w; jobs := jobs w;
     admin_visit := d; link_cid := link_cid w;
     set_sum_cid := set_sum_cid w; pending_link_user_id := pending_link_user_id w |}.
Definition set_link_cid (c : option string) (w : world) : world :=
  {| customers := customers w; calc_store := calc_store w; jobs := jobs w;
     admin_visit := admin_visit w; link_cid := c;
     set_sum_cid := set_sum_cid w; pending_link_user_id := pending_link_user_id w |}.
Definition set_set_sum_cid (c : option string) (w : world) : world :=
  {| customers := customers w; calc_store := calc_store w; jobs := jobs w;
     admin_visit := admin_visit w; link_cid := link_cid w;
     set_sum_cid := c; pending_link_user_id := pending_link_user_id w |}.
Definition set_pending_link_user_id (u : option string) (w : world) : world :=
  {| customers := customers w; calc_store := calc_store w; jobs := jobs w;
     admin_visit := admin_visit w; link_cid := link_cid w;
     set_sum_cid := set_sum_cid w; pending_link_user_id := u |}.

(** The state at process start: [data = {"customers": {}}], empty
    [bot_data], empty [user_data]. *)
Definition initial_world : world :=
  {| customers := ∅; calc_store := ∅; jobs := []; admin_visit := None;
     link_cid := None; set_sum_cid := None; pending_link_user_id := None |}.

(** ** Handlers as state transformers that may raise *)

Definition M (A : Type) : Type := world -> world * (exn + A).

Definition ret {A} (a : A) : M A := fun w => (w, inr a).
Definition raise {A} (e : exn) : M A := fun w => (w, inl e).
Definition bind {A B} (m : M A) (k : A -> M B) : M B :=
  fun w => match m w with
           | (w', inr a) => k a w'
           | (w', inl e) => (w', inl e)
           end.
Definition get : M world := fun w => (w, inr w).
Definition modify (f : world -> world) : M unit := fun w => (f w, inr tt).

(** Subscripting: [None] becomes the exception [e]. *)
Definition lookup_or {A} (e : exn) (o : option A) : M A :=
  match o with Some a => ret a | None => raise e end.

(** [try: m  except Exception as e: h e] *)
Definition try_except {A} (m : M A) (h : exn -> M A) : M A :=
  fun w => match m w with
           | (w', inl e) => h e w'
           | r => r
           end.

Notation "'let!' x ':=' m 'in' k" := (bind m (fun x => k))
  (at level 10, x name, m at level 100, k at level 200).

(** ** Customer ledger *)

(** [data["customers"][cid]] *)
Definition customer_at (cid : string) : M customer :=
  let! w := get in lookup_or KeyError (customers w !! cid).

(** Writing a mutated record back under its key (the source mutates the
    dict it obtained from [data["customers"][cid]] in place). *)
Definition store_customer (cid : string) (c : customer) : M unit :=
  modify (set_customers (fun L => <[cid := c]> L)).

Definition customer_keys (L : gmap string customer) : list string := (map_to_list L).*1.

Definition generate_customer_id : M string :=
  let! w := get in
  if decide (customers w = ∅) then ret "1"%string
  else
    let! max_id := lookup_or ValueError
      (py_max (int_of_digits <$> filter (fun cid => isdigit cid) (customer_keys (customers w)))) in
    ret (str (max_id + 1)).

Definition new_customer (nm : string) : customer :=
  {| name := nm; ids := []; projects_sum := 0; discount := false; visits := [] |}.

Definition ensure_customer (nm : string) : M string :=
  let! cid := generate_customer_id in
  let! w := get in
  let! _ := (if decide (customers w !! cid = None)
             then store_customer cid (new_customer nm) else ret tt) in
  ret cid.

(** First record, in iteration order, that lists [str(uid)]. *)
Definition find_customer_by_userid (L : gmap string customer) (uid : positive)
  : option (string * customer) :=
  head (filter (fun kv => str (Z.pos uid) ∈ ids kv.2) (map_to_list L)).

Definition recalc_discount (cust : customer) : customer :=
  let total_visits := Z.of_nat (length (visits cust)) in
  if (4 <=? total_visits) || (60000 <=? projects_sum cust)
  then set_discount true cust
  else set_discount false cust.

(** Read-modify-write of one record: [customer = data["customers"][cid]]
    followed by in-place assignments. *)
Definition update_customer (cid : string) (f : customer -> customer) : M unit :=
  let! c := customer_at cid in store_customer cid (f c).

(** The six mutations of [visits] and [projects_sum], each with the
    [recalc_discount] call that follows it in the source. *)
Definition append_visit (v : visit) (c : customer) : customer :=
  recalc_discount (set_visits (visits c ++ [v]) c).
Definition pop_visit (i : nat) (c : customer) : customer :=
  recalc_discount (set_visits (list_pop i (visits c)) c).
Definition clear_visits (c : customer) : customer :=
  recalc_discount (set_visits [] c).
Definition add_to_sum (amount : Z) (c : customer) : customer :=
  recalc_discount (set_projects_sum (projects_sum c + amount) c).
Definition set_sum (amount : Z) (c : customer) : customer :=
  recalc_discount (set_projects_sum amount c).
Definition reset_sum (c : customer) : customer :=
  recalc_discount (set_projects_sum 0 c).

(** What a text command or a quick action answers. *)
Inductive cmd_reply :=
  | ReplyUsage | ReplyNotFound | ReplyDone | ReplyAlready | ReplyError (e : exn).

(** "Отвязываем от других заказчиков": the loop visits every record, the
    target included. *)
Definition without_actor (uid : string) (other_cust : customer) : customer :=
  if decide (uid ∈ ids other_cust)
  then set_ids (list_remove uid) other_cust
  else other_cust.

Definition unlink_everywhere (uid : string) : M unit :=
  modify (set_customers (fmap (without_actor uid))).

(** The body shared by [admin_quick_link], [cmd_register], [cmd_link] and
    [admin_link_user_handler] once the target is known to exist. *)
Definition link_user (E : pylib) (cid uid : string) : M cmd_reply :=
  let! _ := unlink_everywhere uid in
  let! customer := customer_at cid in
  if decide (uid ∈ ids customer) then ret ReplyAlready
  else
    let! _ := store_customer cid (set_ids (fun l => l ++ [uid]) customer) in
    (* notify_user_registered(context, int(uid), ...) *)
    let! _ := lookup_or ValueError (py_int E uid) in
    ret ReplyDone.

Definition admin_quick_link (E : pylib) (data : string) : M cmd_reply :=
  let parts := split_colon data in
  let! cid := lookup_or IndexError (parts !! 1%nat) in
  let! user_id := lookup_or IndexError (parts !! 2%nat) in
  let! w := get in
  if decide (customers w !! cid = None) then ret ReplyNotFound
  else link_user E cid user_id.

Definition cmd_register (E : pylib) (args : list string) : M cmd_reply :=
  try_except
    (match args with
     | [user_id; cid] =>
         let! w := get in
         if decide (customers w !! cid = None) then ret ReplyNotFound
         else link_user E cid user_id
     | _ => ret ReplyUsage
     end)
    (fun e => ret (ReplyError e)).

Definition cmd_link (E : pylib) (args : list string) : M cmd_reply :=
  try_except
    (match args with
     | [cid; uid] =>
         let! w := get in
         if decide (customers w !! cid = None) then ret ReplyNotFound
         else link_user E cid uid
     | _ => ret ReplyUsage
     end)
    (fun e => ret (ReplyError e)).

Definition cmd_unlink (args : list string) : M cmd_reply :=
  try_except
    (match args with
     | [cid; uid] =>
         let! w := get in
         match customers w !! cid with
         | None => ret ReplyNotFound
         | Some c =>
             if decide (uid ∈ ids c)
             then let! _ := store_customer cid (set_ids (list_remove uid) c) in ret ReplyDone
             else ret ReplyAlready
         end
     | _ => ret ReplyUsage
     end)
    (fun e => ret (ReplyError e)).

Definition cmd_create (nm_parts : list string) : M cmd_reply :=
  try_except
    (match nm_parts with
     | [] => ret ReplyUsage
     | _ => let! _ := ensure_customer (String.concat " " nm_parts) in ret ReplyDone
     end)
    (fun e => ret (ReplyError e)).

Definition cmd_addsum (E : pylib) (args : list string) : M cmd_reply :=
  try_except
    (match args with
     | [cid; summ_s] =>
         let! summ := lookup_or ValueError (py_int E summ_s) in
         let! w := get in
         if decide (customers w !! cid = None) then ret ReplyNotFound
         else let! _ := update_customer cid (add_to_sum summ) in ret ReplyDone
     | _ => ret ReplyUsage
     end)
    (fun e => ret (ReplyError e)).

Definition cmd_setsum (E : pylib) (args : list string) : M cmd_reply :=
  try_except
    (match args with
     | [cid; summ_s] =>
         let! summ := lookup_or ValueError (py_int E summ_s) in
         let! w := get in
         if decide (customers w !! cid = None) then ret ReplyNotFound
         else let! _ := update_customer cid (set_sum summ) in ret ReplyDone
     | _ => ret ReplyUsage
     end)
    (fun e => ret (ReplyError e)).

Definition cmd_remove (args : list string) : M cmd_reply :=
  try_except
    (match args with
     | [cid] =>
         let! w := get in
         if decide (customers w !! cid = None) then ret ReplyNotFound
         else let! _ := modify (set_customers (delete cid)) in ret ReplyDone
     | _ => ret ReplyUsage
     end)
    (fun e => ret (ReplyError e)).

Definition cmd_clearvisits (args : list string) : M cmd_reply :=
  try_except
    (match args with
     | [cid] =>
         let! w := get in
         if decide (customers w !! cid = None) then ret ReplyNotFound
         else let! _ := update_customer cid clear_visits in ret ReplyDone
     | _ => ret ReplyUsage
     end)
    (fun e => ret (ReplyError e)).

(** ** Quote session manager *)

Definition CALC_TIMEOUT_MINUTES : Z := 15.

Definition _calc_job_name (user_id : positive) : string :=
  ("calc_timeout_" +:+ str (Z.pos user_id))%string.

(** Every job carrying the actor's name is removed from the queue. *)
Definition cancel_calc_timeout (user_id : positive) (w : world) : world :=
  set_jobs (filter (fun j => job_name j ≠ _calc_job_name user_id)) w.

Definition reset_calc_session (user_id : positive) (w : world) : world :=
  set_calc_store (delete user_id) (cancel_calc_timeout user_id w).

(** [job_queue.run_once(_calc_timeout_job, when=seconds, name=..., data=...)] *)
Definition run_once (user_id : positive) (w : world) : world :=
  set_jobs (fun js => js ++ [{| job_name := _calc_job_name user_id; job_user_id := user_id |}]) w.

(** [ms] is [int(time.time() * 1000)] and [t] the later [time.time()]. *)
Definition start_or_restart_calc_session (ms t : Z) (user_id : positive) (w : world)
  : world * string :=
  let w := reset_calc_session user_id w in
  let session_id := str ms in
  let w := set_calc_store (fun store => <[user_id := {| session := session_id; ts := t |}]> store) w in
  (run_once user_id w, session_id).

Definition touch_calc_session (t : Z) (user_id : positive) (w : world) : world :=
  match calc_store w !! user_id with
  | None => w
  | Some sess =>
      let w := set_calc_store
                 (fun store => <[user_id := {| session := session sess; ts := t |}]> store) w in
      run_once user_id (cancel_calc_timeout user_id w)
  end.

Definition get_active_calc_session (w : world) (user_id : positive) : option string :=
  session <$> calc_store w !! user_id.

(** Truth value of [session_id and (get_active_calc_session(...) == session_id)]. *)
Definition is_session_valid (w : world) (user_id : positive) (session_id : string) : bool :=
  negb (String.eqb session_id "") &&
  bool_decide (get_active_calc_session w user_id = Some session_id).

(** The job callback; the queue drops a [run_once] job when it runs it. *)
Definition _calc_timeout_job (j : job) (w : world) : world :=
  let user_id := job_user_id j in
  match calc_store w !! user_id with
  | None => w
  | Some _ => set_calc_store (delete user_id) w
  end.

(** One operation on an actor's session; [OpTimeout i] is the queue running
    its [i]-th job. *)
Inductive session_op :=
  | OpStart (user_id : positive) (ms t : Z)
  | OpTouch (user_id : positive) (t : Z)
  | OpReset (user_id : positive)
  | OpTimeout (i : nat).

Definition apply_op (w : world) (o : session_op) : world :=
  match o with
  | OpStart user_id ms t => (start_or_restart_calc_session ms t user_id w).1
  | OpTouch user_id t => touch_calc_session t user_id w
  | OpReset user_id => reset_calc_session user_id w
  | OpTimeout i =>
      match jobs w !! i with
      | Some j => _calc_timeout_job j (set_jobs (delete i) w)
      | None => w
      end
  end.

Definition run_ops (ops : list session_op) (w : world) : world := foldl apply_op w ops.

(** The token handed out by an operation to [user_id], if it is a start. *)
Definition issued_to (user_id : positive) (o : session_op) : option string :=
  match o with
  | OpStart u ms _ => if decide (u = user_id) then Some (str ms) else None
  | _ => None
  end.

(** The token of the most recent start for [user_id] in a history. *)
Definition last_issued (ops : list session_op) (user_id : positive) : option string :=
  last (omap (issued_to user_id) ops).

(** The sessions the store holds for one actor. *)
Definition sessions_of (w : world) (user_id : positive) : list calc_session :=
  (filter (fun kv => kv.1 = user_id) (map_to_list (calc_store w))).*2.

(** ** Quote flow callbacks *)

(** Formatting a stored date for display: ["free"] or a parsable ISO date. *)
Definition render_date (E : pylib) (date_str : string) : M unit :=
  if decide (date_str = "free") then ret tt
  else let! _ := lookup_or ValueError (strptime E date_str) in ret tt.

(** Formatting every visit of a list (the visit texts and the buttons of
    [kb_admin_visits_management]). *)
Fixpoint render_visits (E : pylib) (vs : list visit) : M unit :=
  match vs with
  | [] => ret tt
  | v :: rest => let! _ := render_date E (v_date v) in render_visits E rest
  end.


Inductive quote_reply :=
  | BadData                                               (* "Некорректные данные" *)
  | StaleCalc                                             (* "Этот расчёт устарел" *)
  | DurationMenu (date_str kind session_id : string)
  | NotLinked
  | Quote (customer_name kind duration : string) (sel_date : Z) (price : Z).

(** [user_id] is [q.from_user.id], [data] is [q.data], [t] the clock read
    by [touch_calc_session], [now1]/[now2] the readings of [classify_kind]. *)
Definition on_date_choice (E : pylib) (t : Z) (now1 now2 : datetime)
    (user_id : positive) (data : string) : M quote_reply :=
  let parts := split_colon data in
  if bool_decide (length parts < 3)%nat then ret BadData
  else
    let! session_id := lookup_or IndexError (parts !! 1%nat) in
    let! date_str := lookup_or IndexError (parts !! 2%nat) in
    let! w := get in
    if negb (is_session_valid w user_id session_id) then ret StaleCalc
    else
      let! _ := modify (touch_calc_session t user_id) in
      if decide (date_str = "free") then ret (DurationMenu "free" "free" session_id)
      else
        let! d := lookup_or ValueError (strptime E date_str) in
        let kind := classify_kind E now1 now2 d in
        ret (DurationMenu (isoformat E d) kind session_id).

Definition on_time_choice (E : pylib) (t : Z) (now : datetime)
    (user_id : positive) (data : string) : M quote_reply :=
  let parts := split_colon data in
  if bool_decide (length parts < 5)%nat then ret BadData
  else
    let! session_id := lookup_or IndexError (parts !! 1%nat) in
    let! date_str := lookup_or IndexError (parts !! 2%nat) in
    let! kind := lookup_or IndexError (parts !! 3%nat) in
    let! duration := lookup_or IndexError (parts !! 4%nat) in
    let! w := get in
    if negb (is_session_valid w user_id session_id) then ret StaleCalc
    else
      let! _ := modify (touch_calc_session t user_id) in
      let! w := get in
      match find_customer_by_userid (customers w) user_id with
      | None =>
          let! _ := modify (reset_calc_session user_id) in
          ret NotLinked
      | Some (cid, cust) =>
          let! price := lookup_or KeyError (calc_price kind duration (discount cust)) in
          let! sel_date :=
            (if decide (date_str = "free") then ret (dt_date now)
             else lookup_or ValueError (strptime E date_str)) in
          let! _ := modify (reset_calc_session user_id) in
          ret (Quote (name cust) kind duration sel_date price)
      end.

Inductive menu_reply :=
  | MenuNotLinked
  | MainMenu (customer_name : string)
  | DatesMenu (session_id : string)
  | TariffStatus (customer_name : string) (total_visits : nat) (has_discount : bool) (projects : Z)
  | NoVisitsYet
  | VisitsList (vs : list visit)
  | NoReply.

(** [on_menu]: every branch first ends the running quote; "menu:calc" then
    starts a new one.  [ms] and [t] are the clock readings of the start. *)
Definition on_menu (E : pylib) (ms t : Z) (user_id : positive) (data : string) : M menu_reply :=
  let! w := get in
  match find_customer_by_userid (customers w) user_id with
  | None => ret MenuNotLinked
  | Some (_, cust) =>
      if decide (data = "menu:start") then
        let! _ := modify (reset_calc_session user_id) in
        ret (MainMenu (name cust))
      else if decide (data = "menu:calc") then
        let! _ := modify (reset_calc_session user_id) in
        let! session_id :=
          (fun w => let r := start_or_restart_calc_session ms t user_id w in (r.1, inr r.2)) in
        ret (DatesMenu session_id)
      else if decide (data = "menu:status") then
        let! _ := modify (reset_calc_session user_id) in
        ret (TariffStatus (name cust) (length (visits cust)) (discount cust) (projects_sum cust))
      else if decide (data = "menu:visits") then
        let! _ := modify (reset_calc_session user_id) in
        match visits cust with
        | [] => ret NoVisitsYet
        | vs => let! _ := render_visits E vs in ret (VisitsList vs)
        end
      else ret NoReply
  end.

(** ** Visit-entry wizard *)

(** States of the ConversationHandler, [END] included. *)
Inductive wstate :=
  | SELECT_CUSTOMER | SELECT_ACTION | SELECT_DATE | SELECT_KIND | SELECT_DURATION
  | SELECT_TARIFF_TYPE | CONFIRM_VISIT | CREATE_CUSTOMER | FIND_CUSTOMER
  | LINK_USER | UNLINK_USER | ADD_SUM | SET_SUM | END.

(** [context.user_data['admin_visit'][key] = value] *)
Definition draft_update (f : draft -> draft) : M unit :=
  let! w := get in
  let! d := lookup_or KeyError (admin_visit w) in
  modify (set_admin_visit (Some (f d))).

(** [context.user_data['admin_visit'][key]] *)
Definition draft_field {A} (proj : draft -> option A) : M A :=
  let! w := get in
  let! d := lookup_or KeyError (admin_visit w) in
  lookup_or KeyError (proj d).

Definition cmd_admin (is_admin via_callback : bool) : M (option wstate) :=
  if negb is_admin then ret (Some END)
  else
    let! _ := (if via_callback then ret tt else modify (set_pending_link_user_id None)) in
    let! _ := modify (set_admin_visit None) in
    ret (Some SELECT_CUSTOMER).

Definition admin_open_panel (is_admin : bool) (data : string) : M (option wstate) :=
  if negb is_admin then ret (Some END)
  else
    let! _ :=
      (if startswith data "admin_panel_link:"
       then let! user_id := lookup_or IndexError (after_colon data) in
            modify (set_pending_link_user_id (Some user_id))
       else ret tt) in
    cmd_admin is_admin true.

Definition admin_select_customer (is_admin : bool) (data : string) : M (option wstate) :=
  if negb is_admin then ret (Some END)
  else if decide (data = "admin_cancel") then ret (Some END)
  else if decide (data = "admin_create_customer") then ret (Some CREATE_CUSTOMER)
  else if decide (data = "admin_find_customer") then ret (Some FIND_CUSTOMER)
  else
    let! cid := lookup_or IndexError (split_colon data !! 1%nat) in
    let! _ := modify (set_admin_visit (Some (set_d_cid cid empty_draft))) in
    let! c := customer_at cid in
    let! _ := draft_update (set_d_customer_name (name c)) in
    ret (Some SELECT_ACTION).

Definition admin_create_customer_handler (E : pylib) (text : string) : M (option wstate) :=
  try_except
    (let nm := strip E text in
     if decide (nm = "") then ret (Some CREATE_CUSTOMER)
     else let! _ := ensure_customer nm in ret (Some SELECT_CUSTOMER))
    (fun _ => ret (Some CREATE_CUSTOMER)).

Definition admin_find_customer_handler (E : pylib) (text : string) : M (option wstate) :=
  try_except
    (let uid := strip E text in
     let! w := get in
     match head (filter (fun kv => uid ∈ ids kv.2) (map_to_list (customers w))) with
     | None => ret (Some SELECT_CUSTOMER)
     | Some (found_cid, _) =>
         if decide (found_cid = "") then ret (Some SELECT_CUSTOMER)
         else
           let! customer := customer_at found_cid in
           let! _ := modify (set_admin_visit
                       (Some (set_d_customer_name (name customer)
                                (set_d_cid found_cid empty_draft)))) in
           ret (Some SELECT_ACTION)
     end)
    (fun _ => ret (Some FIND_CUSTOMER)).

(** The [admin_delete_*] block of [admin_select_action]; [None] when the
    block falls through. *)
Definition select_action_delete (E : pylib) (data : string) : M (option (option wstate)) :=
  if startswith data "admin_delete_" then
    let parts := split_colon data in
    let! action := lookup_or IndexError (parts !! 0%nat) in
    let! cid := lookup_or IndexError (parts !! 1%nat) in
    let! customer := customer_at cid in
    if decide (action = "admin_delete_visit") then
      let! index_s := lookup_or IndexError (parts !! 2%nat) in
      let! visit_index := lookup_or ValueError (py_int E index_s) in
      if (0 <=? visit_index) && (visit_index <? Z.of_nat (length (visits customer))) then
        let! deleted_visit := lookup_or IndexError (visits customer !! Z.to_nat visit_index) in
        let! _ := store_customer cid (pop_visit (Z.to_nat visit_index) customer) in
        let! _ := render_date E (v_date deleted_visit) in
        let! _ := render_visits E (list_pop (Z.to_nat visit_index) (visits customer)) in
        ret (Some (Some SELECT_ACTION))
      else
        let! _ := render_visits E (visits customer) in
        ret (Some (Some SELECT_ACTION))
    else if decide (action = "admin_delete_all") then
      let! _ := store_customer cid (clear_visits customer) in
      ret (Some (Some SELECT_ACTION))
    else ret None
  else ret None.

(** The [admin_action:<action>:<cid>] menu of [admin_select_action]. *)
Definition select_action_menu (E : pylib) (data : string) : M (option wstate) :=
  let parts := split_colon data in
  let! w := get in
  let '(action, cid) :=
    match parts with
    | p0 :: p1 :: p2 :: _ =>
        if decide (p0 = "admin_action") then (Some p1, Some p2)
        else (None, admin_visit w ≫= d_cid)
    | _ => (None, admin_visit w ≫= d_cid)
    end in
  let! _ :=
    (match cid with
     | Some c =>
         if decide (c = "") then ret tt
         else
           let! _ := draft_update (set_d_cid c) in
           let! cust := customer_at c in
           draft_update (set_d_customer_name (name cust))
     | None => ret tt
     end) in
  let at_cid : M customer := let! c := lookup_or KeyError cid in customer_at c in
  if decide (action = Some "back") then
    let! _ := at_cid in ret (Some SELECT_ACTION)
  else if decide (action = Some "tariff") then
    let! _ := at_cid in ret (Some SELECT_ACTION)
  else if decide (action = Some "visits") then
    let! customer := at_cid in
    let! _ := render_visits E (visits customer) in
    let! _ := render_visits E (visits customer) in
    ret (Some SELECT_ACTION)
  else if decide (action = Some "users") then
    let! _ := at_cid in ret (Some SELECT_ACTION)
  else if decide (action = Some "projects") then
    let! _ := at_cid in ret (Some SELECT_ACTION)
  else if decide (action = Some "add_visit") then
    ret (Some SELECT_DATE)
  else if decide (action = Some "remove") then
    let! c := lookup_or KeyError cid in
    let! _ := customer_at c in
    let! _ := modify (set_customers (delete c)) in
    ret (Some END)
  else if decide (action = Some "clear_visits") then
    let! c := lookup_or KeyError cid in
    let! _ := update_customer c clear_visits in
    ret (Some SELECT_ACTION)
  else if startswith data "admin_link_user:" then
    let! c := lookup_or IndexError (parts !! 1%nat) in
    let! _ := modify (set_link_cid (Some c)) in
    ret (Some LINK_USER)
  else if startswith data "admin_set_exact:" then
    let! c := lookup_or IndexError (parts !! 1%nat) in
    let! _ := modify (set_set_sum_cid (Some c)) in
    ret (Some SET_SUM)
  else ret None.

Definition admin_select_action (E : pylib) (data : string) : M (option wstate) :=
  if decide (data = "admin_cancel") then ret (Some END)
  else
    let! early := select_action_delete E data in
    match early with
    | Some r => ret r
    | None =>
        let parts := split_colon data in
        if startswith data "admin_unlink_specific:" then
          let! cid := lookup_or IndexError (parts !! 1%nat) in
          let! uid := lookup_or IndexError (parts !! 2%nat) in
          let! customer := customer_at cid in
          let! _ :=
            (if decide (uid ∈ ids customer)
             then store_customer cid (set_ids (list_remove uid) customer)
             else ret tt) in
          ret (Some SELECT_ACTION)
        else if startswith data "admin_add_amount:" then
          let! cid := lookup_or IndexError (parts !! 1%nat) in
          let! amount_s := lookup_or IndexError (parts !! 2%nat) in
          let! amount := lookup_or ValueError (py_int E amount_s) in
          let! _ := update_customer cid (add_to_sum amount) in
          ret (Some SELECT_ACTION)
        else if startswith data "admin_reset_sum:" then
          let! cid := lookup_or IndexError (parts !! 1%nat) in
          let! _ := update_customer cid reset_sum in
          ret (Some SELECT_ACTION)
        else select_action_menu E data
    end.

Definition admin_link_user_handler (E : pylib) (text : string) : M (option wstate) :=
  try_except
    (let uid := strip E text in
     let! w := get in
     match link_cid w with
     | None => ret (Some LINK_USER)
     | Some cid =>
         if decide (cid = "") then ret (Some LINK_USER)
         else if decide (customers w !! cid = None) then ret (Some LINK_USER)
         else let! _ := link_user E cid uid in ret (Some SELECT_ACTION)
     end)
    (fun _ => ret (Some LINK_USER)).

Definition admin_set_sum_handler (E : pylib) (text : string) : M (option wstate) :=
  try_except
    (let! amount := lookup_or ValueError (py_int E (strip E text)) in
     let! w := get in
     match set_sum_cid w with
     | None => ret (Some SET_SUM)
     | Some cid =>
         if decide (cid = "") then ret (Some SET_SUM)
         else if decide (customers w !! cid = None) then ret (Some SET_SUM)
         else let! _ := update_customer cid (set_sum amount) in ret (Some SELECT_ACTION)
     end)
    (fun _ => ret (Some SET_SUM)).

Definition admin_select_date (data : string) : M (option wstate) :=
  if decide (data = "admin_cancel") then ret (Some END)
  else if startswith data "admin_date:back" then
    let! cid :=
      (match split_colon data !! 2%nat with
       | Some c => ret c
       | None => draft_field d_cid
       end) in
    let! _ := customer_at cid in
    ret (Some SELECT_ACTION)
  else
    let! date_str := lookup_or IndexError (split_colon data !! 1%nat) in
    let! _ := draft_update (set_d_date date_str) in
    ret (Some SELECT_KIND).

Definition admin_select_kind (E : pylib) (data : string) : M (option wstate) :=
  if decide (data = "admin_cancel") then ret (Some END)
  else if decide (data = "admin_kind:back") then
    let! _ := draft_field d_cid in
    ret (Some SELECT_DATE)
  else
    let! kind := lookup_or IndexError (split_colon data !! 1%nat) in
    let! _ := draft_update (set_d_kind kind) in
    let! date_str := draft_field d_date in
    let! _ := render_date E date_str in
    (* TYPES[kind] *)
    if decide (kind ∈ KINDS) then ret (Some SELECT_DURATION) else raise KeyError.

Definition admin_select_duration (data : string) : M (option wstate) :=
  if decide (data = "admin_cancel") then ret (Some END)
  else if decide (data = "admin_duration:back") then ret (Some SELECT_KIND)
  else
    let! duration := lookup_or IndexError (split_colon data !! 1%nat) in
    let! _ := draft_update (set_d_duration duration) in
    ret (Some SELECT_TARIFF_TYPE).

Definition admin_select_tariff_type (E : pylib) (data : string) : M (option wstate) :=
  if decide (data = "admin_cancel") then ret (Some END)
  else if decide (data = "admin_tariff:back") then ret (Some SELECT_DURATION)
  else
    let! tariff_type := lookup_or IndexError (split_colon data !! 1%nat) in
    let! _ := draft_update (set_d_tariff_type tariff_type) in
    let! cid := draft_field d_cid in
    let! kind := draft_field d_kind in
    let! duration := draft_field d_duration in
    let discount := bool_decide (tariff_type = "discount") in
    let! price := lookup_or KeyError (calc_price kind duration discount) in
    let! _ := draft_update (set_d_price price) in
    let! date_str := draft_field d_date in
    let! _ := render_date E date_str in
    let! _ := draft_field d_customer_name in
    (* TARIFF_TYPES[tariff_type] *)
    if decide (tariff_type ∈ ["discount"; "standard"]) then ret (Some CONFIRM_VISIT)
    else raise KeyError.

Definition admin_confirm_visit (data : string) : M (option wstate) :=
  if decide (data = "admin_cancel") then ret (Some END)
  else if decide (data = "admin_confirm:back") then ret (Some SELECT_TARIFF_TYPE)
  else if decide (data = "admin_confirm:yes") then
    let! cid := draft_field d_cid in
    let! date := draft_field d_date in
    let! kind := draft_field d_kind in
    let! duration := draft_field d_duration in
    let! price := draft_field d_price in
    let! tariff_type := draft_field d_tariff_type in
    let visit_data := {| v_date := date; v_kind := kind; v_duration := duration;
                         v_price := price; v_tariff_type := tariff_type |} in
    let! _ := update_customer cid (append_visit visit_data) in
    ret (Some END)
  else ret None.

Definition admin_cancel : M (option wstate) := ret (Some END).

(** *** The conversation *)

(** A handler of the wizard together with what the update delivers to it. *)
Inductive wizard_call :=
  | CmdAdmin (is_admin via_callback : bool)
  | AdminOpenPanel (is_admin : bool) (data : string)
  | AdminSelectCustomer (is_admin : bool) (data : string)
  | AdminCreateCustomer (text : string)
  | AdminFindCustomer (text : string)
  | AdminSelectAction (data : string)
  | AdminLinkUser (text : string)
  | AdminSetSum (text : string)
  | AdminSelectDate (data : string)
  | AdminSelectKind (data : string)
  | AdminSelectDuration (data : string)
  | AdminSelectTariffType (data : string)
  | AdminConfirmVisit (data : string)
  | AdminCancel.

Definition run_call (E : pylib) (c : wizard_call) : M (option wstate) :=
  match c with
  | CmdAdmin is_admin via_callback => cmd_admin is_admin via_callback
  | AdminOpenPanel is_admin data => admin_open_panel is_admin data
  | AdminSelectCustomer is_admin data => admin_select_customer is_admin data
  | AdminCreateCustomer text => admin_create_customer_handler E text
  | AdminFindCustomer text => admin_find_customer_handler E text
  | AdminSelectAction data => admin_select_action E data
  | AdminLinkUser text => admin_link_user_handler E text
  | AdminSetSum text => admin_set_sum_handler E text
  | AdminSelectDate data => admin_select_date data
  | AdminSelectKind data => admin_select_kind E data
  | AdminSelectDuration data => admin_select_duration data
  | AdminSelectTariffType data => admin_select_tariff_type E data
  | AdminConfirmVisit data => admin_confirm_visit data
  | AdminCancel => admin_cancel
  end.

(** [entry_points] of the ConversationHandler; with [allow_reentry] they
    are tried first in every state. *)
Definition entry_point (c : wizard_call) : bool :=
  match c with
  | CmdAdmin _ _ | AdminOpenPanel _ _ | AdminSelectCustomer _ _ | AdminSelectAction _ => true
  | _ => false
  end.

(** The [states] table: the handler registered for each state. *)
Definition state_handler (s : wstate) (c : wizard_call) : bool :=
  match s, c with
  | SELECT_CUSTOMER, AdminSelectCustomer _ _
  | CREATE_CUSTOMER, AdminCreateCustomer _
  | FIND_CUSTOMER, AdminFindCustomer _
  | SELECT_ACTION, AdminSelectAction _
  | LINK_USER, AdminLinkUser _
  | SET_SUM, AdminSetSum _
  | SELECT_DATE, AdminSelectDate _
  | SELECT_KIND, AdminSelectKind _
  | SELECT_DURATION, AdminSelectDuration _
  | SELECT_TARIFF_TYPE, AdminSelectTariffType _
  | CONFIRM_VISIT, AdminConfirmVisit _ => true
  | _, _ => false
  end.

(** [fallbacks] *)
Definition fallback (c : wizard_call) : bool :=
  match c with AdminCancel => true | _ => false end.

(** Handlers the conversation in state [s] may hand an update to.  The
    callback patterns are left out here, every payload is admitted: an
    over-approximation of the dispatcher, which [route_callback] models
    with its patterns. *)
Definition enabled (s : wstate) (c : wizard_call) : bool :=
  entry_point c || state_handler s c || fallback c.

(** [cmd_admin] and [admin_open_panel] are also registered outside the
    conversation; what they return there is dropped. *)
Definition standalone (c : wizard_call) : bool :=
  match c with
  | CmdAdmin _ _ | AdminOpenPanel _ _ => true
  | _ => false
  end.

(** The state the conversation is in after a handler ran: a raise or a
    [None] result leaves it where it was. *)
Definition next_state (cur : wstate) (r : exn + option wstate) : wstate :=
  match r with
  | inr (Some s) => s
  | _ => cur
  end.

Record config := { conv : wstate; st : world }.

(** The conversation hands an update to a handler it has enabled. *)
Definition conversation_step (E : pylib) (c : config) (call : wizard_call) : option config :=
  if enabled (conv c) call
  then Some {| conv := next_state (conv c) (run_call E call (st c)).2;
               st := (run_call E call (st c)).1 |}
  else None.

Definition run_conversation (E : pylib) (calls : list wizard_call) (c : config)
  : option config :=
  foldl (fun oc call => oc ≫= fun c => conversation_step E c call) (Some c) calls.

Inductive step (E : pylib) : config -> config -> Prop :=
  | step_conversation c call c' :
      conversation_step E c call = Some c' ->
      step E c c'
  | step_standalone c call :
      standalone call = true ->
      step E c {| conv := conv c; st := (run_call E call (st c)).1 |}
  | step_elsewhere c w' :
      (* any handler outside the wizard: the draft is not theirs to touch *)
      admin_visit w' = admin_visit (st c) ->
      step E c {| conv := conv c; st := w' |}.

(** Configurations at process start: no conversation, no draft. *)
Definition initial_config (c : config) : Prop :=
  conv c = END /\ admin_visit (st c) = None.

Definition reachable (E : pylib) (c : config) : Prop :=
  exists c0, initial_config c0 /\ rtc (step E) c0 c.

(** The visits recorded under a customer id ([[]] when there is none). *)
Definition visits_at (w : world) (cid : string) : list visit :=
  default [] (visits <$> customers w !! cid).

(** ** Definitions that follow the specification's wording *)

(** The visit categories of the specification. *)
Inductive category := Exact | UrgentTomorrow | UrgentToday | Holiday | FreeSchedule.

Definition category_name (c : category) : string :=
  match c with
  | Exact => "exact"
  | UrgentTomorrow => "urgent_tomorrow"
  | UrgentToday => "urgent_today"
  | Holiday => "holiday"
  | FreeSchedule => "free"
  end.

(** [classify(selectedDate, now, holidayCalendar)] as section 4.1 words it. *)
Definition classify_spec (holiday : Z -> bool) (selected_date : Z) (now : datetime) : category :=
  if holiday selected_date then Holiday
  else if decide (selected_date = dt_date now) then UrgentToday
  else if decide (selected_date = dt_date now + 1 /\ 17 <= dt_hour now) then UrgentTomorrow
  else Exact.

(** [len(visits) >= 4 OR projectSum >= 60000] *)
Definition eligible (c : customer) : bool :=
  bool_decide (4 <= length (visits c))%nat || bool_decide (60000 <= projects_sum c).

(** A library whose holiday calendar is the given set of days; free text
    is read as an unsigned decimal and dates are written as ordinals. *)
Definition lib_with_holidays (hs : gset Z) : pylib :=
  {| is_holiday := fun d => bool_decide (d ∈ hs);
     strptime := fun s => if isdigit s then Some (int_of_digits s) else None;
     isoformat := str;
     py_int := fun s => if isdigit s then Some (int_of_digits s) else None;
     strip := fun s => s |}.

(** ** Predicates of the statements *)

(** The discount flag of a record agrees with its visits and project sum. *)
Definition flag_ok (c : customer) : Prop := discount c = eligible c.

(** From ledger [L] to ledger [L']: a record of [L'] either has the visits,
    project sum and flag it had in [L], or its flag is the derived one. *)
Definition ledger_kept (L L' : gmap string customer) : Prop :=
  forall cid c', L' !! cid = Some c' ->
    (exists c, L !! cid = Some c /\ visits c' = visits c /\
               projects_sum c' = projects_sum c /\ discount c' = discount c)
    \/ flag_ok c'.

Definition world_ledger_kept : relation world :=
  fun w w' => ledger_kept (customers w) (customers w').

(** Linked actors are kept as a list without repetition. *)
Definition ledger_wf (L : gmap string customer) : Prop :=
  forall cid c, L !! cid = Some c -> NoDup (ids c).

(** No actor is linked to two customers. *)
Definition actor_unique (L : gmap string customer) : Prop :=
  forall a cid1 cid2 c1 c2,
    L !! cid1 = Some c1 -> L !! cid2 = Some c2 ->
    a ∈ ids c1 -> a ∈ ids c2 -> cid1 = cid2.

(** The four ways of linking an actor. *)
Inductive link_call :=
  | QuickLink (data : string)          (* the "admin_quick_link:<cid>:<uid>" button *)
  | Register (args : list string)      (* /register <uid> <cid> *)
  | Link (args : list string)          (* /link <cid> <uid> *)
  | LinkStep (text : string).          (* the wizard's LINK_USER step *)

Definition run_link (E : pylib) (c : link_call) (w : world) : world :=
  match c with
  | QuickLink data => (admin_quick_link E data w).1
  | Register args => (cmd_register E args w).1
  | Link args => (cmd_link E args w).1
  | LinkStep text => (admin_link_user_handler E text w).1
  end.

(** The customer and the actor an invocation names. *)
Definition link_target (E : pylib) (c : link_call) (w : world) : option (string * string) :=
  match c with
  | QuickLink data =>
      match split_colon data with
      | _ :: cid :: user_id :: _ => Some (cid, user_id)
      | _ => None
      end
  | Register [user_id; cid] => Some (cid, user_id)
  | Link [cid; uid] => Some (cid, uid)
  | LinkStep text =>
      match link_cid w with
      | Some cid => if decide (cid = "") then None else Some (cid, strip E text)
      | None => None
      end
  | _ => None
  end.

(** No customer has more visits in [w'] than in [w]. *)
Definition visits_bounded : relation world :=
  fun w w' => forall cid, (length (visits_at w' cid) <= length (visits_at w cid))%nat.

(** The price of a draft is the tariff price of its category, duration and
    tariff type. *)
Definition priced (d : draft) : Prop :=
  forall kind duration tariff_type price,
    d_kind d = Some kind -> d_duration d = Some duration ->
    d_tariff_type d = Some tariff_type -> d_price d = Some price ->
    calc_price kind duration (bool_decide (tariff_type = "discount")) = Some price.

Definition draft_priced (w : world) : Prop :=
  forall d, admin_visit w = Some d -> priced d.

(** A priced draft stays priced. *)
Definition draft_kept : relation world :=
  fun w w' => draft_priced w -> draft_priced w'.

(** The handlers that write the draft's category, duration, tariff type or
    price. *)
Definition edits_pricing (call : wizard_call) : bool :=
  match call with
  | AdminSelectKind _ | AdminSelectDuration _ | AdminSelectTariffType _ => true
  | _ => false
  end.

Definition not_confirm (r : option wstate) : Prop := r <> Some CONFIRM_VISIT.

(** In state CONFIRM the draft is priced. *)
Definition confirm_inv (c : config) : Prop := conv c = CONFIRM_VISIT -> draft_priced (st c).

(** Scenario D: reach CONFIRM with the discount tariff, go back, choose the
    standard tariff, confirm. *)
Definition scenario_D_start : config :=
  {| conv := END;
     st := set_customers (fun _ => {[ "1"%string := new_customer "Acme" ]}) initial_world |}.

Definition scenario_D_calls : list wizard_call :=
  [ AdminSelectCustomer true "admin_customer:1";
    AdminSelectAction "admin_action:add_visit:1";
    AdminSelectDate "admin_date:free";
    AdminSelectKind "admin_kind:exact";
    AdminSelectDuration "admin_duration:4";
    AdminSelectTariffType "admin_tariff:discount";
    AdminConfirmVisit "admin_confirm:back";
    AdminSelectTariffType "admin_tariff:standard";
    AdminConfirmVisit "admin_confirm:yes" ].

(** The text commands and the quick-link button. *)
Inductive command :=
  | CmdQuickLink (data : string)
  | CmdRegister (args : list string)
  | CmdCreate (args : list string)
  | CmdLink (args : list string)
  | CmdUnlink (args : list string)
  | CmdAddsum (args : list string)
  | CmdSetsum (args : list string)
  | CmdRemove (args : list string)
  | CmdClearvisits (args : list string).

Definition run_command (E : pylib) (c : command) : M cmd_reply :=
  match c with
  | CmdQuickLink data => admin_quick_link E data
  | CmdRegister args => cmd_register E args
  | CmdCreate args => cmd_create args
  | CmdLink args => cmd_link E args
  | CmdUnlink args => cmd_unlink args
  | CmdAddsum args => cmd_addsum E args
  | CmdSetsum args => cmd_setsum E args
  | CmdRemove args => cmd_remove args
  | CmdClearvisits args => cmd_clearvisits args
  end.

(** Every handler that writes to the ledger, and the world it leaves. *)
Inductive ledger_call :=
  | ViaWizard (c : wizard_call)
  | ViaCommand (c : command).

Definition after_call (E : pylib) (c : ledger_call) (w : world) : world :=
  match c with
  | ViaWizard c => (run_call E c w).1
  | ViaCommand c => (run_command E c w).1
  end.

(** A callback whose token is not the one of the actor's live session. *)
Definition stale (w : world) (user_id : positive) (data : string) : Prop :=
  exists session_id,
    split_colon data !! 1%nat = Some session_id /\
    is_session_valid w user_id session_id = false.

(** The state of scenario B after the second start: actor 7 holds the
    session of token "1700000000999". *)
Definition superseded_world : world :=
  (start_or_restart_calc_session 1700000000999 0 7
     (start_or_restart_calc_session 1700000000000 0 7 initial_world).1).1.

(** A press on a date button of the first, superseded quote. *)
Definition stale_press : world * (exn + quote_reply) :=
  on_date_choice (lib_with_holidays ∅) 1 {| dt_date := 739000; dt_hour := 10 |}
    {| dt_date := 739000; dt_hour := 10 |} 7
    "date:1700000000000:2024-05-01" superseded_world.

(** A ledger of two customers, actor 7 linked to the first. *)
Definition two_customers : world :=
  set_customers
    (fun _ => <["1"%string := set_ids (fun _ => ["7"%string]) (new_customer "Acme")]>
                (<["2"%string := new_customer "Borealis"]> ∅))
    initial_world.

(** Lists without repetition stay so. *)
Definition wf_kept : relation world :=
  fun w w' => ledger_wf (customers w) -> ledger_wf (customers w').

(** A ledger whose only customer is keyed by a name, not a number. *)
Definition legacy_ledger : world :=
  set_customers (fun _ => {[ "acme"%string := new_customer "Acme" ]}) initial_world.

(** Started in [w], a computation ends in a world related to [w] by [P]. *)
Definition keeps_from (P : relation world) {A} (w : world) (m : M A) : Prop := P w (m w).1.
Definition keeps (P : relation world) {A} (m : M A) : Prop := forall w, keeps_from P w m.

(** Every value a computation returns satisfies [Q]. *)
Definition returns {A} (Q : A -> Prop) (m : M A) : Prop :=
  forall w a, (m w).2 = inr a -> Q a.

Arguments startswith : simpl never.
Arguments split_colon : simpl never.
Arguments after_colon : simpl never.
Arguments isdigit : simpl never.
Arguments str : simpl never.
Arguments calc_price : simpl never.
Arguments recalc_discount : simpl never.
Arguments eligible : simpl never.
Arguments py_max : simpl never.

(** ** Further definitions *)

(** The timeout jobs queued under an actor's name. *)
Definition timers_of (w : world) (user_id : positive) : list job :=
  filter (fun j => job_name j = _calc_job_name user_id) (jobs w).

(** Jobs are named after the actor they carry. *)
Definition jobs_named (w : world) : Prop :=
  forall j, j ∈ jobs w -> job_name j = _calc_job_name (job_user_id j).

(** An actor has one queued timer when a session is stored, none otherwise. *)
Definition timers_match (w : world) : Prop :=
  forall uid, length (timers_of w uid)
              = match calc_store w !! uid with Some _ => 1%nat | None => 0%nat end.

(** ** Callback data *)

(** No character of [s] is a colon. *)
Fixpoint colon_free (s : string) : bool :=
  match s with
  | EmptyString => true
  | String c rest => negb (Ascii.eqb c ":"%char) && colon_free rest
  end.

(** ** Keyboards *)

(** An inline keyboard: the callback data of its buttons, row by row.  The
    labels are left out; where the source computes a label that can raise
    ([format_visit_short] parses the visit's date), the handlers account
    for it with [render_visits]. *)
Definition keyboard : Type := list (list string).

Definition buttons (kb : keyboard) : list string := concat kb.

(** The loop that fills rows of [n] buttons and keeps the last, shorter
    row: [row.append(b); if len(row) == n: rows.append(row); row = []] and,
    after the loop, [if row: rows.append(row)]. *)
Fixpoint kb_rows (n : nat) (row : list string) (bs : list string) : keyboard :=
  match bs with
  | [] => match row with [] => [] | _ => [row] end
  | b :: rest =>
      let row' := row ++ [b] in
      if (length row' =? n)%nat then row' :: kb_rows n [] rest
      else kb_rows n row' rest
  end.

Definition kb_main_menu : keyboard :=
  [["menu:calc"]; ["menu:status"]; ["menu:visits"]]%string.

Definition kb_after_calc_menu : keyboard :=
  [["menu:calc"]; ["menu:start"]]%string.

Definition kb_visits_menu : keyboard :=
  [["menu:start"]; ["menu:calc"]]%string.

(** [today] is [now_msk().date()]. *)
Definition kb_dates_menu (E : pylib) (today : Z) (session_id : string) : keyboard :=
  let button d := ("date:" +:+ session_id +:+ ":" +:+ isoformat E d)%string in
  [[button today; button (today + 1)]]
  ++ kb_rows 5 [] ((fun i => button (today + Z.of_nat i)) <$> seq 2 10)
  ++ [["menu:start"%string]].

Definition kb_duration_menu (date_str kind session_id : string) : keyboard :=
  let button duration :=
    ("time:" +:+ session_id +:+ ":" +:+ date_str +:+ ":" +:+ kind +:+ ":" +:+ duration)%string in
  [[button "4"; button "8"]%string;
   [button "night_4"; button "night_8"]%string;
   ["menu:start"%string]].

(** One row per customer, in the iteration order of the ledger. *)
Definition kb_admin_customers (L : gmap string customer) : keyboard :=
  ((fun cid => [("admin_customer:" +:+ cid)%string]) <$> customer_keys L)
  ++ [["admin_create_customer"]; ["admin_find_customer"]; ["admin_cancel"]]%string.

(** [customer = data["customers"][cid]]: [None] is the KeyError. *)
Definition kb_admin_actions (L : gmap string customer) (cid : string) : option keyboard :=
  _ ← L !! cid;
  Some [[("admin_action:tariff:" +:+ cid)%string];
        [("admin_action:visits:" +:+ cid)%string];
        [("admin_action:users:" +:+ cid)%string];
        [("admin_action:projects:" +:+ cid)%string];
        [("admin_action:add_visit:" +:+ cid)%string];
        [("admin_action:remove:" +:+ cid)%string];
        [("admin_action:clear_visits:" +:+ cid)%string];
        ["admin_cancel"%string]].

(** The rows of [for i, visit in enumerate(visits)]. *)
Fixpoint visit_rows (cid : string) (i : nat) (visits : list visit) : keyboard :=
  match visits with
  | [] => []
  | _ :: rest =>
      [("admin_visit_info:" +:+ cid +:+ ":" +:+ str (Z.of_nat i))%string;
       ("admin_delete_visit:" +:+ cid +:+ ":" +:+ str (Z.of_nat i))%string]
      :: visit_rows cid (S i) rest
  end.

Definition kb_admin_visits_management (cid : string) (visits : list visit) : keyboard :=
  visit_rows cid 0 visits
  ++ (match visits with [] => [] | _ => [[("admin_delete_all:" +:+ cid)%string]] end)
  ++ [[("admin_action:back:" +:+ cid)%string]].

Definition kb_admin_back (cid : string) : keyboard :=
  [[("admin_action:back:" +:+ cid)%string]].

Definition kb_admin_user_management (L : gmap string customer) (cid : string)
  : option keyboard :=
  customer ← L !! cid;
  Some (((fun uid => [("admin_user_info:" +:+ cid +:+ ":" +:+ uid)%string;
                      ("admin_unlink_specific:" +:+ cid +:+ ":" +:+ uid)%string])
           <$> ids customer)
        ++ [[("admin_link_user:" +:+ cid)%string];
            [("admin_action:back:" +:+ cid)%string]]).

Definition kb_admin_projects_management (L : gmap string customer) (cid : string)
  : option keyboard :=
  _ ← L !! cid;
  Some [[("admin_add_amount:" +:+ cid +:+ ":10000")%string];
        [("admin_add_amount:" +:+ cid +:+ ":25000")%string];
        [("admin_add_amount:" +:+ cid +:+ ":50000")%string];
        [("admin_set_exact:" +:+ cid)%string];
        [("admin_reset_sum:" +:+ cid)%string];
        [("admin_action:back:" +:+ cid)%string]].






Definition kb_admin_quick_customers (L : gmap string customer) (user_id : string) : keyboard :=
  ((fun cid => [("admin_quick_link:" +:+ cid +:+ ":" +:+ user_id)%string]) <$> customer_keys L)
  ++ [["admin_create_customer"]; ["admin_find_customer"]; ["admin_panel"]]%string.

(** What the handlers need of the library on a date they put on a button:
    its ISO form has no colon, does not read "back...", and parses back to
    the date. *)
Definition iso_date (E : pylib) (d : Z) : Prop :=
  colon_free (isoformat E d) = true /\
  startswith (isoformat E d) "back" = false /\
  isoformat E d <> "free"%string /\
  strptime E (isoformat E d) = Some d.

Arguments colon_free : simpl never.

(** ** Loading the ledger *)

(** [cleanup_data]: every customer with an all-digit id and no linked actor
    is deleted. *)
Definition cleanup_data (L : gmap string customer) : gmap string customer :=
  filter (fun kv => ~ (ids kv.2 = [] /\ isdigit kv.1 = true)) L.

(** [load_data]: [file] is what [data.json] parses to, [None] when the file
    is missing or unreadable; a ledger that is read is cleaned up. *)
Definition load_data (file : option (gmap string customer)) (w : world) : world :=
  match file with
  | Some L => set_customers (fun _ => cleanup_data L) w
  | None => w
  end.

(** Customers created one after the other. *)
Definition create_customers (names : list string) (w : world) : world :=
  foldl (fun w nm => (ensure_customer nm w).1) w names.

(** The keys of a ledger are the numerals of 1 to [n]. *)
Definition numbered (n : nat) (L : gmap string customer) : Prop :=
  forall k, is_Some (L !! k) <-> exists i, (1 <= i <= n)%nat /\ k = str (Z.of_nat i).

(** ** Tracked messages *)

(** Python's [l[-m:]]: for a positive [m] the last [m] items, all of [l]
    when it has no more; [l[-0:]] is [l[0:]], the whole list; for a
    negative [m] the start index [-m] is positive. *)
Definition py_last_slice {A} (m : Z) (l : list A) : list A :=
  if decide (0 < m) then drop (length l - Z.to_nat m) l
  else drop (Z.to_nat (- m)) l.

(** [append] followed by [if len(ids) > max_tracked: ids = ids[-max_tracked:]]. *)
Definition append_tracked (message_id max_tracked : Z) (ids : list Z) : list Z :=
  let ids' := ids ++ [message_id] in
  if decide (max_tracked < Z.of_nat (length ids')) then py_last_slice max_tracked ids'
  else ids'.

(** [tracked] is [context.user_data['last_calc_message_ids']], [None] while
    the key is absent. *)
Definition add_message_to_tracking (message_id max_tracked : Z) (tracked : option (list Z))
  : option (list Z) :=
  Some (append_tracked message_id max_tracked (default [] tracked)).

(** The message ids [bot.delete_message] is called with (a failed call is
    logged and the loop goes on), and the list afterwards. *)
Definition delete_calculation_messages (tracked : option (list Z))
  : list Z * option (list Z) :=
  match tracked with
  | Some ids => (ids, Some [])
  | None => ([], None)
  end.

(** The clean-up [on_menu] does itself on "menu:start" and "menu:calc",
    for a callback that carries its message: every tracked message but
    the one that was pressed is deleted, and the list is emptied. *)
Definition menu_clear_tracked (current_mid : Z) (tracked : option (list Z))
  : list Z * option (list Z) :=
  (filter (fun mid => mid <> current_mid) (default [] tracked), Some []).

(** What happens to the tracked list of one actor. *)
Inductive tracking_op :=
  | Track (message_id : Z)
  | DeleteTracked
  | MenuClear (current_mid : Z).

Definition tracking_step (max_tracked : Z) (tracked : option (list Z)) (op : tracking_op)
  : option (list Z) :=
  match op with
  | Track message_id => add_message_to_tracking message_id max_tracked tracked
  | DeleteTracked => (delete_calculation_messages tracked).2
  | MenuClear current_mid => (menu_clear_tracked current_mid tracked).2
  end.

(** The ids handed to the tracker since the last deletion. *)
Definition tracked_since_delete (ops : list tracking_op) : list Z :=
  foldl (fun l op => match op with Track message_id => l ++ [message_id] | _ => [] end)
        [] ops.

(** [store] is [bot_data["pending_welcome_msgs"]]. *)
Definition add_pending_welcome_message (user_id : positive) (message_id max_tracked : Z)
    (store : gmap positive (list Z)) : gmap positive (list Z) :=
  <[user_id := append_tracked message_id max_tracked (default [] (store !! user_id))]> store.

(** [store.pop(user_id, None)] and the ids [bot.delete_message] is called
    with. *)
Definition delete_pending_welcome_messages (user_id : positive)
    (store : gmap positive (list Z)) : list Z * gmap positive (list Z) :=
  (default [] (store !! user_id), delete user_id store).

Inductive welcome_op :=
  | Welcome (user_id : positive) (message_id : Z)
  | Registered (user_id : positive).

Definition welcome_step (max_tracked : Z) (store : gmap positive (list Z)) (op : welcome_op)
  : gmap positive (list Z) :=
  match op with
  | Welcome user_id message_id => add_pending_welcome_message user_id message_id max_tracked store
  | Registered user_id => (delete_pending_welcome_messages user_id store).2
  end.

(** The welcome messages sent to [uid] since its pending list was last
    deleted. *)
Definition welcomes_since_delete (uid : positive) (ops : list welcome_op) : list Z :=
  foldl (fun l op =>
           match op with
           | Welcome user_id message_id => if decide (user_id = uid) then l ++ [message_id] else l
           | Registered user_id => if decide (user_id = uid) then [] else l
           end) [] ops.

(** ** The operator's panel *)

(** The keyboard [cmd_admin] shows, read in the state it leaves. *)
Definition cmd_admin_markup (w : world) : keyboard :=
  match pending_link_user_id w with
  | Some pending_uid =>
      if decide (pending_uid = ""%string) then kb_admin_customers (customers w)
      else kb_admin_quick_customers (customers w) pending_uid
  | None => kb_admin_customers (customers w)
  end.

(** ** Dispatch of callback queries *)

(** [s] without its prefix [p]; [None] when [s] does not start with [p]. *)
Fixpoint after_prefix (p s : string) : option string :=
  match p, s with
  | EmptyString, _ => Some s
  | String a p', String b s' => if Ascii.eqb a b then after_prefix p' s' else None
  | String _ _, EmptyString => None
  end.

(** [$] of a pattern: the end of the string, or the place before a newline
    that ends it. *)
Definition at_dollar (rest : string) : bool :=
  bool_decide (rest = EmptyString) || bool_decide (rest = String "010"%char EmptyString).

(** What is left of [s] after its leading ASCII digits. *)
Fixpoint skip_digits (s : string) : string :=
  match s with
  | EmptyString => EmptyString
  | String c rest => match digit_of_ascii c with Some _ => skip_digits rest | None => s end
  end.

(** [\d+$]: at least one digit, then the end. *)
Definition digits_dollar (rest : string) : bool :=
  match rest with
  | EmptyString => false
  | String c _ =>
      match digit_of_ascii c with Some _ => at_dollar (skip_digits rest) | None => false end
  end.

(** One literal alternative of a pattern that ends in [$]. *)
Definition literal_dollar (lit data : string) : bool :=
  match after_prefix lit data with Some rest => at_dollar rest | None => false end.

(** [^(admin_customer:\d+|admin_create_customer|admin_find_customer|admin_cancel)$] *)
Definition pattern_select_customer (data : string) : bool :=
  match after_prefix "admin_customer:" data with
  | Some rest => digits_dollar rest
  | None => false
  end
  || literal_dollar "admin_create_customer" data
  || literal_dollar "admin_find_customer" data
  || literal_dollar "admin_cancel" data.

(** The entry pattern of [admin_select_action]: one of nine prefixes. *)
Definition pattern_select_action (data : string) : bool :=
  startswith data "admin_action:" || startswith data "admin_delete_"
  || startswith data "admin_unlink_specific:" || startswith data "admin_add_amount:"
  || startswith data "admin_reset_sum:" || startswith data "admin_link_user:"
  || startswith data "admin_set_exact:" || startswith data "admin_user_info:"
  || startswith data "admin_visit_info:".

(** The callback-query handlers [main] adds to the application before the
    conversation, in the same group: the first handler of a group whose
    pattern matches takes the update, and the conversation does not see
    it. *)
Definition taken_before_conversation (data : string) : bool :=
  startswith data "admin_quick_link:" || startswith data "admin_panel"
  || startswith data "menu:" || startswith data "date:" || startswith data "time:".

(** [entry_points], in their order, for a callback query. *)
Definition entry_route (is_admin : bool) (data : string) : option wizard_call :=
  if startswith data "admin_panel" then Some (AdminOpenPanel is_admin data)
  else if pattern_select_customer data then Some (AdminSelectCustomer is_admin data)
  else if pattern_select_action data then Some (AdminSelectAction data)
  else None.

(** [states]: the callback-query handler of a state and its pattern; the
    states that wait for a text have none. *)
Definition state_route (s : wstate) (is_admin : bool) (data : string) : option wizard_call :=
  match s with
  | SELECT_CUSTOMER =>
      if startswith data "admin_" then Some (AdminSelectCustomer is_admin data) else None
  | SELECT_ACTION => if startswith data "admin_" then Some (AdminSelectAction data) else None
  | SELECT_DATE => if startswith data "admin_date:" then Some (AdminSelectDate data) else None
  | SELECT_KIND => if startswith data "admin_kind:" then Some (AdminSelectKind data) else None
  | SELECT_DURATION =>
      if startswith data "admin_duration:" then Some (AdminSelectDuration data) else None
  | SELECT_TARIFF_TYPE =>
      if startswith data "admin_tariff:" then Some (AdminSelectTariffType data) else None
  | CONFIRM_VISIT =>
      if startswith data "admin_confirm:" then Some (AdminConfirmVisit data) else None
  | _ => None
  end.

(** [fallbacks] *)
Definition fallback_route (data : string) : option wizard_call :=
  if startswith data "admin_cancel" then Some AdminCancel else None.

(** The handler of the conversation a callback query is handed to, if any:
    with [allow_reentry] the entry points are tried first, then the
    handlers of the state, then the fallbacks; without a conversation
    ([END]) only the entry points are tried. *)
Definition route_callback (s : wstate) (is_admin : bool) (data : string)
  : option wizard_call :=
  if taken_before_conversation data then None
  else
    match entry_route is_admin data with
    | Some call => Some call
    | None =>
        match s with
        | END => None
        | _ =>
            match state_route s is_admin data with
            | Some call => Some call
            | None => fallback_route data
            end
        end
    end.



(** * Properties *)

(** ** Decimal strings *)

Lemma digits_value_of_uint_acc d acc :
  digits_value (Z.pos acc) (NilEmpty.string_of_uint d) = Some (Z.pos (Pos.of_uint_acc d acc)).
Proof.
  revert acc; induction d; intros acc; simpl; try reflexivity;
    rewrite <- IHd; f_equal; lia.
Qed.

Lemma digits_value_of_uint d :
  digits_value 0 (NilEmpty.string_of_uint d) = Some (Z.of_N (Pos.of_uint d)).
Proof.
  induction d; simpl; try reflexivity; try assumption;
    apply digits_value_of_uint_acc.
Qed.

Lemma str_pos p : str (Z.pos p) = NilEmpty.string_of_uint (Pos.to_uint p).
Proof.
  unfold str; simpl.
  pose proof (Unsigned.to_uint_nonnil p) as Hnn.
  destruct (Pos.to_uint p); try reflexivity. congruence.
Qed.

Lemma string_of_uint_nonempty d : d <> Decimal.Nil -> NilEmpty.string_of_uint d <> EmptyString.
Proof. destruct d; simpl; congruence. Qed.

Lemma str_pos_nonempty p : str (Z.pos p) <> EmptyString.
Proof. rewrite str_pos. apply string_of_uint_nonempty, Unsigned.to_uint_nonnil. Qed.

Lemma str_nonempty n : str n <> EmptyString.
Proof.
  destruct n as [|p|p].
  - discriminate.
  - apply str_pos_nonempty.
  - unfold str; simpl. discriminate.
Qed.

(** [int(str(n)) == n] and [str(n).isdigit()] for a positive [n]. *)
Lemma digits_value_str_pos p : digits_value 0 (str (Z.pos p)) = Some (Z.pos p).
Proof. rewrite str_pos, digits_value_of_uint, Unsigned.of_to. reflexivity. Qed.

Lemma isdigit_str_pos p : isdigit (str (Z.pos p)) = true.
Proof.
  unfold isdigit. pose proof (str_pos_nonempty p) as Hne.
  destruct (str (Z.pos p)) eqn:Hs; [congruence|].
  rewrite <- Hs, digits_value_str_pos. apply bool_decide_eq_true. eauto.
Qed.

Lemma int_of_digits_str_pos p : int_of_digits (str (Z.pos p)) = Z.pos p.
Proof. unfold int_of_digits. rewrite digits_value_str_pos. reflexivity. Qed.

Lemma str_pos_inj p q : str (Z.pos p) = str (Z.pos q) -> p = q.
Proof.
  intros H. pose proof (int_of_digits_str_pos p) as Hp.
  rewrite H, int_of_digits_str_pos in Hp. congruence.
Qed.

(** ** Tariff resolver *)

Ltac split_elem :=
  repeat match goal with
         | H : _ ∈ _ :: _ |- _ => apply elem_of_cons in H as [-> | H]
         | H : _ ∈ [] |- _ => apply elem_of_nil in H; destruct H
         end.

(** A price that is found is a cell of the table the flag selects. *)
Lemma calc_price_row kind duration discount p :
  calc_price kind duration discount = Some p ->
  exists row,
    (if discount then TARIFFS_DISCOUNT else TARIFFS_STANDARD) !! kind = Some row /\
    row !! duration = Some p.
Proof.
  unfold calc_price. intros H.
  destruct ((if discount then TARIFFS_DISCOUNT else TARIFFS_STANDARD) !! kind) as [row|];
    simpl in H; [eauto|done].
Qed.

(** C6: on the closed space of five categories and four durations the
    lookup succeeds for both values of the discount flag, the price is
    positive, and it is the entry of the discount table when the flag is
    set and of the standard table otherwise. *)
Theorem calc_price_closed_space kind duration discount :
  kind ∈ KINDS -> duration ∈ DURATIONS ->
  exists p row,
    calc_price kind duration discount = Some p /\ 0 < p /\
    (if discount then TARIFFS_DISCOUNT else TARIFFS_STANDARD) !! kind = Some row /\
    row !! duration = Some p.
Proof.
  intros Hk Hd.
  assert (exists p, calc_price kind duration discount = Some p /\ 0 < p) as (p & Hp & Hpos).
  { unfold KINDS, DURATIONS in *. split_elem; destruct discount;
      (eexists; split; [vm_compute; reflexivity|reflexivity]). }
  destruct (calc_price_row _ _ _ _ Hp) as (row & Hrow & Hcell). eauto 6.
Qed.

Lemma calc_price_closed_space_witness :
  exists p row,
    calc_price "holiday" "night_8" false = Some p /\ 0 < p /\
    TARIFFS_STANDARD !! "holiday"%string = Some row /\ row !! "night_8"%string = Some p.
Proof.
  apply (calc_price_closed_space "holiday" "night_8" false);
    unfold KINDS, DURATIONS; set_solver.
Defined.

(** Outside the closed space the lookup fails. *)
Lemma calc_price_unknown_kind kind duration discount :
  kind ∉ KINDS -> calc_price kind duration discount = None.
Proof.
  unfold KINDS. rewrite !not_elem_of_cons. intros (H1 & H2 & H3 & H4 & H5 & _).
  unfold calc_price. destruct discount; simpl;
    unfold TARIFFS_DISCOUNT, TARIFFS_STANDARD; simpl;
    rewrite !lookup_insert_ne, lookup_empty by done; reflexivity.
Qed.

(** When both clock reads return the same instant, [classify_kind] is the
    classification of the specification: holiday first, then same day,
    then next day from 17:00, else exact; and the three cases of scenario C
    hold with an empty holiday calendar. *)
Theorem classify_kind_refines_spec :
  (forall E now selected_date,
      classify_kind E now now selected_date
      = category_name (classify_spec (is_holiday E) selected_date now)) /\
  (forall today,
      classify_kind (lib_with_holidays ∅)
        {| dt_date := today; dt_hour := 10 |} {| dt_date := today; dt_hour := 10 |}
        today = "urgent_today"%string) /\
  (forall today,
      classify_kind (lib_with_holidays ∅)
        {| dt_date := today; dt_hour := 18 |} {| dt_date := today; dt_hour := 18 |}
        (today + 1) = "urgent_tomorrow"%string) /\
  (forall today,
      classify_kind (lib_with_holidays ∅)
        {| dt_date := today; dt_hour := 10 |} {| dt_date := today; dt_hour := 10 |}
        (today + 1) = "exact"%string).
Proof.
  split; [|split; [|split]].
  - intros E now d. unfold classify_kind, classify_spec.
    destruct (is_holiday E d); [reflexivity|].
    destruct (Z.eqb_spec d (dt_date now)); destruct (decide (d = dt_date now));
      try congruence; try reflexivity.
    destruct (Z.eqb_spec d (dt_date now + 1)); destruct (Z.leb_spec 17 (dt_hour now));
      destruct (decide (d = dt_date now + 1 /\ 17 <= dt_hour now)) as [[? ?]|Hn]; simpl;
      try reflexivity; try lia; exfalso; apply Hn; split; lia.
  - intros today. unfold classify_kind; simpl. rewrite Z.eqb_refl. reflexivity.
  - intros today. unfold classify_kind; simpl.
    destruct (Z.eqb_spec (today + 1) today); [lia|]. rewrite Z.eqb_refl. reflexivity.
  - intros today. unfold classify_kind; simpl.
    destruct (Z.eqb_spec (today + 1) today); [lia|]. rewrite Z.eqb_refl. reflexivity.
Qed.

(** C5: [classify_kind] reads the clock twice, first for today's date and
    then for the hour.  What it returns is the specification's
    classification at the date of the first read and the hour of the
    second; when both reads fall on the same day this is the
    classification at the second read.  When midnight passes between the
    reads it is not a classification at either instant: for the day after
    the first read, not a holiday, the code answers "exact", while the
    specification says urgent-tomorrow at the first instant (from 17:00)
    and urgent-today at the second. *)
Theorem classify_kind_reads_clock_twice :
  (forall E now1 now2 selected_date,
      classify_kind E now1 now2 selected_date
      = category_name
          (classify_spec (is_holiday E) selected_date
             {| dt_date := dt_date now1; dt_hour := dt_hour now2 |})) /\
  (forall E now1 now2 selected_date,
      dt_date now1 = dt_date now2 ->
      classify_kind E now1 now2 selected_date
      = category_name (classify_spec (is_holiday E) selected_date now2)) /\
  (forall E today h,
      is_holiday E (today + 1) = false -> 17 <= h ->
      classify_kind E {| dt_date := today; dt_hour := h |}
        {| dt_date := today + 1; dt_hour := 0 |} (today + 1) = "exact"%string /\
      classify_spec (is_holiday E) (today + 1) {| dt_date := today; dt_hour := h |}
      = UrgentTomorrow /\
      classify_spec (is_holiday E) (today + 1) {| dt_date := today + 1; dt_hour := 0 |}
      = UrgentToday) /\
  (classify_kind (lib_with_holidays ∅) {| dt_date := 739000; dt_hour := 23 |}
     {| dt_date := 739001; dt_hour := 0 |} 739001 = "exact"%string /\
   category_name
     (classify_spec (is_holiday (lib_with_holidays ∅)) 739001
        {| dt_date := 739000; dt_hour := 23 |}) = "urgent_tomorrow"%string /\
   category_name
     (classify_spec (is_holiday (lib_with_holidays ∅)) 739001
        {| dt_date := 739001; dt_hour := 0 |}) = "urgent_today"%string).
Proof.
  assert (forall E now1 now2 d,
             classify_kind E now1 now2 d
             = category_name
                 (classify_spec (is_holiday E) d
                    {| dt_date := dt_date now1; dt_hour := dt_hour now2 |})) as Hmix.
  { intros E now1 now2 d. unfold classify_kind, classify_spec. simpl.
    destruct (is_holiday E d); [reflexivity|].
    destruct (Z.eqb_spec d (dt_date now1)); destruct (decide (d = dt_date now1));
      try congruence; try reflexivity.
    destruct (Z.eqb_spec d (dt_date now1 + 1)); destruct (Z.leb_spec 17 (dt_hour now2));
      destruct (decide (d = dt_date now1 + 1 /\ 17 <= dt_hour now2)) as [[? ?]|Hn]; simpl;
      try reflexivity; try lia; exfalso; apply Hn; split; lia. }
  split; [exact Hmix|]. split; [|split].
  - intros E now1 now2 d Hday. rewrite Hmix, Hday. by destruct now2.
  - intros E today h Hhol Hh. split; [|split].
    + rewrite Hmix. unfold classify_spec. simpl. rewrite Hhol.
      rewrite decide_False by lia. by rewrite decide_False by lia.
    + unfold classify_spec. simpl. rewrite Hhol.
      rewrite decide_False by lia. by rewrite decide_True by lia.
    + unfold classify_spec. simpl. rewrite Hhol. by rewrite decide_True.
  - split; [|split]; vm_compute; reflexivity.
Qed.

(** Holiday wins over both urgencies, whatever the clock says. *)
Lemma classify_kind_holiday_first E now1 now2 d :
  is_holiday E d = true -> classify_kind E now1 now2 d = "holiday"%string.
Proof. unfold classify_kind. by intros ->. Qed.

(** ** Reasoning about handlers *)

Section Keeps.
Context (P : relation world) {HP : PreOrder P}.

Lemma keeps_from_keeps {A} (m : M A) w : keeps P m -> keeps_from P w m.
Proof. intros H. apply H. Qed.

Lemma keeps_pure {A} (m : M A) : (forall w, (m w).1 = w) -> keeps P m.
Proof. intros H w. unfold keeps_from. rewrite H. reflexivity. Qed.

Lemma keeps_ret {A} (a : A) : keeps P (ret a).
Proof. by apply keeps_pure. Qed.

Lemma keeps_raise {A} e : keeps P (@raise A e).
Proof. by apply keeps_pure. Qed.

Lemma keeps_get : keeps P get.
Proof. by apply keeps_pure. Qed.

Lemma keeps_lookup_or {A} e (o : option A) : keeps P (lookup_or e o).
Proof. apply keeps_pure. by destruct o. Qed.

Lemma keeps_bind {A B} (m : M A) (k : A -> M B) :
  keeps P m -> (forall a, keeps P (k a)) -> keeps P (bind m k).
Proof.
  intros Hm Hk w. unfold keeps_from, bind. specialize (Hm w). unfold keeps_from in Hm.
  destruct (m w) as [w' [e|a]]; simpl in *; [exact Hm|].
  etrans; [exact Hm|]. apply Hk.
Qed.

Lemma keeps_bind_get {B} (k : world -> M B) :
  (forall w, keeps_from P w (k w)) -> keeps P (bind get k).
Proof. intros Hk w. apply Hk. Qed.

Lemma keeps_bind_assoc {A B C} (m : M A) (f : A -> M B) (k : B -> M C) :
  keeps P (bind m (fun a => bind (f a) k)) -> keeps P (bind (bind m f) k).
Proof.
  intros H w. specialize (H w). unfold keeps_from, bind in *.
  destruct (m w) as [w' [e|a]]; simpl in *; exact H.
Qed.

Lemma keeps_try {A} (m : M A) (h : exn -> M A) :
  keeps P m -> (forall e, keeps P (h e)) -> keeps P (try_except m h).
Proof.
  intros Hm Hh w. unfold keeps_from, try_except. specialize (Hm w). unfold keeps_from in Hm.
  destruct (m w) as [w' [e|a]]; simpl in *; [|exact Hm].
  etrans; [exact Hm|]. apply Hh.
Qed.

Lemma keeps_from_bind_get {B} (k : world -> M B) w :
  keeps_from P w (k w) -> keeps_from P w (bind get k).
Proof. intros Hk. apply Hk. Qed.

Lemma keeps_from_bind_lookup {A B} e (o : option A) (k : A -> M B) w :
  (forall a, o = Some a -> keeps_from P w (k a)) ->
  keeps_from P w (bind (lookup_or e o) k).
Proof.
  intros Hk. destruct o as [a|]; simpl.
  - by apply Hk.
  - unfold keeps_from, bind; simpl. reflexivity.
Qed.

Lemma keeps_from_bind_assoc {A B C} (m : M A) (f : A -> M B) (k : B -> M C) w :
  keeps_from P w (bind m (fun a => bind (f a) k)) -> keeps_from P w (bind (bind m f) k).
Proof.
  unfold keeps_from, bind. destruct (m w) as [w' [e|a]]; simpl; auto.
Qed.

Lemma keeps_from_bind {A B} (m : M A) (k : A -> M B) w :
  keeps_from P w m -> (forall a, keeps P (k a)) -> keeps_from P w (bind m k).
Proof.
  unfold keeps_from, bind. intros Hm Hk.
  destruct (m w) as [w' [e|a]]; simpl in *; [exact Hm|].
  etrans; [exact Hm|]. apply Hk.
Qed.

Lemma keeps_from_try {A} (m : M A) (h : exn -> M A) w :
  keeps_from P w m -> (forall e, keeps P (h e)) -> keeps_from P w (try_except m h).
Proof.
  unfold keeps_from, try_except. intros Hm Hh.
  destruct (m w) as [w' [e|a]]; simpl in *; [|exact Hm].
  etrans; [exact Hm|]. apply Hh.
Qed.
End Keeps.

Lemma render_visits_pure E vs w : (render_visits E vs w).1 = w.
Proof.
  induction vs as [|v vs IH]; simpl; [reflexivity|].
  unfold bind, render_date.
  destruct (decide (v_date v = "free")); simpl; [apply IH|].
  unfold bind, lookup_or. destruct (strptime E (v_date v)); simpl; [apply IH|reflexivity].
Qed.

Lemma keeps_render_visits P {HP : PreOrder P} E vs : keeps P (render_visits E vs).
Proof. apply keeps_pure; [done|]. apply render_visits_pure. Qed.

(** Unfolding of the derived operations into the primitive ones. *)
Ltac mprim :=
  unfold update_customer, customer_at, store_customer, draft_update, draft_field,
    render_date, unlink_everywhere in *.

(** One syntax-directed step of a [keeps] proof; what a [modify] does is
    left to the caller. *)
Ltac mstep :=
  lazymatch goal with
  | |- keeps ?P (bind (bind _ _) _) => apply (keeps_bind_assoc P)
  | |- keeps ?P (bind get _) => apply (keeps_bind_get P); intros ?
  | |- keeps ?P (bind _ _) => apply (keeps_bind P); [ | intros ? ]
  | |- keeps ?P (try_except _ _) => apply (keeps_try P); [ | intros ? ]
  | |- keeps ?P (ret _) => apply (keeps_ret P)
  | |- keeps ?P (raise _) => apply (keeps_raise P)
  | |- keeps ?P get => apply (keeps_get P)
  | |- keeps ?P (lookup_or _ _) => apply (keeps_lookup_or P)
  | |- keeps ?P (render_visits _ _) => apply (keeps_render_visits P)
  | |- keeps_from ?P _ (bind (bind _ _) _) => apply (keeps_from_bind_assoc P)
  | |- keeps_from ?P _ (bind get _) => apply (keeps_from_bind_get P)
  | |- keeps_from ?P _ (bind (lookup_or _ _) _) =>
      apply (keeps_from_bind_lookup P); intros ? ?
  | |- keeps_from ?P _ (bind _ _) => apply (keeps_from_bind P); [ | intros ? ]
  | |- keeps_from ?P _ (try_except _ _) => apply (keeps_from_try P); [ | intros ? ]
  | |- keeps_from ?P _ (ret _) => apply (keeps_from_keeps P), (keeps_ret P)
  | |- keeps_from ?P _ (raise _) => apply (keeps_from_keeps P), (keeps_raise P)
  | |- keeps_from ?P _ (lookup_or _ _) => apply (keeps_from_keeps P), (keeps_lookup_or P)
  | |- keeps_from ?P _ (render_visits _ _) =>
      apply (keeps_from_keeps P), (keeps_render_visits P)
  | |- keeps _ (if ?b then _ else _) => destruct b
  | |- keeps_from _ _ (if ?b then _ else _) => destruct b
  | |- keeps _ (match ?x with _ => _ end) => destruct x
  | |- keeps_from _ _ (match ?x with _ => _ end) => destruct x eqn:?
  end.

(** ** Discount flag *)

Lemma recalc_discount_ok c : flag_ok (recalc_discount c).
Proof.
  unfold flag_ok, recalc_discount, eligible.
  destruct (Z.leb_spec 4 (Z.of_nat (length (visits c))));
    destruct (Z.leb_spec 60000 (projects_sum c)); simpl;
    repeat case_bool_decide; simpl; try reflexivity; lia.
Qed.

Lemma new_customer_ok nm : flag_ok (new_customer nm).
Proof. reflexivity. Qed.

Lemma ledger_kept_refl L : ledger_kept L L.
Proof. intros cid c' H. left. eauto. Qed.

Lemma ledger_kept_trans L1 L2 L3 : ledger_kept L1 L2 -> ledger_kept L2 L3 -> ledger_kept L1 L3.
Proof.
  intros H12 H23 cid c3 H3.
  destruct (H23 _ _ H3) as [(c2 & H2 & Hv & Hs & Hd)|Hok]; [|by right].
  destruct (H12 _ _ H2) as [(c1 & H1 & Hv1 & Hs1 & Hd1)|Hok].
  - left. exists c1. repeat split; congruence.
  - right. unfold flag_ok, eligible in *. rewrite Hd, Hv, Hs. exact Hok.
Qed.

#[local] Instance world_ledger_kept_preorder : PreOrder world_ledger_kept.
Proof.
  split.
  - intros w. apply ledger_kept_refl.
  - intros w1 w2 w3. apply ledger_kept_trans.
Qed.

Lemma ledger_kept_insert_ok L cid c : flag_ok c -> ledger_kept L (<[cid := c]> L).
Proof.
  intros Hok k c' H. destruct (decide (cid = k)) as [->|Hne].
  - rewrite lookup_insert_eq in H. right. congruence.
  - rewrite lookup_insert_ne in H by done. left; eauto.
Qed.

Lemma ledger_kept_insert_same L cid c0 c :
  L !! cid = Some c0 -> visits c = visits c0 -> projects_sum c = projects_sum c0 ->
  discount c = discount c0 -> ledger_kept L (<[cid := c]> L).
Proof.
  intros H0 Hv Hs Hd k c' H. destruct (decide (cid = k)) as [->|Hne].
  - rewrite lookup_insert_eq in H. left. exists c0. simplify_eq. done.
  - rewrite lookup_insert_ne in H by done. left; eauto.
Qed.

Lemma ledger_kept_delete L cid : ledger_kept L (delete cid L).
Proof.
  intros k c' H. apply lookup_delete_Some in H as [_ H]. left; eauto.
Qed.

Lemma ledger_kept_fmap L (g : customer -> customer) :
  (forall c, visits (g c) = visits c /\ projects_sum (g c) = projects_sum c /\
             discount (g c) = discount c) ->
  ledger_kept L (g <$> L).
Proof.
  intros Hg k c' H. rewrite lookup_fmap in H.
  destruct (L !! k) as [c|] eqn:Hk; simpl in H; [|done]. simplify_eq.
  left. exists c. split; [done|]. apply Hg.
Qed.

(** What a [modify] does to the ledger, for [world_ledger_kept]. *)
Ltac ledger_leaf :=
  lazymatch goal with
  | |- keeps _ (modify _) => intros ?
  | |- keeps_from _ _ (modify _) => idtac
  end;
  unfold keeps_from, modify, world_ledger_kept; simpl;
  first
    [ apply ledger_kept_refl
    | apply ledger_kept_delete
    | apply ledger_kept_insert_ok;
      first [ apply recalc_discount_ok | apply new_customer_ok ]
    | eapply ledger_kept_insert_same; [eassumption | reflexivity ..]
    | apply ledger_kept_fmap; intros ?; unfold without_actor; case_decide; done ].

Ltac munfold_wizard :=
  unfold admin_open_panel, cmd_admin, admin_select_customer, admin_create_customer_handler,
    admin_find_customer_handler, admin_select_action, select_action_delete,
    select_action_menu, admin_link_user_handler, admin_set_sum_handler, admin_select_date,
    admin_select_kind, admin_select_duration, admin_select_tariff_type,
    admin_confirm_visit, admin_cancel, link_user, ensure_customer, generate_customer_id.

Lemma wizard_keeps_ledger E call : keeps world_ledger_kept (run_call E call).
Proof.
  destruct call; simpl; munfold_wizard; mprim; repeat mstep; try ledger_leaf.
Qed.

Ltac munfold_commands :=
  unfold admin_quick_link, cmd_register, cmd_create, cmd_link, cmd_unlink, cmd_addsum,
    cmd_setsum, cmd_remove, cmd_clearvisits, link_user, ensure_customer,
    generate_customer_id.

Lemma command_keeps_ledger E c : keeps world_ledger_kept (run_command E c).
Proof.
  destruct c; simpl; munfold_commands; mprim; repeat mstep; try ledger_leaf.
Qed.

Lemma after_call_keeps_ledger E call w :
  ledger_kept (customers w) (customers (after_call E call w)).
Proof.
  destruct call as [c|c]; simpl.
  - apply (wizard_keeps_ledger E c w).
  - apply (command_keeps_ledger E c w).
Qed.

Lemma eligible_iff c :
  eligible c = true <-> (4 <= length (visits c))%nat \/ 60000 <= projects_sum c.
Proof.
  unfold eligible. rewrite orb_true_iff, !bool_decide_eq_true. reflexivity.
Qed.



(** Every handler keeps a ledger whose flags are all right in that state. *)
Lemma flags_stay_ok E call w :
  (forall cid c, customers w !! cid = Some c -> flag_ok c) ->
  forall cid c, customers (after_call E call w) !! cid = Some c -> flag_ok c.
Proof.
  intros Hok cid c' H.
  destruct (after_call_keeps_ledger E call w cid c' H) as [(c & Hc & Hv & Hs & Hd)|]; [|done].
  specialize (Hok _ _ Hc). unfold flag_ok, eligible in *. by rewrite Hd, Hv, Hs.
Qed.

(** ** Visits only grow on confirmation *)

#[local] Instance visits_bounded_preorder : PreOrder visits_bounded.
Proof.
  split.
  - intros w cid. reflexivity.
  - intros w1 w2 w3 H12 H23 cid. etrans; [apply H23|apply H12].
Qed.

Lemma visits_bounded_same w w' : customers w' = customers w -> visits_bounded w w'.
Proof. intros H cid. unfold visits_at. rewrite H. reflexivity. Qed.

Lemma visits_bounded_insert w cid c x :
  customers w !! cid = Some c -> (length (visits x) <= length (visits c))%nat ->
  visits_bounded w (set_customers (fun L => <[cid := x]> L) w).
Proof.
  intros Hc Hle k. unfold visits_at; simpl.
  destruct (decide (cid = k)) as [->|Hne].
  - rewrite lookup_insert_eq, Hc. simpl. exact Hle.
  - rewrite lookup_insert_ne by done. reflexivity.
Qed.

Lemma visits_bounded_insert_nil w cid x :
  visits x = [] -> visits_bounded w (set_customers (fun L => <[cid := x]> L) w).
Proof.
  intros Hx k. unfold visits_at; simpl.
  destruct (decide (cid = k)) as [->|Hne].
  - rewrite lookup_insert_eq. simpl. rewrite Hx. simpl. lia.
  - rewrite lookup_insert_ne by done. reflexivity.
Qed.

Lemma visits_bounded_delete w cid : visits_bounded w (set_customers (delete cid) w).
Proof.
  intros k. unfold visits_at; simpl.
  destruct (decide (cid = k)) as [->|Hne].
  - rewrite lookup_delete_eq. simpl. lia.
  - rewrite lookup_delete_ne by done. reflexivity.
Qed.

Lemma visits_bounded_fmap w (g : customer -> customer) :
  (forall c, visits (g c) = visits c) -> visits_bounded w (set_customers (fmap g) w).
Proof.
  intros Hg k. unfold visits_at; simpl. rewrite lookup_fmap.
  destruct (customers w !! k); simpl; [rewrite Hg|]; reflexivity.
Qed.

Lemma length_list_pop {A} i (l : list A) : (length (list_pop i l) <= length l)%nat.
Proof.
  unfold list_pop. rewrite length_app, length_take, length_drop. lia.
Qed.

Lemma visits_recalc c : visits (recalc_discount c) = visits c.
Proof. unfold recalc_discount. by case_match. Qed.

Ltac visits_leaf :=
  lazymatch goal with
  | |- keeps _ (modify _) => intros ?
  | |- keeps_from _ _ (modify _) => idtac
  end;
  unfold keeps_from, modify; simpl;
  first
    [ by apply visits_bounded_same
    | apply visits_bounded_delete
    | apply visits_bounded_insert_nil; first [reflexivity | by rewrite visits_recalc]
    | eapply visits_bounded_insert; [eassumption|];
      first [ reflexivity | rewrite visits_recalc; simpl; first [reflexivity | apply length_list_pop] ]
    | apply visits_bounded_fmap; intros ?; unfold without_actor; by case_decide ].

Lemma wizard_keeps_visits E call :
  call <> AdminConfirmVisit "admin_confirm:yes" ->
  keeps visits_bounded (run_call E call).
Proof.
  intros Hcall.
  destruct call; simpl; munfold_wizard; mprim; repeat mstep; try congruence;
    unfold append_visit, pop_visit, clear_visits, add_to_sum, set_sum, reset_sum;
    try visits_leaf.

Qed.

(** ** The draft's price *)

#[local] Instance draft_kept_preorder : PreOrder draft_kept.
Proof.
  split.
  - intros w H. exact H.
  - intros w1 w2 w3 H12 H23 H. auto.
Qed.

Lemma draft_kept_same w w' : admin_visit w' = admin_visit w -> draft_kept w w'.
Proof. intros H Hp d Hd. apply Hp. congruence. Qed.

Lemma draft_kept_none w w' : admin_visit w' = None -> draft_kept w w'.
Proof. intros H _ d Hd. congruence. Qed.

Lemma draft_kept_update w w' d d' :
  admin_visit w = Some d -> admin_visit w' = Some d' ->
  d_kind d' = d_kind d -> d_duration d' = d_duration d ->
  d_tariff_type d' = d_tariff_type d -> d_price d' = d_price d ->
  draft_kept w w'.
Proof.
  intros Hd Hd' Hk Hdu Ht Hp Hpr d0 Hd0. simplify_eq.
  intros k du t p. rewrite Hk, Hdu, Ht, Hp. by apply Hpr.
Qed.

Lemma draft_kept_fresh w w' d' :
  admin_visit w' = Some d' -> d_kind d' = None -> draft_kept w w'.
Proof. intros Hd' Hk _ d0 Hd0. simplify_eq. intros k du t p. congruence. Qed.

Ltac draft_leaf :=
  lazymatch goal with
  | |- keeps _ (modify _) => intros ?
  | |- keeps_from _ _ (modify _) => idtac
  end;
  unfold keeps_from, modify; simpl;
  first
    [ by apply draft_kept_same
    | by apply draft_kept_none
    | by eapply draft_kept_fresh
    | by eapply draft_kept_update ].

Lemma wizard_keeps_draft E call :
  edits_pricing call = false -> keeps draft_kept (run_call E call).
Proof.
  intros Hcall.
  destruct call; simpl in *; try discriminate; munfold_wizard; mprim; repeat mstep;
    try draft_leaf.
Qed.

(** ** What the handlers return *)

Lemma returns_ret {A} (Q : A -> Prop) a : Q a -> returns Q (ret a).
Proof. intros H w a' E. simpl in E. by simplify_eq. Qed.

Lemma returns_raise {A} (Q : A -> Prop) e : returns Q (raise e).
Proof. intros w a E. discriminate. Qed.

Lemma returns_bind_with {A B} (Q' : A -> Prop) (Q : B -> Prop) (m : M A) (k : A -> M B) :
  returns Q' m -> (forall a, Q' a -> returns Q (k a)) -> returns Q (bind m k).
Proof.
  intros Hm Hk w b. unfold bind. specialize (Hm w).
  destruct (m w) as [w' [e|a]]; simpl in *; [discriminate|].
  apply Hk. by apply Hm.
Qed.

Lemma returns_bind {A B} (Q : B -> Prop) (m : M A) (k : A -> M B) :
  (forall a, returns Q (k a)) -> returns Q (bind m k).
Proof.
  intros Hk. apply (returns_bind_with (fun _ => True)); [done|]. intros a _. apply Hk.
Qed.

Lemma returns_try {A} (Q : A -> Prop) (m : M A) (h : exn -> M A) :
  returns Q m -> (forall e, returns Q (h e)) -> returns Q (try_except m h).
Proof.
  intros Hm Hh w a. unfold try_except. specialize (Hm w).
  destruct (m w) as [w' [e|a']]; simpl in *; [apply Hh|apply Hm].
Qed.

Ltac rstep :=
  lazymatch goal with
  | |- returns _ (bind _ _) => apply returns_bind; intros ?
  | |- returns _ (try_except _ _) => apply returns_try; [ | intros ? ]
  | |- returns _ (ret _) => apply returns_ret
  | |- returns _ (raise _) => apply returns_raise
  | |- returns _ (if ?b then _ else _) => destruct b
  | |- returns _ (match ?x with _ => _ end) => destruct x
  end.

Lemma select_action_delete_returns E data :
  returns (fun early => forall r, early = Some r -> not_confirm r) (select_action_delete E data).
Proof.
  unfold select_action_delete. repeat rstep; intros r Hr; by simplify_eq.
Qed.

Lemma wizard_returns_confirm E call :
  (forall data, call <> AdminSelectTariffType data) ->
  returns not_confirm (run_call E call).
Proof.
  intros Hcall. destruct call; simpl;
    try (exfalso; by eapply Hcall);
    unfold admin_open_panel, cmd_admin, admin_select_customer, admin_create_customer_handler,
      admin_find_customer_handler, select_action_menu, admin_link_user_handler,
      admin_set_sum_handler, admin_select_date, admin_select_kind, admin_select_duration,
      admin_confirm_visit, admin_cancel;
    try (repeat rstep; done).
  unfold admin_select_action. rstep; [by rstep|].
  eapply returns_bind_with; [apply select_action_delete_returns|].
  intros early Hearly. destruct early as [r|].
  - apply returns_ret. by apply Hearly.
  - unfold select_action_menu. repeat rstep; done.
Qed.

(** A tariff choice that reaches CONFIRM leaves a priced draft. *)
Lemma tariff_choice_prices E data w :
  (admin_select_tariff_type E data w).2 = inr (Some CONFIRM_VISIT) ->
  draft_priced (admin_select_tariff_type E data w).1.
Proof.
  unfold admin_select_tariff_type. mprim.
  unfold bind, lookup_or, ret, raise, get, modify.
  repeat (case_match; simplify_eq/=); try done.
  all: intros _ dd Hdd; simpl in Hdd; simplify_eq; intros k du t p; simpl; intros;
    simplify_eq; done.
Qed.

(** ** The conversation *)

Lemma enabled_in_confirm call : enabled CONFIRM_VISIT call = true -> edits_pricing call = false.
Proof. by destruct call. Qed.

Lemma standalone_no_pricing call : standalone call = true -> edits_pricing call = false.
Proof. by destruct call. Qed.

Lemma step_confirm_inv E c c' : step E c c' -> confirm_inv c -> confirm_inv c'.
Proof.
  intros Hstep Hinv. destruct Hstep as [c call c' Hcs|c call Hst|c w' Hsame]; intros Hconv.
  - unfold conversation_step in Hcs. destruct (enabled (conv c) call) eqn:Hen; [|done].
    simplify_eq. simpl in *.
    destruct (run_call E call (st c)).2 as [e|[s|]] eqn:Hr; simpl in Hconv.
    + rewrite Hconv in Hen.
      apply (wizard_keeps_draft E call (enabled_in_confirm _ Hen)). by apply Hinv.
    + subst s. destruct (edits_pricing call) eqn:Hed.
      * destruct call; try discriminate.
        -- by destruct (wizard_returns_confirm E (AdminSelectKind data) ltac:(done) _ _ Hr).
        -- by destruct (wizard_returns_confirm E (AdminSelectDuration data) ltac:(done) _ _ Hr).
        -- by apply tariff_choice_prices.
      * destruct (wizard_returns_confirm E call) with (w := st c) (a := Some CONFIRM_VISIT);
          [|done|done]. intros data ->. discriminate.
    + rewrite Hconv in Hen.
      apply (wizard_keeps_draft E call (enabled_in_confirm _ Hen)). by apply Hinv.
  - simpl in *. apply (wizard_keeps_draft E call (standalone_no_pricing _ Hst)). by apply Hinv.
  - simpl in *. intros d Hd. apply (Hinv Hconv). congruence.
Qed.

Lemma reachable_confirm_inv E c : reachable E c -> confirm_inv c.
Proof.
  intros (c0 & [Hconv0 _] & Hrtc).
  assert (confirm_inv c0) as Hinv0 by (intros Hc; congruence).
  clear Hconv0. induction Hrtc as [c|c1 c2 c3 Hstep _ IH]; [done|].
  apply IH. by eapply step_confirm_inv.
Qed.

(** What a confirmation does when it goes through. *)
Lemma confirm_yes_effect w w' r :
  admin_confirm_visit "admin_confirm:yes" w = (w', inr r) ->
  exists d cid date kind duration price tariff_type cust,
    admin_visit w = Some d /\
    d_cid d = Some cid /\ d_date d = Some date /\ d_kind d = Some kind /\
    d_duration d = Some duration /\ d_price d = Some price /\
    d_tariff_type d = Some tariff_type /\
    customers w !! cid = Some cust /\
    w' = set_customers (fun L => <[cid :=
           append_visit {| v_date := date; v_kind := kind; v_duration := duration;
                           v_price := price; v_tariff_type := tariff_type |} cust]> L) w /\
    r = Some END.
Proof.
  unfold admin_confirm_visit. mprim.
  unfold bind, lookup_or, ret, raise, get, modify.
  repeat (case_match; simplify_eq/=); try done.
  intros ?; simplify_eq. do 8 eexists. repeat split; eauto.
Qed.

#[local] Instance wizard_call_eq_dec : EqDecision wizard_call.
Proof. solve_decision. Defined.

(** C4: a handler call after which some customer has more visits than
    before is the confirmation; in every reachable configuration in state
    CONFIRM, a confirmation that goes through appends one visit made of the
    draft's date, category, duration and tariff type, whose price is the
    tariff price of that category, duration and tariff type; and in
    scenario D the committed visit carries the second tariff choice. *)
Theorem confirm_commits_latest_choices E :
  (forall call w cid,
      (length (visits_at w cid) < length (visits_at (run_call E call w).1 cid))%nat ->
      call = AdminConfirmVisit "admin_confirm:yes") /\
  (forall c w' r,
      reachable E c -> conv c = CONFIRM_VISIT ->
      admin_confirm_visit "admin_confirm:yes" (st c) = (w', inr r) ->
      exists d cid v,
        admin_visit (st c) = Some d /\ d_cid d = Some cid /\
        d_date d = Some (v_date v) /\ d_kind d = Some (v_kind v) /\
        d_duration d = Some (v_duration v) /\ d_tariff_type d = Some (v_tariff_type v) /\
        visits_at w' cid = visits_at (st c) cid ++ [v] /\
        calc_price (v_kind v) (v_duration v) (bool_decide (v_tariff_type v = "discount"))
          = Some (v_price v)) /\
  (exists c,
      run_conversation E scenario_D_calls scenario_D_start = Some c /\
      conv c = END /\
      visits_at (st c) "1" =
        [ {| v_date := "free"; v_kind := "exact"; v_duration := "4";
             v_price := 25000; v_tariff_type := "standard" |} ]).
Proof.
  split; [|split].
  - intros call w cid Hlt.
    destruct (decide (call = AdminConfirmVisit "admin_confirm:yes")) as [|Hne]; [done|].
    pose proof (wizard_keeps_visits E call Hne w cid) as Hle. lia.
  - intros c w' r Hreach Hconv Hrun.
    apply confirm_yes_effect in Hrun
      as (d & cid & date & kind & duration & price & tariff & cust & Hd & Hcid & Hdate & Hkind
          & Hdur & Hprice & Htar & Hcust & -> & ->).
    exists d, cid, {| v_date := date; v_kind := kind; v_duration := duration;
                      v_price := price; v_tariff_type := tariff |}.
    simpl. repeat split; try done.
    + unfold visits_at; simpl. rewrite lookup_insert_eq, Hcust. simpl.
      unfold append_visit. by rewrite visits_recalc.
    + by apply (reachable_confirm_inv E c Hreach Hconv d Hd).
  - eexists. split; [vm_compute; reflexivity|]. split; vm_compute; reflexivity.
Qed.

(** ** Quote sessions *)

Lemma calc_store_start ms t uid w :
  calc_store (start_or_restart_calc_session ms t uid w).1
  = <[uid := {| session := str ms; ts := t |}]> (calc_store w).
Proof. simpl. apply insert_delete_eq. Qed.

Lemma calc_store_reset uid w : calc_store (reset_calc_session uid w) = delete uid (calc_store w).
Proof. reflexivity. Qed.

Lemma calc_store_touch t uid w :
  calc_store (touch_calc_session t uid w)
  = match calc_store w !! uid with
    | Some s => <[uid := {| session := session s; ts := t |}]> (calc_store w)
    | None => calc_store w
    end.
Proof. unfold touch_calc_session. by destruct (calc_store w !! uid). Qed.

Lemma calc_store_timeout j w :
  calc_store (_calc_timeout_job j w) = delete (job_user_id j) (calc_store w).
Proof.
  unfold _calc_timeout_job. destruct (calc_store w !! job_user_id j) eqn:H; simpl; [done|].
  symmetry. by apply delete_id.
Qed.

Lemma run_ops_snoc ops o w : run_ops (ops ++ [o]) w = apply_op (run_ops ops w) o.
Proof. unfold run_ops. by rewrite foldl_app. Qed.

Lemma last_issued_snoc ops o uid :
  last_issued (ops ++ [o]) uid
  = match issued_to uid o with Some tok => Some tok | None => last_issued ops uid end.
Proof.
  unfold last_issued. rewrite omap_app. simpl.
  destruct (issued_to uid o); simpl.
  - by rewrite last_snoc.
  - by rewrite app_nil_r.
Qed.

Lemma last_issued_is_str ops uid tok : last_issued ops uid = Some tok -> exists ms, tok = str ms.
Proof.
  induction ops as [|o ops IH] using rev_ind; [done|].
  rewrite last_issued_snoc. destruct o; simpl; try apply IH.
  case_decide; [|apply IH]. intros ?; simplify_eq. eauto.
Qed.

(** A stored session carries the token of the actor's latest start. *)
Lemma stored_session_is_latest ops uid s :
  calc_store (run_ops ops initial_world) !! uid = Some s ->
  last_issued ops uid = Some (session s).
Proof.
  revert uid s. induction ops as [|o ops IH] using rev_ind; intros uid s.
  - simpl. by rewrite lookup_empty.
  - rewrite run_ops_snoc, last_issued_snoc.
    set (w := run_ops ops initial_world) in *.
    destruct o as [u ms t|u t|u|i]; simpl.
    + rewrite insert_delete_eq. case_decide as Hu.
      * subst u. rewrite lookup_insert_eq. intros ?; by simplify_eq.
      * rewrite lookup_insert_ne by done. apply IH.
    + rewrite calc_store_touch. destruct (calc_store w !! u) as [s0|] eqn:Hs0; [|apply IH].
      destruct (decide (u = uid)) as [->|Hne].
      * rewrite lookup_insert_eq. intros ?; simplify_eq. simpl. by apply IH.
      * rewrite lookup_insert_ne by done. apply IH.
    + intros [_ H]%lookup_delete_Some. by apply IH.
    + destruct (jobs w !! i) as [j|]; [|apply IH].
      rewrite calc_store_timeout. simpl. intros [_ H]%lookup_delete_Some. by apply IH.
Qed.

Lemma is_session_valid_spec w uid tok :
  is_session_valid w uid tok = true
  <-> tok <> EmptyString /\ exists s, calc_store w !! uid = Some s /\ session s = tok.
Proof.
  unfold is_session_valid, get_active_calc_session.
  rewrite andb_true_iff, negb_true_iff, bool_decide_eq_true, String.eqb_neq.
  split; intros [Hne H]; (split; [done|]).
  - destruct (calc_store w !! uid) as [s|]; simplify_eq/=. eauto.
  - destruct H as (s & -> & <-). done.
Qed.

Lemma is_session_valid_absent w uid tok :
  calc_store w !! uid = None -> is_session_valid w uid tok = false.
Proof.
  intros H. apply not_true_is_false. rewrite is_session_valid_spec.
  intros (_ & s & Hs & _). congruence.
Qed.

(** Sessions per actor *)

Lemma filter_key_absent {A} (k : positive) (l : list (positive * A)) :
  k ∉ l.*1 -> filter (fun kv => kv.1 = k) l = [].
Proof.
  induction l as [|[k' a] l IH]; simpl; [done|].
  rewrite not_elem_of_cons. intros [Hne Hl].
  rewrite filter_cons. simpl. case_decide; [congruence|]. by apply IH.
Qed.

Lemma filter_key_length {A} (k : positive) (l : list (positive * A)) :
  NoDup l.*1 -> (length (filter (fun kv => kv.1 = k) l) <= 1)%nat.
Proof.
  induction l as [|[k' a] l IH]; simpl; [lia|].
  rewrite NoDup_cons. intros [Hk' Hnd].
  rewrite filter_cons. simpl. case_decide as Hk; [|by apply IH].
  subst k'. rewrite filter_key_absent by done. simpl. lia.
Qed.

Lemma sessions_of_length w uid : (length (sessions_of w uid) <= 1)%nat.
Proof.
  unfold sessions_of. rewrite length_fmap.
  apply filter_key_length, NoDup_fst_map_to_list.
Qed.

Lemma elem_of_sessions_of w uid s : s ∈ sessions_of w uid <-> calc_store w !! uid = Some s.
Proof.
  unfold sessions_of. rewrite list_elem_of_fmap. split.
  - intros ([k s'] & -> & [Hk Hin]%list_elem_of_filter). simpl in *. subst k.
    by apply elem_of_map_to_list.
  - intros H. exists (uid, s). split; [done|].
    apply list_elem_of_filter. split; [done|]. by apply elem_of_map_to_list.
Qed.

Lemma sessions_of_stored w uid s : calc_store w !! uid = Some s -> sessions_of w uid = [s].
Proof.
  intros H. apply elem_of_sessions_of in H. pose proof (sessions_of_length w uid) as Hlen.
  destruct (sessions_of w uid) as [|s1 [|s2 l]]; simpl in *; try lia.
  - by apply elem_of_nil in H.
  - apply list_elem_of_singleton in H. by subst.
Qed.

Lemma sessions_of_absent w uid : calc_store w !! uid = None -> sessions_of w uid = [].
Proof.
  intros H. destruct (sessions_of w uid) as [|s l] eqn:Hs; [done|].
  assert (s ∈ sessions_of w uid) as Hin by (rewrite Hs; left).
  apply elem_of_sessions_of in Hin. congruence.
Qed.

(** [str] is injective: different clock readings give different tokens. *)
Lemma str_inj a b : str a = str b -> a = b.
Proof.
  assert (forall n, NilZero.int_of_string (str n) = Some (Z.to_int n)) as Hisi.
  { intros n. unfold str. apply NilZero.isi; destruct n; simpl; try discriminate.
    - intros [= H]. by apply (Unsigned.to_uint_nonnil p).
    - intros [= H]. by apply (Unsigned.to_uint_nonnil p). }
  intros H. pose proof (Hisi a) as Ha. rewrite H, Hisi in Ha.
  assert (Z.to_int b = Z.to_int a) as Hab by congruence. clear -Hab.
  destruct a as [|p|p], b as [|q|q]; simpl in Hab; try discriminate; try done.
  - injection Hab as Hq. by destruct (Unsigned.to_uint_nonzero q).
  - injection Hab as Hp. by destruct (Unsigned.to_uint_nonzero p).
  - injection Hab as Hq. by rewrite (Unsigned.to_uint_inj _ _ Hq).
  - injection Hab as Hq. by rewrite (Unsigned.to_uint_inj _ _ Hq).
Qed.

(** C1: after any history of starts, touches, resets and timeouts,
    [is_session_valid] accepts a token exactly when a session is stored for
    the actor and the token is the one its most recent start issued; right
    after a start only the token it returned is accepted.  A token is the
    millisecond clock in decimal, so after a second start the first token
    is refused exactly when the two starts read different clock values, and
    stays accepted when they read the same one.  After a reset, after the
    timeout job and after a completed quote no token is accepted. *)
Theorem validate_iff_latest_token :
  (forall ops uid tok,
      is_session_valid (run_ops ops initial_world) uid tok = true
      <-> is_Some (calc_store (run_ops ops initial_world) !! uid)
          /\ last_issued ops uid = Some tok) /\
  (forall w uid ms t tok,
      is_session_valid (start_or_restart_calc_session ms t uid w).1 uid tok = true
      <-> tok = (start_or_restart_calc_session ms t uid w).2) /\
  (forall w uid ms1 t1 ms2 t2,
      is_session_valid
        (start_or_restart_calc_session ms2 t2 uid
           (start_or_restart_calc_session ms1 t1 uid w).1).1
        uid (start_or_restart_calc_session ms1 t1 uid w).2 = false
      <-> ms1 <> ms2) /\
  (forall w uid tok, is_session_valid (reset_calc_session uid w) uid tok = false) /\
  (forall w j tok, is_session_valid (_calc_timeout_job j w) (job_user_id j) tok = false) /\
  (forall E t now uid data w cn k d sd p tok,
      (on_time_choice E t now uid data w).2 = inr (Quote cn k d sd p) ->
      is_session_valid (on_time_choice E t now uid data w).1 uid tok = false).
Proof.
  assert (forall w uid ms t tok,
             is_session_valid (start_or_restart_calc_session ms t uid w).1 uid tok = true
             <-> tok = (start_or_restart_calc_session ms t uid w).2) as Hstart.
  { intros w uid ms t tok. rewrite is_session_valid_spec, calc_store_start, lookup_insert_eq.
    simpl. split.
    + intros (_ & s & ? & ?). by simplify_eq.
    + intros ->. split; [apply str_nonempty|eauto]. }
  split; [|split; [|split; [|split; [|split]]]].
  - intros ops uid tok. rewrite is_session_valid_spec. split.
    + intros (Hne & s & Hs & <-). split; [eauto|]. by apply stored_session_is_latest.
    + intros [[s Hs] Hlast]. pose proof (stored_session_is_latest _ _ _ Hs) as Hs'.
      split.
      * apply last_issued_is_str in Hlast as [ms ->]. apply str_nonempty.
      * exists s. split; [done|]. congruence.
  - exact Hstart.
  - intros w uid ms1 t1 ms2 t2. rewrite <- not_true_iff_false, Hstart. simpl. split.
    + intros Hne ->. by apply Hne.
    + intros Hne Heq. by apply Hne, str_inj.
  - intros w uid tok. apply is_session_valid_absent. rewrite calc_store_reset.
    apply lookup_delete_eq.
  - intros w j tok. apply is_session_valid_absent. rewrite calc_store_timeout.
    apply lookup_delete_eq.
  - intros E t now uid data w cn k d sd p tok.
    unfold on_time_choice. unfold bind, lookup_or, ret, raise, get, modify.
    repeat (case_match; simplify_eq/=); try done.
    all: intros _; apply is_session_valid_absent; simpl; apply lookup_delete_eq.
Qed.

Lemma validate_iff_latest_token_witness :
  is_session_valid
    (start_or_restart_calc_session 1700000000999 0 7
       (start_or_restart_calc_session 1700000000000 0 7 initial_world).1).1
    7 "1700000000000" = false.
Proof.
  pose proof validate_iff_latest_token as (_ & _ & H & _).
  apply (H initial_world 7%positive 1700000000000 0 1700000000999 0). lia.
Defined.

(** Two starts of one actor within the same millisecond issue the same
    token: the token of the first start is accepted after the second. *)
Lemma same_millisecond_token_stays_valid :
  (start_or_restart_calc_session 1700000000000 0 7 initial_world).2
  = (start_or_restart_calc_session 1700000000000 1 7
       (start_or_restart_calc_session 1700000000000 0 7 initial_world).1).2 /\
  is_session_valid
    (start_or_restart_calc_session 1700000000000 1 7
       (start_or_restart_calc_session 1700000000000 0 7 initial_world).1).1
    7 (start_or_restart_calc_session 1700000000000 0 7 initial_world).2 = true.
Proof. split; vm_compute; reflexivity. Qed.

(** C2: whatever the history, the store holds at most one session for an
    actor; a start leaves exactly the session it created, also when one was
    there before; and each single operation leaves at most one. *)
Theorem one_session_per_actor :
  (forall ops w uid, (length (sessions_of (run_ops ops w) uid) <= 1)%nat) /\
  (forall w uid ms t,
      sessions_of (start_or_restart_calc_session ms t uid w).1 uid
      = [ {| session := str ms; ts := t |} ]) /\
  (forall w uid ms t,
      size (calc_store (start_or_restart_calc_session ms t uid w).1)
      = S (size (delete uid (calc_store w)))) /\
  (forall w o uid, (length (sessions_of (apply_op w o) uid) <= 1)%nat).
Proof.
  split; [|split; [|split]].
  - intros. apply sessions_of_length.
  - intros. apply sessions_of_stored. rewrite calc_store_start. apply lookup_insert_eq.
  - intros. simpl. apply map_size_insert_None, lookup_delete_eq.
  - intros. apply sessions_of_length.
Qed.

(** A second start does not add an entry: the store keeps its size. *)
Lemma restart_keeps_size w uid ms t :
  is_Some (calc_store w !! uid) ->
  size (calc_store (start_or_restart_calc_session ms t uid w).1) = size (calc_store w).
Proof.
  intros [s Hs]. rewrite calc_store_start. by eapply map_size_insert_Some.
Qed.

(** C10: a touch leaves every actor's token as it was, so validation
    answers the same before and after; with a session it rewrites only the
    timestamp and replaces the actor's timer; without one it changes
    nothing. *)
Theorem touch_keeps_token w uid t :
  (forall u, get_active_calc_session (touch_calc_session t uid w) u
             = get_active_calc_session w u) /\
  (forall u tok, is_session_valid (touch_calc_session t uid w) u tok
                 = is_session_valid w u tok) /\
  (forall s, calc_store w !! uid = Some s ->
             calc_store (touch_calc_session t uid w)
             = <[uid := {| session := session s; ts := t |}]> (calc_store w) /\
             jobs (touch_calc_session t uid w)
             = filter (fun j => job_name j <> _calc_job_name uid) (jobs w)
               ++ [ {| job_name := _calc_job_name uid; job_user_id := uid |} ]) /\
  (calc_store w !! uid = None -> touch_calc_session t uid w = w) /\
  customers (touch_calc_session t uid w) = customers w.
Proof.
  assert (forall u, get_active_calc_session (touch_calc_session t uid w) u
                    = get_active_calc_session w u) as Hget.
  { intros u. unfold get_active_calc_session. rewrite calc_store_touch.
    destruct (calc_store w !! uid) as [s|] eqn:Hs; [|done].
    destruct (decide (uid = u)) as [->|Hne].
    - by rewrite lookup_insert_eq, Hs.
    - by rewrite lookup_insert_ne. }
  split; [exact Hget|]. split; [|split; [|split]].
  - intros u tok. unfold is_session_valid. by rewrite Hget.
  - intros s Hs. unfold touch_calc_session. rewrite Hs. done.
  - intros Hs. unfold touch_calc_session. by rewrite Hs.
  - unfold touch_calc_session. by destruct (calc_store w !! uid).
Qed.

Lemma touch_keeps_token_witness :
  touch_calc_session 5 7 initial_world = initial_world.
Proof.
  pose proof (touch_keeps_token initial_world 7%positive 5) as (_ & _ & _ & H & _).
  apply H. reflexivity.
Defined.

(** ** Stale callbacks *)

Lemma lookup_lt_length_split data (n : nat) :
  (n < length (split_colon data))%nat -> is_Some (split_colon data !! n).
Proof. apply lookup_lt_is_Some_2. Qed.

(** C8, as the code has it: a date or duration callback whose token is
    not the one of the actor's live session (or whose actor has no session)
    is answered with the "expired, start again" reply and leaves the whole
    state as it was: no price is computed, the ledger is not written, and
    the session store is not touched, so a live session of the actor stays
    live. *)
Theorem stale_callback_rejected E t now1 now2 user_id data w :
  stale w user_id data ->
  ((3 <= length (split_colon data))%nat ->
   on_date_choice E t now1 now2 user_id data w = (w, inr StaleCalc)) /\
  ((5 <= length (split_colon data))%nat ->
   on_time_choice E t now2 user_id data w = (w, inr StaleCalc)).
Proof.
  intros (session_id & Hsid & Hinvalid). split; intros Hlen.
  - unfold on_date_choice. rewrite bool_decide_eq_false_2 by lia.
    destruct (lookup_lt_length_split data 2 ltac:(lia)) as [date_str Hd].
    unfold bind, lookup_or, get, ret. rewrite Hsid, Hd. simpl. by rewrite Hinvalid.
  - unfold on_time_choice. rewrite bool_decide_eq_false_2 by lia.
    destruct (lookup_lt_length_split data 2 ltac:(lia)) as [date_str Hd].
    destruct (lookup_lt_length_split data 3 ltac:(lia)) as [kind Hk].
    destruct (lookup_lt_length_split data 4 ltac:(lia)) as [duration Hdu].
    unfold bind, lookup_or, get, ret. rewrite Hsid, Hd, Hk, Hdu. simpl. by rewrite Hinvalid.
Qed.

Lemma stale_callback_rejected_witness :
  on_date_choice (lib_with_holidays ∅) 1 {| dt_date := 739000; dt_hour := 10 |}
    {| dt_date := 739000; dt_hour := 10 |} 7
    "date:1700000000000:2024-05-01" superseded_world
  = (superseded_world, inr StaleCalc).
Proof.
  apply (stale_callback_rejected (lib_with_holidays ∅) 1
           {| dt_date := 739000; dt_hour := 10 |} {| dt_date := 739000; dt_hour := 10 |}
           7%positive "date:1700000000000:2024-05-01" superseded_world).
  - exists "1700000000000"%string. split; vm_compute; reflexivity.
  - vm_compute. lia.
Defined.

(** The forced reset of the specification does not happen: after the stale
    callback is refused the actor's session is still stored and its token
    still validates. *)
Lemma stale_callback_keeps_session :
  is_session_valid superseded_world 7 "1700000000000" = false /\
  stale_press.2 = inr StaleCalc /\
  calc_store stale_press.1 !! 7%positive
  = Some {| session := "1700000000999"; ts := 0 |} /\
  is_session_valid stale_press.1 7 "1700000000999" = true.
Proof. vm_compute. repeat split; reflexivity. Qed.

(** Malformed callback data is answered with the "bad data" reply, also
    without touching the state. *)
Lemma short_callback_rejected E t now1 now2 user_id data w :
  (length (split_colon data) < 3)%nat ->
  on_date_choice E t now1 now2 user_id data w = (w, inr BadData) /\
  on_time_choice E t now2 user_id data w = (w, inr BadData).
Proof.
  intros Hlen. unfold on_date_choice, on_time_choice.
  rewrite !bool_decide_eq_true_2 by lia. done.
Qed.

(** The quote callbacks never write to the ledger. *)
Lemma quote_callbacks_keep_ledger E t now1 now2 user_id data w :
  customers (on_date_choice E t now1 now2 user_id data w).1 = customers w /\
  customers (on_time_choice E t now2 user_id data w).1 = customers w.
Proof.
  assert (forall u w, customers (touch_calc_session t u w) = customers w) as Ht.
  { intros u w0. unfold touch_calc_session. by destruct (calc_store w0 !! u). }
  split.
  - unfold on_date_choice, bind, lookup_or, get, ret, raise, modify.
    repeat (case_match; simplify_eq/=); try done; apply Ht.
  - unfold on_time_choice, bind, lookup_or, get, ret, raise, modify.
    repeat (case_match; simplify_eq/=); try done; apply Ht.
Qed.

(** ** Linking an actor *)

Lemma elem_of_list_remove_1 x y l : x ∈ list_remove y l -> x ∈ l.
Proof.
  induction l as [|z l IH]; simpl; [done|].
  case_decide; rewrite !elem_of_cons; [by right|]. intros [->|Hin]; [by left|right; auto].
Qed.

Lemma elem_of_list_remove_ne x y l : x <> y -> x ∈ l -> x ∈ list_remove y l.
Proof.
  intros Hne. induction l as [|z l IH]; simpl; [done|].
  rewrite elem_of_cons. case_decide; subst.
  - intros [->|Hin]; [done|exact Hin].
  - rewrite elem_of_cons. intros [->|Hin]; [by left|right; auto].
Qed.

Lemma list_remove_absent x l : x ∉ l -> list_remove x l = l.
Proof.
  induction l as [|z l IH]; simpl; [done|].
  rewrite not_elem_of_cons. intros [Hne Hl]. case_decide; [done|]. by rewrite IH.
Qed.

Lemma not_elem_of_list_remove x l : NoDup l -> x ∉ list_remove x l.
Proof.
  induction l as [|z l IH]; simpl; [intros _; apply not_elem_of_nil|].
  rewrite NoDup_cons. intros [Hz Hnd]. case_decide; subst; [done|].
  rewrite not_elem_of_cons. split; [done|by apply IH].
Qed.

Lemma NoDup_list_remove x l : NoDup l -> NoDup (list_remove x l).
Proof.
  induction l as [|z l IH]; simpl; [done|].
  rewrite NoDup_cons. intros [Hz Hnd]. case_decide; [done|].
  apply NoDup_cons. split; [|by apply IH].
  intros Hin. by apply elem_of_list_remove_1 in Hin.
Qed.

Lemma list_remove_snoc x l : x ∉ l -> list_remove x (l ++ [x]) = l.
Proof.
  induction l as [|z l IH]; simpl.
  - intros _. by case_decide.
  - rewrite not_elem_of_cons. intros [Hne Hl]. case_decide; [done|]. by rewrite IH.
Qed.

Lemma ids_without_actor uid c :
  ids (without_actor uid c) = list_remove uid (ids c).
Proof.
  unfold without_actor. case_decide; [done|]. by rewrite list_remove_absent.
Qed.

Lemma without_actor_absent uid c : uid ∉ ids c -> without_actor uid c = c.
Proof. intros H. unfold without_actor. by case_decide. Qed.

(** The ledger a link leaves: the actor dropped from every record, then
    appended to the target's list. *)
Lemma link_user_ledger E cid uid w c0 :
  customers w !! cid = Some c0 -> NoDup (ids c0) ->
  customers (link_user E cid uid w).1
  = <[cid := set_ids (fun l => l ++ [uid]) (without_actor uid c0)]>
      (without_actor uid <$> customers w).
Proof.
  intros Hc0 Hnd. unfold link_user, unlink_everywhere, customer_at, store_customer.
  unfold bind, lookup_or, get, modify, ret, raise. simpl.
  rewrite lookup_fmap, Hc0. simpl.
  destruct (decide (uid ∈ ids (without_actor uid c0))) as [Hin|Hnin].
  - rewrite ids_without_actor in Hin. by apply not_elem_of_list_remove in Hin.
  - simpl. by destruct (py_int E uid).
Qed.

(** Each of the four entry points runs that body on the target it names. *)
Lemma run_link_ledger E call w cid uid :
  link_target E call w = Some (cid, uid) -> is_Some (customers w !! cid) ->
  customers (run_link E call w) = customers (link_user E cid uid w).1.
Proof.
  intros Ht [c0 Hc0]. destruct call as [data|args|args|text]; simpl in *.
  - unfold admin_quick_link.
    destruct (split_colon data) as [|p0 [|p1 [|p2 ps]]]; try discriminate. simplify_eq.
    unfold bind, lookup_or, get, ret; simpl.
    destruct (decide (customers w !! cid = None)); [congruence|done].
  - destruct args as [|a0 [|a1 [|a2 l]]]; try discriminate. simplify_eq.
    unfold cmd_register, try_except, bind, get, ret; simpl.
    destruct (decide (customers w !! cid = None)); [congruence|].
    by destruct (link_user E cid uid w) as [w' [e|r]].
  - destruct args as [|a0 [|a1 [|a2 l]]]; try discriminate. simplify_eq.
    unfold cmd_link, try_except, bind, get, ret; simpl.
    destruct (decide (customers w !! cid = None)); [congruence|].
    by destruct (link_user E cid uid w) as [w' [e|r]].
  - unfold admin_link_user_handler, try_except, bind, get, ret; simpl.
    destruct (link_cid w) as [c|]; [|done].
    destruct (decide (c = "")); [done|]. simplify_eq.
    destruct (decide (customers w !! cid = None)); [congruence|].
    by destruct (link_user E cid (strip E text) w) as [w' [e|r]].
Qed.

Lemma link_user_keeps_link_cid E cid uid w : link_cid (link_user E cid uid w).1 = link_cid w.
Proof.
  unfold link_user, unlink_everywhere, customer_at, store_customer.
  unfold bind, lookup_or, get, modify, ret, raise. simpl.
  repeat (case_match; simplify_eq/=); done.
Qed.

Lemma run_link_keeps_target E call w cid uid :
  link_target E call w = Some (cid, uid) -> is_Some (customers w !! cid) ->
  link_target E call (run_link E call w) = Some (cid, uid).
Proof.
  intros Ht Hc. destruct call as [data|args|args|text]; simpl in *; try done.
  assert (link_cid (admin_link_user_handler E text w).1 = link_cid w) as ->; [|done].
  destruct Hc as [c0 Hc0].
  unfold admin_link_user_handler, try_except, bind, get, ret; simpl.
  destruct (link_cid w) as [c|] eqn:Hl; [|done].
  destruct (decide (c = "")); [done|]. simplify_eq.
  destruct (decide (customers w !! cid = None)); [congruence|].
  pose proof (link_user_keeps_link_cid E cid (strip E text) w) as Hk.
  destruct (link_user E cid (strip E text) w) as [w' [e|r]]; simpl in *; congruence.
Qed.

Section Linked.
Context (L : gmap string customer) (cid uid : string) (c0 : customer).
Hypothesis Hwf : ledger_wf L.
Hypothesis Hc0 : L !! cid = Some c0.

Let L' : gmap string customer :=
  <[cid := set_ids (fun l => l ++ [uid]) (without_actor uid c0)]> (without_actor uid <$> L).

Lemma linked_lookup k c :
  L' !! k = Some c ->
  (k = cid /\ c = set_ids (fun l => l ++ [uid]) (without_actor uid c0)) \/
  (k <> cid /\ exists c1, L !! k = Some c1 /\ c = without_actor uid c1).
Proof.
  unfold L'. destruct (decide (cid = k)) as [->|Hne].
  - rewrite lookup_insert_eq. intros ?; simplify_eq. by left.
  - rewrite lookup_insert_ne, lookup_fmap by done.
    destruct (L !! k) as [c1|] eqn:Hk; simpl; [|done]. intros ?; simplify_eq.
    right. split; [done|]. eauto.
Qed.

Lemma linked_only_target k c : L' !! k = Some c -> (uid ∈ ids c <-> k = cid).
Proof.
  intros [[-> ->]|(Hne & c1 & Hc1 & ->)]%linked_lookup.
  - simpl. rewrite elem_of_app, list_elem_of_singleton. split; auto.
  - rewrite ids_without_actor. split; [|done]. intros Hin.
    by apply not_elem_of_list_remove in Hin; [|eapply Hwf].
Qed.

Lemma linked_subset a k c :
  a <> uid -> L' !! k = Some c -> a ∈ ids c -> exists c1, L !! k = Some c1 /\ a ∈ ids c1.
Proof.
  intros Ha [[-> ->]|(Hne & c1 & Hc1 & ->)]%linked_lookup.
  - simpl. rewrite elem_of_app, list_elem_of_singleton, ids_without_actor.
    intros [Hin|?]; [|done]. exists c0. split; [done|]. by eapply elem_of_list_remove_1.
  - rewrite ids_without_actor. intros Hin. exists c1. split; [done|].
    by eapply elem_of_list_remove_1.
Qed.

Lemma linked_wf : ledger_wf L'.
Proof.
  intros k c [[-> ->]|(Hne & c1 & Hc1 & ->)]%linked_lookup.
  - simpl. rewrite ids_without_actor. apply NoDup_app. split; [|split].
    + apply NoDup_list_remove. by eapply Hwf.
    + intros x Hx. rewrite list_elem_of_singleton. intros ->.
      by apply not_elem_of_list_remove in Hx; [|eapply Hwf].
    + apply NoDup_singleton.
  - rewrite ids_without_actor. apply NoDup_list_remove. by eapply Hwf.
Qed.

Lemma linked_unique : actor_unique L -> actor_unique L'.
Proof.
  intros Hu a k1 k2 c1 c2 H1 H2 Ha1 Ha2.
  destruct (decide (a = uid)) as [->|Hne].
  - apply (linked_only_target _ _ H1) in Ha1. apply (linked_only_target _ _ H2) in Ha2.
    congruence.
  - destruct (linked_subset a k1 c1 Hne H1 Ha1) as (d1 & Hd1 & Hin1).
    destruct (linked_subset a k2 c2 Hne H2 Ha2) as (d2 & Hd2 & Hin2).
    by eapply Hu.
Qed.

(** Linking once more changes nothing. *)
Lemma linked_again :
  <[cid := set_ids (fun l => l ++ [uid])
             (without_actor uid (set_ids (fun l => l ++ [uid]) (without_actor uid c0)))]>
    (without_actor uid <$> L') = L'.
Proof.
  assert (uid ∉ list_remove uid (ids c0)) as Hnin
    by (apply not_elem_of_list_remove; by eapply Hwf).
  assert (without_actor uid (set_ids (fun l => l ++ [uid]) (without_actor uid c0))
          = without_actor uid c0) as Heq.
  { unfold without_actor at 1. simpl. rewrite decide_True.
    - unfold set_ids; simpl. rewrite ids_without_actor, list_remove_snoc by done.
      rewrite <- ids_without_actor. by destruct (without_actor uid c0).
    - rewrite elem_of_app, list_elem_of_singleton. by right. }
  rewrite Heq. unfold L'. rewrite fmap_insert, insert_insert_eq. f_equal.
  rewrite <- map_fmap_compose. apply map_fmap_ext. intros k c Hk. simpl.
  apply without_actor_absent. rewrite ids_without_actor.
  apply not_elem_of_list_remove. by eapply Hwf.
Qed.
End Linked.

(** C7: a link by any of the four entry points, to a customer that
    exists, in a ledger whose actor lists have no repetition, leaves the
    actor in the target's list and in no other record; it keeps the lists
    free of repetition and keeps every actor in at most one record; and
    linking the same actor to the same target again leaves the same
    ledger. *)
Theorem link_actor_unique E call w cid uid :
  link_target E call w = Some (cid, uid) ->
  is_Some (customers w !! cid) ->
  ledger_wf (customers w) ->
  (forall k c, customers (run_link E call w) !! k = Some c -> (uid ∈ ids c <-> k = cid)) /\
  (exists c, customers (run_link E call w) !! cid = Some c /\ uid ∈ ids c) /\
  ledger_wf (customers (run_link E call w)) /\
  (actor_unique (customers w) -> actor_unique (customers (run_link E call w))) /\
  customers (run_link E call (run_link E call w)) = customers (run_link E call w).
Proof.
  intros Ht Hc Hwf. pose proof Hc as [c0 Hc0].
  pose proof (run_link_ledger E call w cid uid Ht Hc) as Hrun.
  rewrite (link_user_ledger E cid uid w c0 Hc0 (Hwf _ _ Hc0)) in Hrun.
  rewrite Hrun. split; [|split; [|split; [|split]]].
  - intros k c. by apply linked_only_target.
  - eexists. split; [apply lookup_insert_eq|]. simpl.
    rewrite elem_of_app, list_elem_of_singleton. by right.
  - by apply linked_wf.
  - by apply linked_unique.
  - set (w1 := run_link E call w) in *.
    assert (customers w1 !! cid
            = Some (set_ids (fun l => l ++ [uid]) (without_actor uid c0))) as Hc1
      by (rewrite Hrun; apply lookup_insert_eq).
    assert (ledger_wf (customers w1)) as Hwf1 by (rewrite Hrun; by apply linked_wf).
    rewrite (run_link_ledger E call w1 cid uid
               (run_link_keeps_target E call w cid uid Ht Hc) ltac:(eauto)).
    rewrite (link_user_ledger E cid uid w1 _ Hc1 (Hwf1 _ _ Hc1)).
    rewrite Hrun. by apply linked_again.
Qed.

Lemma link_actor_unique_witness :
  customers
    (run_link (lib_with_holidays ∅) (Link ["2"; "7"])
       (run_link (lib_with_holidays ∅) (Link ["2"; "7"]) two_customers))
  = customers (run_link (lib_with_holidays ∅) (Link ["2"; "7"]) two_customers).
Proof.
  apply (link_actor_unique (lib_with_holidays ∅) (Link ["2"; "7"]) two_customers "2" "7").
  - reflexivity.
  - vm_compute. eauto.
  - intros k c. unfold two_customers; simpl.
    intros [[<- <-]|[_ [[<- <-]|[_ H]]%lookup_insert_Some]]%lookup_insert_Some.
    + simpl. apply NoDup_singleton.
    + simpl. apply NoDup_nil_2.
    + by rewrite lookup_empty in H.
Defined.

(** *** Lists without repetition are an invariant of the handlers *)

#[local] Instance wf_kept_preorder : PreOrder wf_kept.
Proof.
  split.
  - intros w H. exact H.
  - intros w1 w2 w3 H12 H23 H. auto.
Qed.

Lemma ids_recalc c : ids (recalc_discount c) = ids c.
Proof. unfold recalc_discount. by case_match. Qed.

Lemma ledger_wf_insert L cid c :
  NoDup (ids c) -> ledger_wf L -> ledger_wf (<[cid := c]> L).
Proof.
  intros Hc Hwf k c' [[<- <-]|[_ Hk]]%lookup_insert_Some; [done|]. by eapply Hwf.
Qed.

Lemma ledger_wf_delete L cid : ledger_wf L -> ledger_wf (delete cid L).
Proof. intros Hwf k c' [_ Hk]%lookup_delete_Some. by eapply Hwf. Qed.

Lemma ledger_wf_without L uid : ledger_wf L -> ledger_wf (without_actor uid <$> L).
Proof.
  intros Hwf k c'. rewrite lookup_fmap.
  destruct (L !! k) as [c|] eqn:Hk; simpl; [|done]. intros ?; simplify_eq.
  rewrite ids_without_actor. apply NoDup_list_remove. by eapply Hwf.
Qed.

Ltac wf_leaf :=
  lazymatch goal with
  | |- keeps _ (modify _) => intros ?
  | |- keeps_from _ _ (modify _) => idtac
  end;
  unfold keeps_from, modify, wf_kept; simpl;
  let Hwf := fresh "Hwf" in
  intros Hwf;
  first
    [ exact Hwf
    | by apply ledger_wf_delete
    | by apply ledger_wf_without
    | apply ledger_wf_insert; [|exact Hwf];
      first
        [ apply NoDup_nil_2
        | rewrite ids_recalc; simpl; by eapply Hwf
        | simpl; apply NoDup_list_remove; by eapply Hwf
        | simpl; apply NoDup_app; split; [by eapply Hwf|];
          split; [|apply NoDup_singleton];
          intros ? ? ->%list_elem_of_singleton; done ] ].

Lemma wizard_keeps_wf E call : keeps wf_kept (run_call E call).
Proof.
  destruct call; simpl; munfold_wizard; mprim; repeat mstep;
    unfold append_visit, pop_visit, clear_visits, add_to_sum, set_sum, reset_sum;
    try wf_leaf.
Qed.

Lemma command_keeps_wf E c : keeps wf_kept (run_command E c).
Proof.
  destruct c; simpl; munfold_commands; mprim; repeat mstep;
    unfold append_visit, pop_visit, clear_visits, add_to_sum, set_sum, reset_sum;
    try wf_leaf.
Qed.

(** Every ledger the handlers can build from an empty one has lists
    without repetition. *)
Lemma handlers_keep_wf E call w :
  ledger_wf (customers w) -> ledger_wf (customers (after_call E call w)).
Proof.
  destruct call as [c|c]; simpl.
  - apply (wizard_keeps_wf E c w).
  - apply (command_keeps_wf E c w).
Qed.

Lemma initial_ledger_wf : ledger_wf (customers initial_world).
Proof. intros k c. simpl. by rewrite lookup_empty. Qed.

(** ** Customer identifiers *)

Lemma foldl_max_spec (l : list Z) x :
  (foldl Z.max x l = x \/ foldl Z.max x l ∈ l) /\
  x <= foldl Z.max x l /\ (forall y, y ∈ l -> y <= foldl Z.max x l).
Proof.
  revert x. induction l as [|z l IH]; intros x; simpl.
  - split; [by left|]. split; [lia|]. intros y Hy. by apply elem_of_nil in Hy.
  - destruct (IH (Z.max x z)) as (Hin & Hle & Hall). split; [|split].
    + destruct Hin as [Heq|Hin]; [|right; by right].
      rewrite Heq. destruct (Z.max_spec x z) as [[_ ->]|[_ ->]]; [right; by left|by left].
    + lia.
    + intros y [->|Hy]%elem_of_cons; [lia|by apply Hall].
Qed.

Lemma py_max_spec l m : py_max l = Some m -> m ∈ l /\ forall y, y ∈ l -> y <= m.
Proof.
  unfold py_max. destruct l as [|x l]; [done|]. intros [= <-].
  destruct (foldl_max_spec l x) as (Hin & Hle & Hall). split.
  - destruct Hin as [Heq|Hin]; [rewrite Heq; by left|by right].
  - intros y [->|Hy]%elem_of_cons; [done|by apply Hall].
Qed.

Lemma py_max_is_Some l : l <> [] -> is_Some (py_max l).
Proof. unfold py_max. destruct l; [done|]. eauto. Qed.

Lemma digits_value_nonneg s acc v : 0 <= acc -> digits_value acc s = Some v -> 0 <= v.
Proof.
  revert acc. induction s as [|c s IH]; simpl; intros acc Hacc.
  - intros ?; by simplify_eq.
  - destruct (digit_of_ascii c) as [d|] eqn:Hd; [|done]. apply IH.
    unfold digit_of_ascii in Hd.
    destruct (48 <=? Z.of_N (N_of_ascii c)) eqn:H1; simpl in Hd; [|done].
    destruct (Z.of_N (N_of_ascii c) <=? 57); simplify_eq. apply Z.leb_le in H1. lia.
Qed.

Lemma int_of_digits_nonneg s : 0 <= int_of_digits s.
Proof.
  unfold int_of_digits. destruct (digits_value 0 s) eqn:H; simpl; [|lia].
  by eapply digits_value_nonneg.
Qed.

Lemma elem_of_customer_keys L k : k ∈ customer_keys L <-> is_Some (L !! k).
Proof.
  unfold customer_keys. rewrite list_elem_of_fmap. split.
  - intros ([k' c] & -> & Hin). apply elem_of_map_to_list in Hin. simpl. eauto.
  - intros [c Hc]. exists (k, c). split; [done|]. by apply elem_of_map_to_list.
Qed.

(** The numeric ids of a ledger, as [generate_customer_id] reads them. *)
Lemma elem_of_numeric_ids L n :
  n ∈ int_of_digits <$> filter (fun cid => isdigit cid) (customer_keys L)
  <-> exists k, is_Some (L !! k) /\ isdigit k = true /\ int_of_digits k = n.
Proof.
  rewrite list_elem_of_fmap. split.
  - intros (k & -> & [Hd Hk]%list_elem_of_filter). exists k.
    split; [by apply elem_of_customer_keys|]. split; [by apply Is_true_true|done].
  - intros (k & Hk & Hd & <-). exists k. split; [done|].
    apply list_elem_of_filter. split; [by apply Is_true_true|by apply elem_of_customer_keys].
Qed.

(** With no customer the id is "1". *)
Lemma generate_customer_id_empty w :
  customers w = ∅ -> generate_customer_id w = (w, inr "1"%string).
Proof. intros H. unfold generate_customer_id, bind, get, ret. simpl. by rewrite decide_True. Qed.

(** With a numeric id present the id is one more than the largest. *)
Lemma generate_customer_id_numeric w k :
  is_Some (customers w !! k) -> isdigit k = true ->
  exists m,
    generate_customer_id w = (w, inr (str (m + 1))) /\
    (exists k', is_Some (customers w !! k') /\ isdigit k' = true /\ int_of_digits k' = m) /\
    (forall k', is_Some (customers w !! k') -> isdigit k' = true -> int_of_digits k' <= m).
Proof.
  intros Hk Hd. unfold generate_customer_id, bind, get, ret, lookup_or. simpl.
  rewrite decide_False; last first.
  { intros He. rewrite He, lookup_empty in Hk. by destruct Hk. }
  set (l := int_of_digits <$> filter (fun cid => isdigit cid) (customer_keys (customers w))).
  assert (int_of_digits k ∈ l) as Hin by (apply elem_of_numeric_ids; eauto).
  destruct (py_max_is_Some l) as [m Hm].
  { intros He. rewrite He in Hin. by apply elem_of_nil in Hin. }
  rewrite Hm. exists m. split; [done|].
  apply py_max_spec in Hm as [Hmin Hmax]. split.
  - by apply elem_of_numeric_ids.
  - intros k' Hk' Hd'. apply Hmax, elem_of_numeric_ids. eauto.
Qed.

(** Whatever id is generated is not a key of the ledger. *)
Lemma generate_customer_id_fresh w w' cid :
  generate_customer_id w = (w', inr cid) -> w' = w /\ customers w !! cid = None.
Proof.
  unfold generate_customer_id, bind, get, ret, lookup_or. simpl.
  destruct (decide (customers w = ∅)) as [He|Hne].
  - intros ?; simplify_eq. split; [done|]. rewrite He. apply lookup_empty.
  - destruct (py_max _) as [m|] eqn:Hm; simpl; [|done]. intros ?; simplify_eq.
    split; [done|]. apply py_max_spec in Hm as [Hmin Hmax].
    apply elem_of_numeric_ids in Hmin as (k & _ & _ & Hk).
    pose proof (int_of_digits_nonneg k) as Hnn.
    destruct (customers w' !! str (m + 1)) as [c|] eqn:Hc; [|done]. exfalso.
    destruct (m + 1) as [|p|p] eqn:Hp; try lia.
    assert (Z.pos p <= m); [|lia].
    apply Hmax, elem_of_numeric_ids. exists (str (Z.pos p)).
    split; [eauto|]. split; [apply isdigit_str_pos|apply int_of_digits_str_pos].
Qed.

(** Generating an id never touches the ledger. *)
Lemma generate_customer_id_world w : (generate_customer_id w).1 = w.
Proof.
  unfold generate_customer_id, bind, get, ret, lookup_or, raise. simpl.
  destruct (decide (customers w = ∅)); [done|]. by destruct (py_max _).
Qed.

(** Creating a customer keeps every record that was there. *)
Lemma ensure_customer_keeps nm w k c :
  customers w !! k = Some c -> customers (ensure_customer nm w).1 !! k = Some c.
Proof.
  intros Hk. unfold ensure_customer, bind.
  destruct (generate_customer_id w) as [w' [e|cid]] eqn:Hg.
  - pose proof (generate_customer_id_world w) as Hw. rewrite Hg in Hw. simpl in *. by subst.
  - apply generate_customer_id_fresh in Hg as [-> Hfresh].
    unfold get, store_customer, modify, ret. simpl. rewrite decide_True by done. simpl.
    rewrite lookup_insert_ne; [done|]. congruence.
Qed.

(** C9, where the code departs from it: in a ledger whose only customer
    has the non-numeric id "acme", [generate_customer_id] raises ValueError
    ([max] of an empty sequence), so /create answers with the error and no
    customer is created. *)
Theorem generate_customer_id_no_numeric_key :
  (generate_customer_id legacy_ledger).2 = inl ValueError /\
  (ensure_customer "Borealis" legacy_ledger).2 = inl ValueError /\
  (cmd_create ["Borealis"] legacy_ledger).2 = inr (ReplyError ValueError) /\
  customers (cmd_create ["Borealis"] legacy_ledger).1 = customers legacy_ledger.
Proof. vm_compute. repeat split; reflexivity. Qed.

(** The same happens for every non-empty ledger without a numeric id. *)
Lemma generate_customer_id_raises w :
  customers w <> ∅ ->
  (forall k, is_Some (customers w !! k) -> isdigit k = false) ->
  generate_customer_id w = (w, inl ValueError).
Proof.
  intros Hne Hnone. unfold generate_customer_id, bind, get, ret, lookup_or. simpl.
  rewrite decide_False by done.
  destruct (py_max _) as [m|] eqn:Hm; [|done].
  apply py_max_spec in Hm as [Hin _].
  apply elem_of_numeric_ids in Hin as (k & Hk & Hd & _). rewrite (Hnone k Hk) in Hd. done.
Qed.

(** ** Expiry timers *)

Lemma calc_job_name_inj u v : _calc_job_name u = _calc_job_name v -> u = v.
Proof. unfold _calc_job_name. simpl. intros [= H]. by apply str_pos_inj. Qed.

Lemma filter_delete_length {A} (P : A -> Prop) `{!forall x, Decision (P x)} (l : list A) i x :
  l !! i = Some x ->
  length (filter P l) = (length (filter P (delete i l)) + (if decide (P x) then 1 else 0))%nat.
Proof.
  revert i. induction l as [|y l IH]; intros [|i] Hi; simplify_eq/=.
  - rewrite filter_cons. destruct (decide (P x)); simpl; lia.
  - rewrite !filter_cons. specialize (IH i Hi).
    destruct (decide (P y)); simpl; lia.
Qed.

Lemma filter_filter_ne (l : list job) (a b : string) :
  a <> b ->
  filter (fun j => job_name j = a) (filter (fun j => job_name j ≠ b) l)
  = filter (fun j => job_name j = a) l.
Proof.
  intros Hab. induction l as [|j l IH]; [done|].
  rewrite (filter_cons (fun j => job_name j ≠ b)), (filter_cons (fun j => job_name j = a)).
  destruct (decide (job_name j ≠ b)) as [Hb|Hb].
  - rewrite filter_cons. destruct (decide (job_name j = a)); by rewrite IH.
  - rewrite decide_False; [exact IH|]. apply dec_stable in Hb. congruence.
Qed.

Lemma filter_filter_same (l : list job) (a : string) :
  filter (fun j => job_name j = a) (filter (fun j => job_name j ≠ a) l) = [].
Proof.
  induction l as [|j l IH]; [done|].
  rewrite (filter_cons (fun j => job_name j ≠ a)).
  destruct (decide (job_name j ≠ a)) as [Hb|Hb]; [|exact IH].
  rewrite filter_cons, decide_False by done. exact IH.
Qed.

(** The timers of [uid] after the timers of [u] were cancelled and one was
    queued for [u]. *)
Lemma timers_of_requeue w u uid :
  filter (fun j => job_name j = _calc_job_name uid)
    (filter (fun j => job_name j ≠ _calc_job_name u) (jobs w)
     ++ [ {| job_name := _calc_job_name u; job_user_id := u |} ])
  = if decide (u = uid)
    then [ {| job_name := _calc_job_name u; job_user_id := u |} ]
    else timers_of w uid.
Proof.
  rewrite filter_app, filter_cons, filter_nil. simpl.
  destruct (decide (u = uid)) as [->|Hu].
  - rewrite filter_filter_same, decide_True by done. done.
  - rewrite decide_False by (intros ?%calc_job_name_inj; done).
    rewrite app_nil_r. apply filter_filter_ne. intros ?%calc_job_name_inj. done.
Qed.

Lemma timers_of_cancel w u uid :
  timers_of (cancel_calc_timeout u w) uid = if decide (u = uid) then [] else timers_of w uid.
Proof.
  unfold timers_of, cancel_calc_timeout. simpl. destruct (decide (u = uid)) as [->|Hu].
  - apply filter_filter_same.
  - apply filter_filter_ne. intros ?%calc_job_name_inj. done.
Qed.

Lemma timers_step w o : jobs_named w -> timers_match w ->
  jobs_named (apply_op w o) /\ timers_match (apply_op w o).
Proof.
  intros Hn Hm. destruct o as [u ms t|u t|u|i]; simpl.
  - split.
    + intros j [[_ Hj]%list_elem_of_filter| ->%list_elem_of_singleton]%elem_of_app;
        [by apply Hn|done].
    + intros uid. unfold timers_of. simpl. rewrite timers_of_requeue.
      rewrite insert_delete_eq. destruct (decide (u = uid)) as [->|Hu].
      * by rewrite lookup_insert_eq.
      * rewrite lookup_insert_ne by done. apply Hm.
  - unfold touch_calc_session. destruct (calc_store w !! u) as [s|] eqn:Hs; [|done]. split.
    + intros j [[_ Hj]%list_elem_of_filter| ->%list_elem_of_singleton]%elem_of_app;
        [by apply Hn|done].
    + intros uid. unfold timers_of. simpl. rewrite timers_of_requeue. destruct (decide (u = uid)) as [->|Hu].
      * by rewrite lookup_insert_eq.
      * rewrite lookup_insert_ne by done. apply Hm.
  - split.
    + intros j [_ Hj]%list_elem_of_filter. by apply Hn.
    + intros uid. unfold reset_calc_session.
      change (timers_of (set_calc_store (delete u) (cancel_calc_timeout u w)) uid)
        with (timers_of (cancel_calc_timeout u w) uid).
      rewrite timers_of_cancel. simpl. destruct (decide (u = uid)) as [->|Hu].
      * by rewrite lookup_delete_eq.
      * rewrite lookup_delete_ne by done. apply Hm.
  - destruct (jobs w !! i) as [j|] eqn:Hj; [|done].
    assert (job_name j = _calc_job_name (job_user_id j)) as Hname
      by (apply Hn; by eapply list_elem_of_lookup_2).
    split.
    + intros j' Hj'. apply Hn.
      assert (jobs (_calc_timeout_job j (set_jobs (delete i) w)) = delete i (jobs w)) as Hjobs
        by (unfold _calc_timeout_job; simpl; by destruct (calc_store w !! job_user_id j)).
      rewrite Hjobs in Hj'. by eapply list_elem_of_delete_inv.
    + intros uid.
      assert (timers_of (_calc_timeout_job j (set_jobs (delete i) w)) uid
              = filter (fun j => job_name j = _calc_job_name uid) (delete i (jobs w))) as ->
        by (unfold timers_of, _calc_timeout_job; simpl;
            by destruct (calc_store w !! job_user_id j)).
      rewrite calc_store_timeout. simpl.
      pose proof (filter_delete_length (fun j => job_name j = _calc_job_name uid)
                    (jobs w) i j Hj) as Hlen.
      specialize (Hm uid). unfold timers_of in Hm. rewrite Hm in Hlen.
      destruct (decide (job_user_id j = uid)) as [Hu|Hu].
      * subst uid. rewrite lookup_delete_eq. rewrite decide_True in Hlen by done.
        destruct (calc_store w !! job_user_id j); lia.
      * rewrite lookup_delete_ne by done.
        rewrite decide_False in Hlen
          by (rewrite Hname; intros ?%calc_job_name_inj; done).
        rewrite Nat.add_0_r in Hlen. by rewrite <- Hlen.
Qed.

Lemma timers_invariant ops :
  jobs_named (run_ops ops initial_world) /\ timers_match (run_ops ops initial_world).
Proof.
  induction ops as [|o ops [Hn Hm]] using rev_ind.
  - split; [intros j Hj; by apply elem_of_nil in Hj|intros uid; simpl; by rewrite lookup_empty].
  - rewrite run_ops_snoc. by apply timers_step.
Qed.

(** X1: after any history of starts, touches, resets and timeouts, an actor
    with a stored session has exactly one timeout job queued and an actor
    without one has none; every queued job bears the name of the actor it
    will reset. *)
Theorem session_has_one_timer ops uid :
  length (timers_of (run_ops ops initial_world) uid)
  = match calc_store (run_ops ops initial_world) !! uid with
    | Some _ => 1%nat
    | None => 0%nat
    end /\
  (forall j, j ∈ jobs (run_ops ops initial_world) ->
             job_name j = _calc_job_name (job_user_id j)).
Proof.
  destruct (timers_invariant ops) as [Hn Hm]. split; [apply Hm|apply Hn].
Qed.

(** ** Looking up the customer of an actor *)

Lemma head_filter_Some {A} (P : A -> Prop) `{!forall x, Decision (P x)} (l : list A) x :
  head (filter P l) = Some x -> x ∈ l /\ P x.
Proof.
  induction l as [|y l IH]; [done|]. rewrite filter_cons.
  destruct (decide (P y)) as [Hy|Hy]; simpl.
  - intros [= ->]. split; [by left|done].
  - intros [Hin HP]%IH. split; [by right|done].
Qed.

Lemma head_filter_None {A} (P : A -> Prop) `{!forall x, Decision (P x)} (l : list A) :
  head (filter P l) = None <-> forall x, x ∈ l -> ~ P x.
Proof.
  induction l as [|y l IH]; [split; [intros _ x Hx; by apply elem_of_nil in Hx|done]|].
  rewrite filter_cons. destruct (decide (P y)) as [Hy|Hy]; simpl.
  - split; [done|]. intros Hall. destruct (Hall y); [by left|done].
  - rewrite IH. split.
    + intros Hall x [->|Hx]%elem_of_cons; [done|by apply Hall].
    + intros Hall x Hx. apply Hall. by right.
Qed.

Lemma find_customer_sound L uid cid c :
  find_customer_by_userid L uid = Some (cid, c) ->
  L !! cid = Some c /\ str (Z.pos uid) ∈ ids c.
Proof.
  unfold find_customer_by_userid. intros [Hin HP]%head_filter_Some.
  split; [by apply elem_of_map_to_list|done].
Qed.

Lemma find_customer_none L uid :
  find_customer_by_userid L uid = None
  <-> forall cid c, L !! cid = Some c -> str (Z.pos uid) ∉ ids c.
Proof.
  unfold find_customer_by_userid. rewrite head_filter_None. split.
  - intros H cid c Hc. apply (H (cid, c)). by apply elem_of_map_to_list.
  - intros H [cid c] Hin. apply (H cid c). by apply elem_of_map_to_list.
Qed.

Lemma find_customer_unique L uid cid c :
  actor_unique L -> L !! cid = Some c -> str (Z.pos uid) ∈ ids c ->
  find_customer_by_userid L uid = Some (cid, c).
Proof.
  intros Hu Hc Hin.
  destruct (find_customer_by_userid L uid) as [[cid' c']|] eqn:Hf.
  - apply find_customer_sound in Hf as [Hc' Hin'].
    assert (cid' = cid) as -> by (eapply Hu; eauto). congruence.
  - rewrite find_customer_none in Hf. by destruct (Hf cid c Hc).
Qed.

(** X2: [find_customer_by_userid] answers with a record of the ledger that
    lists the actor; it answers with nothing exactly when no record lists
    the actor; and when no actor is linked twice it answers with the one
    record that lists the actor. *)
Theorem find_customer_by_userid_spec L uid :
  (forall cid c, find_customer_by_userid L uid = Some (cid, c) ->
                 L !! cid = Some c /\ str (Z.pos uid) ∈ ids c) /\
  (find_customer_by_userid L uid = None
   <-> forall cid c, L !! cid = Some c -> str (Z.pos uid) ∉ ids c) /\
  (actor_unique L ->
   forall cid c, L !! cid = Some c -> str (Z.pos uid) ∈ ids c ->
                 find_customer_by_userid L uid = Some (cid, c)).
Proof.
  split; [|split].
  - intros cid c. apply find_customer_sound.
  - apply find_customer_none.
  - intros Hu cid c. by apply find_customer_unique.
Qed.

(** ** Quotes *)

(** Every category [classify_kind] yields is priced for every duration. *)
Lemma calc_price_defined kind duration discount :
  kind ∈ KINDS -> duration ∈ DURATIONS ->
  exists p, calc_price kind duration discount = Some p /\ 0 < p.
Proof.
  unfold KINDS, DURATIONS. intros Hk Hd. split_elem; destruct discount;
    (eexists; split; [vm_compute; reflexivity|reflexivity]).
Qed.

Lemma classify_kind_range E now1 now2 d :
  classify_kind E now1 now2 d ∈ ["holiday"; "urgent_today"; "urgent_tomorrow"; "exact"]%string.
Proof.
  unfold classify_kind. repeat case_match; solve [repeat first [by left|right]].
Qed.

(** X3: the category computed for a calendar date is one of holiday,
    urgent_today, urgent_tomorrow and exact, never free, and for each of
    the four durations it has a positive price in both tariff tables. *)
Theorem classified_date_has_price E now1 now2 d duration discount :
  duration ∈ DURATIONS ->
  classify_kind E now1 now2 d ∈ KINDS /\
  classify_kind E now1 now2 d <> "free"%string /\
  exists p, calc_price (classify_kind E now1 now2 d) duration discount = Some p /\ 0 < p.
Proof.
  intros Hd. pose proof (classify_kind_range E now1 now2 d) as Hr.
  assert (classify_kind E now1 now2 d ∈ KINDS) as Hk.
  { unfold KINDS. split_elem; solve [repeat first [by left|right]]. }
  split; [done|]. split.
  - intros Heq. rewrite Heq in Hr.
    repeat (apply elem_of_cons in Hr as [Hr|Hr]; [discriminate|]). by apply elem_of_nil in Hr.
  - by apply calc_price_defined.
Qed.

Lemma classified_date_has_price_witness :
  exists p,
    calc_price (classify_kind (lib_with_holidays ∅) {| dt_date := 739000; dt_hour := 18 |}
                  {| dt_date := 739000; dt_hour := 18 |} 739001) "night_8" true = Some p /\
    0 < p.
Proof.
  apply (classified_date_has_price (lib_with_holidays ∅) {| dt_date := 739000; dt_hour := 18 |}
           {| dt_date := 739000; dt_hour := 18 |} 739001 "night_8" true).
  unfold DURATIONS. do 3 right. left.
Defined.

Lemma customers_touch t u w : customers (touch_calc_session t u w) = customers w.
Proof. unfold touch_calc_session. by destruct (calc_store w !! u). Qed.

(** X4: a quote that [on_time_choice] hands out was asked for with the
    token of the actor's live session, names a customer of the ledger that
    lists the actor, and carries the price of the requested category and
    duration in the table that customer's discount flag selects; the
    ledger is as it was and the actor's session is gone. *)
Theorem quote_is_table_price E t now uid data w cn k d sd p :
  (on_time_choice E t now uid data w).2 = inr (Quote cn k d sd p) ->
  exists sid date_str cid cust,
    split_colon data !! 1%nat = Some sid /\
    split_colon data !! 2%nat = Some date_str /\
    split_colon data !! 3%nat = Some k /\
    split_colon data !! 4%nat = Some d /\
    is_session_valid w uid sid = true /\
    customers w !! cid = Some cust /\ str (Z.pos uid) ∈ ids cust /\ cn = name cust /\
    calc_price k d (discount cust) = Some p /\
    (date_str = "free"%string /\ sd = dt_date now \/ strptime E date_str = Some sd) /\
    customers (on_time_choice E t now uid data w).1 = customers w /\
    calc_store (on_time_choice E t now uid data w).1 !! uid = None.
Proof.
  unfold on_time_choice. case_bool_decide; [done|].
  unfold bind, lookup_or, get, ret, raise, modify.
  destruct (split_colon data !! 1%nat) as [sid|] eqn:H1; simpl; [|done].
  destruct (split_colon data !! 2%nat) as [date_str|] eqn:H2; simpl; [|done].
  destruct (split_colon data !! 3%nat) as [kind|] eqn:H3; simpl; [|done].
  destruct (split_colon data !! 4%nat) as [duration|] eqn:H4; simpl; [|done].
  destruct (is_session_valid w uid sid) eqn:Hv; simpl; [|done].
  rewrite customers_touch.
  destruct (find_customer_by_userid (customers w) uid) as [[cid cust]|] eqn:Hf; simpl; [|done].
  apply find_customer_sound in Hf as [Hc Hin].
  destruct (calc_price kind duration (discount cust)) as [price|] eqn:Hp; simpl; [|done].
  destruct (decide (date_str = "free")) as [->|Hfree]; simpl.
  - intros [= <- <- <- <- <-]. exists sid, "free"%string, cid, cust.
    repeat split; try done; [by left|apply customers_touch|apply lookup_delete_eq].
  - destruct (strptime E date_str) as [sel|] eqn:Hs; simpl; [|done].
    intros [= <- <- <- <- <-]. exists sid, date_str, cid, cust.
    repeat split; try done; [by right|apply customers_touch|apply lookup_delete_eq].
Qed.

Lemma quote_is_table_price_witness :
  exists sid date_str cid cust,
    split_colon "time:1700000000000:free:exact:4" !! 1%nat = Some sid /\
    split_colon "time:1700000000000:free:exact:4" !! 2%nat = Some date_str /\
    split_colon "time:1700000000000:free:exact:4" !! 3%nat = Some "exact"%string /\
    split_colon "time:1700000000000:free:exact:4" !! 4%nat = Some "4"%string /\
    is_session_valid (start_or_restart_calc_session 1700000000000 0 7 two_customers).1 7 sid
    = true /\
    customers (start_or_restart_calc_session 1700000000000 0 7 two_customers).1 !! cid
    = Some cust /\
    str 7 ∈ ids cust /\ "Acme"%string = name cust /\
    calc_price "exact" "4" (discount cust) = Some 25000 /\
    (date_str = "free"%string /\ 739000 = 739000 \/
     strptime (lib_with_holidays ∅) date_str = Some 739000) /\
    customers
      (on_time_choice (lib_with_holidays ∅) 1 {| dt_date := 739000; dt_hour := 10 |} 7
         "time:1700000000000:free:exact:4"
         (start_or_restart_calc_session 1700000000000 0 7 two_customers).1).1
    = customers (start_or_restart_calc_session 1700000000000 0 7 two_customers).1 /\
    calc_store
      (on_time_choice (lib_with_holidays ∅) 1 {| dt_date := 739000; dt_hour := 10 |} 7
         "time:1700000000000:free:exact:4"
         (start_or_restart_calc_session 1700000000000 0 7 two_customers).1).1 !! 7%positive
    = None.
Proof.
  apply (quote_is_table_price (lib_with_holidays ∅) 1 {| dt_date := 739000; dt_hour := 10 |} 7
           "time:1700000000000:free:exact:4"
           (start_or_restart_calc_session 1700000000000 0 7 two_customers).1
           "Acme" "exact" "4" 739000 25000).
  vm_compute. reflexivity.
Defined.

Lemma customers_reset u w : customers (reset_calc_session u w) = customers w.
Proof. reflexivity. Qed.

(** The world a menu press by a linked actor leaves. *)
Lemma on_menu_world E ms t uid data w kc :
  find_customer_by_userid (customers w) uid = Some kc ->
  (on_menu E ms t uid data w).1
  = if decide (data = "menu:start") then reset_calc_session uid w
    else if decide (data = "menu:calc")
         then (start_or_restart_calc_session ms t uid (reset_calc_session uid w)).1
    else if decide (data = "menu:status") then reset_calc_session uid w
    else if decide (data = "menu:visits") then reset_calc_session uid w
    else w.
Proof.
  intros Hf. unfold on_menu, bind, get, ret, modify. rewrite Hf. destruct kc as [cid cust].
  repeat case_decide; try reflexivity.
  destruct (visits cust) as [|v vs]; [reflexivity|].
  pose proof (render_visits_pure E (v :: vs) (reset_calc_session uid w)) as Hp.
  destruct (render_visits E (v :: vs) (reset_calc_session uid w)) as [w' [e|a]];
    simpl in Hp; by subst.
Qed.

(** X5: a press on a menu button by an actor linked to a customer ends the
    running quote: after "menu:start", "menu:status" and "menu:visits" no
    token validates, after "menu:calc" exactly the new token does, and any
    other payload changes nothing.  A press by an actor linked to no
    customer is refused and changes nothing.  No press writes to the
    ledger. *)
Theorem menu_press_ends_quote E ms t uid data w :
  (find_customer_by_userid (customers w) uid = None ->
   on_menu E ms t uid data w = (w, inr MenuNotLinked)) /\
  (is_Some (find_customer_by_userid (customers w) uid) ->
   (data ∈ ["menu:start"; "menu:status"; "menu:visits"]%string ->
    forall tok, is_session_valid (on_menu E ms t uid data w).1 uid tok = false) /\
   (data = "menu:calc"%string ->
    (on_menu E ms t uid data w).2 = inr (DatesMenu (str ms)) /\
    forall tok, is_session_valid (on_menu E ms t uid data w).1 uid tok = true
                <-> tok = str ms) /\
   (data ∉ ["menu:start"; "menu:calc"; "menu:status"; "menu:visits"]%string ->
    on_menu E ms t uid data w = (w, inr NoReply))) /\
  customers (on_menu E ms t uid data w).1 = customers w.
Proof.
  destruct (find_customer_by_userid (customers w) uid) as [kc|] eqn:Hf.
  2: { unfold on_menu, bind, get, ret. rewrite Hf.
       split; [done|]. split; [|done]. by intros [? ?]. }
  pose proof (on_menu_world E ms t uid data w kc Hf) as Hw.
  split; [done|]. split.
  - intros _. split; [|split].
    + intros Hd tok. apply is_session_valid_absent. rewrite Hw.
      apply elem_of_cons in Hd as [->|Hd]; [simpl; apply lookup_delete_eq|].
      apply elem_of_cons in Hd as [->|Hd]; [simpl; apply lookup_delete_eq|].
      apply list_elem_of_singleton in Hd as ->. simpl. apply lookup_delete_eq.
    + intros ->. split.
      * unfold on_menu, bind, get, ret, modify. rewrite Hf. by destruct kc.
      * intros tok. rewrite Hw, is_session_valid_spec. simpl.
        rewrite lookup_insert_eq. split.
        -- intros (_ & s & [= <-] & <-). done.
        -- intros ->. split; [apply str_nonempty|eauto].
    + intros Hd. rewrite !not_elem_of_cons in Hd. destruct Hd as (H1 & H2 & H3 & H4 & _).
      unfold on_menu, bind, get, ret. rewrite Hf. destruct kc.
      by rewrite !decide_False by done.
  - rewrite Hw. by repeat case_decide.
Qed.

(** ** Callback data *)

Lemma colon_free_cons c s :
  colon_free (String c s) = negb (Ascii.eqb c ":"%char) && colon_free s.
Proof. reflexivity. Qed.

Lemma split_colon_nonempty s : split_colon s <> [].
Proof.
  unfold split_colon. induction s as [|c s IH]; simpl; [done|].
  destruct (Ascii.eqb c ":"); [done|]. fold split_colon in *.
  by destruct (split_colon s).
Qed.

Lemma split_colon_cons c s :
  split_colon (String c s)
  = if Ascii.eqb c ":"%char then EmptyString :: split_colon s
    else match split_colon s with
         | [] => [String c EmptyString]
         | p :: ps => String c p :: ps
         end.
Proof. reflexivity. Qed.

(** A payload without a colon is a single part. *)
Lemma split_colon_free s : colon_free s = true -> split_colon s = [s].
Proof.
  induction s as [|c s IH]; [done|].
  rewrite colon_free_cons, split_colon_cons. intros [Hc Hs]%andb_true_iff.
  apply negb_true_iff in Hc. rewrite Hc, IH by done. done.
Qed.

(** Parts are cut at the first colon that follows a colon-free prefix. *)
Lemma split_colon_app s r :
  colon_free s = true ->
  split_colon (s +:+ String ":" r) = s :: split_colon r.
Proof.
  induction s as [|c s IH]; [done|].
  rewrite colon_free_cons. intros [Hc Hs]%andb_true_iff. apply negb_true_iff in Hc.
  change (String c s +:+ String ":" r) with (String c (s +:+ String ":" r)).
  rewrite split_colon_cons, Hc, IH by done. done.
Qed.

Lemma after_colon_app s r :
  colon_free s = true -> after_colon (s +:+ String ":" r) = Some r.
Proof.
  unfold after_colon. induction s as [|c s IH]; [done|].
  rewrite colon_free_cons. intros [Hc Hs]%andb_true_iff. apply negb_true_iff in Hc.
  simpl. rewrite Hc. by apply IH.
Qed.

Lemma colon_free_app s r :
  colon_free (s +:+ r) = colon_free s && colon_free r.
Proof.
  induction s as [|c s IH]; [done|].
  change (String c s +:+ r) with (String c (s +:+ r)).
  rewrite !colon_free_cons, IH. by rewrite andb_assoc.
Qed.

Lemma colon_free_of_uint d : colon_free (NilEmpty.string_of_uint d) = true.
Proof. induction d; simpl; try done; by rewrite colon_free_cons, IHd. Qed.

(** Decimal numerals have no colon. *)
Lemma colon_free_str n : colon_free (str n) = true.
Proof.
  unfold str. destruct (Z.to_int n) as [d|d]; simpl.
  - destruct d; try done; simpl; by rewrite colon_free_cons, colon_free_of_uint.
  - destruct d; try done; simpl; rewrite colon_free_cons; simpl;
      by rewrite colon_free_cons, colon_free_of_uint.
Qed.

Lemma startswith_app p s : startswith (p +:+ s) p = true.
Proof.
  unfold startswith. induction p as [|c p IH]; simpl; [by destruct s|].
  destruct (ascii_dec c c); [exact IH|done].
Qed.

(** [str] on the natural numbers reads back. *)
Lemma int_of_digits_str_nat (i : nat) :
  isdigit (str (Z.of_nat i)) = true /\ int_of_digits (str (Z.of_nat i)) = Z.of_nat i.
Proof.
  destruct i as [|i].
  - by vm_compute.
  - rewrite Nat2Z.inj_succ, <- Z.add_1_r.
    assert (exists p, Z.of_nat i + 1 = Z.pos p) as [p ->] by (exists (Pos.of_succ_nat i); lia).
    split; [apply isdigit_str_pos|apply int_of_digits_str_pos].
Qed.

(** ** The quote dialogue, button by button *)

Lemma split_colon_3 a b c :
  colon_free a = true -> colon_free b = true -> colon_free c = true ->
  split_colon (a +:+ ":" +:+ b +:+ ":" +:+ c) = [a; b; c].
Proof.
  intros Ha Hb Hc.
  change (a +:+ ":" +:+ b +:+ ":" +:+ c) with (a +:+ String ":" (b +:+ String ":" c)).
  by rewrite !split_colon_app, split_colon_free.
Qed.

Lemma split_colon_5 a b c d e :
  colon_free a = true -> colon_free b = true -> colon_free c = true ->
  colon_free d = true -> colon_free e = true ->
  split_colon (a +:+ ":" +:+ b +:+ ":" +:+ c +:+ ":" +:+ d +:+ ":" +:+ e) = [a; b; c; d; e].
Proof.
  intros Ha Hb Hc Hd He.
  change (a +:+ ":" +:+ b +:+ ":" +:+ c +:+ ":" +:+ d +:+ ":" +:+ e)
    with (a +:+ String ":" (b +:+ String ":" (c +:+ String ":" (d +:+ String ":" e)))).
  by rewrite !split_colon_app, split_colon_free.
Qed.

(** The buttons of the dates keyboard: twelve consecutive days from today,
    and the way back to the main menu. *)
Lemma kb_dates_menu_buttons E today sid b :
  b ∈ buttons (kb_dates_menu E today sid) ->
  b = "menu:start"%string \/
  exists d, today <= d <= today + 11 /\ b = ("date:" +:+ sid +:+ ":" +:+ isoformat E d)%string.
Proof.
  unfold kb_dates_menu, buttons. simpl. intros Hb.
  repeat (apply elem_of_cons in Hb as [->|Hb];
          [first [by left | right; eexists; split; [|reflexivity]; lia]|]).
  by apply elem_of_nil in Hb.
Qed.

Lemma kb_duration_menu_buttons date_str kind sid b :
  b ∈ buttons (kb_duration_menu date_str kind sid) ->
  b = "menu:start"%string \/
  exists duration,
    duration ∈ DURATIONS /\
    b = ("time:" +:+ sid +:+ ":" +:+ date_str +:+ ":" +:+ kind +:+ ":" +:+ duration)%string.
Proof.
  unfold kb_duration_menu, buttons, DURATIONS. simpl. intros Hb.
  repeat (apply elem_of_cons in Hb as [->|Hb];
          [first [by left
                 | right; eexists; split; [|reflexivity]; solve [repeat first [by left|right]]]|]).
  by apply elem_of_nil in Hb.
Qed.

Lemma colon_free_kind kind : kind ∈ KINDS -> colon_free kind = true.
Proof. unfold KINDS. intros H. split_elem; reflexivity. Qed.

Lemma colon_free_duration duration : duration ∈ DURATIONS -> colon_free duration = true.
Proof. unfold DURATIONS. intros H. split_elem; reflexivity. Qed.

(** A date button pressed while its session is live. *)
Lemma on_date_choice_live E t now1 now2 uid sid d w :
  is_session_valid w uid sid = true -> colon_free sid = true -> iso_date E d ->
  on_date_choice E t now1 now2 uid ("date:" +:+ sid +:+ ":" +:+ isoformat E d) w
  = (touch_calc_session t uid w,
     inr (DurationMenu (isoformat E d) (classify_kind E now1 now2 d) sid)).
Proof.
  intros Hv Hsid (Hiso & _ & Hfree & Hparse). unfold on_date_choice.
  change ("date:" +:+ sid +:+ ":" +:+ isoformat E d)
    with ("date" +:+ ":" +:+ sid +:+ ":" +:+ isoformat E d).
  rewrite split_colon_3 by done. simpl.
  unfold bind, lookup_or, get, ret, modify. simpl. rewrite Hv. simpl.
  rewrite decide_False by done. by rewrite Hparse.
Qed.

(** A duration button pressed while its session is live, by an actor the
    ledger knows. *)
Lemma on_time_choice_live E t now uid sid date_str sel kind duration w cid cust p :
  is_session_valid w uid sid = true ->
  colon_free sid = true -> colon_free date_str = true ->
  colon_free kind = true -> colon_free duration = true ->
  find_customer_by_userid (customers w) uid = Some (cid, cust) ->
  calc_price kind duration (discount cust) = Some p ->
  date_str <> "free"%string -> strptime E date_str = Some sel ->
  on_time_choice E t now uid
    ("time:" +:+ sid +:+ ":" +:+ date_str +:+ ":" +:+ kind +:+ ":" +:+ duration) w
  = (reset_calc_session uid (touch_calc_session t uid w),
     inr (Quote (name cust) kind duration sel p)).
Proof.
  intros Hv Hsid Hdate Hkind Hdur Hf Hp Hfree Hparse. unfold on_time_choice.
  change ("time:" +:+ sid +:+ ":" +:+ date_str +:+ ":" +:+ kind +:+ ":" +:+ duration)
    with ("time" +:+ ":" +:+ sid +:+ ":" +:+ date_str +:+ ":" +:+ kind +:+ ":" +:+ duration).
  rewrite split_colon_5 by done. simpl.
  unfold bind, lookup_or, get, ret, modify. simpl. rewrite Hv. simpl.
  rewrite customers_touch, Hf. simpl. rewrite Hp. simpl.
  rewrite decide_False by done. by rewrite Hparse.
Qed.

Lemma is_session_valid_touch t u w uid tok :
  is_session_valid (touch_calc_session t u w) uid tok = is_session_valid w uid tok.
Proof.
  unfold is_session_valid, get_active_calc_session. rewrite calc_store_touch.
  destruct (calc_store w !! u) as [s|] eqn:Hs; [|done].
  destruct (decide (u = uid)) as [->|Hne].
  - by rewrite lookup_insert_eq, Hs.
  - by rewrite lookup_insert_ne.
Qed.

(** X6: the quote dialogue has no dead button.  For an actor linked to a
    customer, "menu:calc" opens the dates keyboard with a new token; every
    date button of that keyboard is then accepted and opens the durations
    keyboard for that date and its category; and every duration button of
    that keyboard yields a quote for the date, whose price is the table
    price of the category and the duration under the customer's discount
    flag. *)
Theorem quote_dialogue_has_no_dead_button
    E ms t1 t2 t3 now1 now2 now3 today uid w cid cust :
  find_customer_by_userid (customers w) uid = Some (cid, cust) ->
  (forall d, today <= d <= today + 11 -> iso_date E d) ->
  (on_menu E ms t1 uid "menu:calc" w).2 = inr (DatesMenu (str ms)) /\
  forall b1,
    b1 ∈ buttons (kb_dates_menu E today (str ms)) -> b1 <> "menu:start"%string ->
    exists d,
      today <= d <= today + 11 /\
      on_date_choice E t2 now1 now2 uid b1 (on_menu E ms t1 uid "menu:calc" w).1
      = (touch_calc_session t2 uid (on_menu E ms t1 uid "menu:calc" w).1,
         inr (DurationMenu (isoformat E d) (classify_kind E now1 now2 d) (str ms))) /\
      forall b2,
        b2 ∈ buttons (kb_duration_menu (isoformat E d) (classify_kind E now1 now2 d) (str ms)) ->
        b2 <> "menu:start"%string ->
        exists duration p,
          duration ∈ DURATIONS /\
          calc_price (classify_kind E now1 now2 d) duration (discount cust) = Some p /\
          (on_time_choice E t3 now3 uid b2
             (touch_calc_session t2 uid (on_menu E ms t1 uid "menu:calc" w).1)).2
          = inr (Quote (name cust) (classify_kind E now1 now2 d) duration d p).
Proof.
  intros Hf Hiso.
  pose proof (on_menu_world E ms t1 uid "menu:calc" w _ Hf) as Hw. simpl in Hw.
  set (w1 := (on_menu E ms t1 uid "menu:calc" w).1) in *.
  assert (is_session_valid w1 uid (str ms) = true) as Hv.
  { apply is_session_valid_spec. split; [apply str_nonempty|].
    rewrite Hw. simpl. rewrite lookup_insert_eq. eauto. }
  assert (customers w1 = customers w) as Hc by (by rewrite Hw).
  split.
  { unfold on_menu, bind, get, ret, modify. by rewrite Hf. }
  intros b1 [->|(d & Hd & ->)]%kb_dates_menu_buttons Hb1; [done|].
  exists d. split; [done|]. split.
  { apply on_date_choice_live; [done|apply colon_free_str|by apply Hiso]. }
  intros b2 [->|(duration & Hdur & ->)]%kb_duration_menu_buttons Hb2; [done|].
  assert (classify_kind E now1 now2 d ∈ KINDS) as Hk.
  { pose proof (classify_kind_range E now1 now2 d) as Hr. unfold KINDS.
    repeat (apply elem_of_cons in Hr as [->|Hr]; [solve [repeat first [by left|right]]|]).
    by apply elem_of_nil in Hr. }
  destruct (calc_price_defined _ _ (discount cust) Hk Hdur) as (p & Hp & _).
  exists duration, p. split; [done|]. split; [done|].
  destruct (Hiso d Hd) as (Hcf & _ & Hfree & Hparse).
  erewrite on_time_choice_live; [done|..]; try done.
  - by rewrite is_session_valid_touch.
  - apply colon_free_str.
  - by apply colon_free_kind.
  - by apply colon_free_duration.
  - by rewrite customers_touch, Hc.
Qed.

Lemma quote_dialogue_has_no_dead_button_witness :
  (on_menu (lib_with_holidays ∅) 1700000000000 0 7 "menu:calc" two_customers).2
  = inr (DatesMenu (str 1700000000000)).
Proof.
  refine (proj1 (quote_dialogue_has_no_dead_button (lib_with_holidays ∅) 1700000000000 0 1 2
                   {| dt_date := 739000; dt_hour := 10 |} {| dt_date := 739000; dt_hour := 10 |}
                   {| dt_date := 739000; dt_hour := 10 |} 739000 7 two_customers "1"
                   (set_ids (fun _ => ["7"%string]) (new_customer "Acme")) _ _)).
  - vm_compute. reflexivity.
  - intros d Hd.
    assert (exists i, (i < 12)%nat /\ d = 739000 + Z.of_nat i) as (i & Hi & ->)
      by (exists (Z.to_nat (d - 739000)); lia).
    do 12 (destruct i as [|i]; [vm_compute; repeat split; congruence|]). lia.
Defined.

(** ** The wizard, button by button *)

Lemma split_colon_2 a b :
  colon_free a = true -> colon_free b = true ->
  split_colon (a +:+ ":" +:+ b) = [a; b].
Proof.
  intros Ha Hb. change (a +:+ ":" +:+ b) with (a +:+ String ":" b).
  by rewrite split_colon_app, split_colon_free.
Qed.

Lemma startswith_app_both p s q : startswith (p +:+ s) (p +:+ q) = startswith s q.
Proof.
  unfold startswith. induction p as [|c p IH]; simpl; [done|].
  destruct (ascii_dec c c); [exact IH|done].
Qed.

Ltac payload_ne := intros ?; simplify_eq/=.















(** The dispatcher hands an update only to a handler the conversation has
    enabled. *)
Lemma route_callback_enabled s is_admin data call :
  route_callback s is_admin data = Some call -> enabled s call = true.
Proof.
  unfold route_callback, entry_route, state_route, fallback_route, enabled.
  destruct (taken_before_conversation data); [done|].
  destruct (startswith data "admin_panel"); [by intros [= <-]|].
  destruct (pattern_select_customer data); [by intros [= <-]|].
  destruct (pattern_select_action data); [by intros [= <-]|].
  destruct s; try done;
    repeat match goal with
           | |- context [startswith ?d ?p] => destruct (startswith d p)
           end;
    intros [= <-]; done.
Qed.













(** ** Ledger commands *)

(** Every link path ends with the actor found under the target. *)
Lemma find_after_link L cid u c0 :
  ledger_wf L -> L !! cid = Some c0 ->
  find_customer_by_userid
    (<[cid := set_ids (fun l => l ++ [str (Z.pos u)]) (without_actor (str (Z.pos u)) c0)]>
       (without_actor (str (Z.pos u)) <$> L)) u
  = Some (cid, set_ids (fun l => l ++ [str (Z.pos u)]) (without_actor (str (Z.pos u)) c0)).
Proof.
  intros Hwf Hc0.
  set (L' := <[cid := _]> _).
  destruct (find_customer_by_userid L' u) as [[k c]|] eqn:Hf.
  - apply find_customer_sound in Hf as [Hk Hin].
    pose proof (linked_only_target L cid (str (Z.pos u)) c0 Hwf Hc0 k c Hk) as Hiff.
    apply Hiff in Hin as ->. unfold L' in Hk. rewrite lookup_insert_eq in Hk. congruence.
  - rewrite find_customer_none in Hf.
    destruct (Hf cid (set_ids (fun l => l ++ [str (Z.pos u)])
                        (without_actor (str (Z.pos u)) c0))).
    + unfold L'. apply lookup_insert_eq.
    + simpl. rewrite elem_of_app, list_elem_of_singleton. by right.
Qed.

Lemma without_actor_fields uid c :
  name (without_actor uid c) = name c /\ visits (without_actor uid c) = visits c /\
  projects_sum (without_actor uid c) = projects_sum c /\
  discount (without_actor uid c) = discount c.
Proof. unfold without_actor. by case_decide. Qed.

(** X8: after a link by any of the four entry points, to a customer that
    exists, in a ledger whose actor lists have no repetition, the actor's
    customer is the target, with the name, visits, project sum and
    discount flag the target had: the actor's next quote is priced under
    the target's flag. *)
Theorem linked_actor_is_found E call w cid u c0 :
  link_target E call w = Some (cid, str (Z.pos u)) ->
  customers w !! cid = Some c0 ->
  ledger_wf (customers w) ->
  exists c',
    find_customer_by_userid (customers (run_link E call w)) u = Some (cid, c') /\
    name c' = name c0 /\ visits c' = visits c0 /\
    projects_sum c' = projects_sum c0 /\ discount c' = discount c0.
Proof.
  intros Ht Hc0 Hwf.
  rewrite (run_link_ledger E call w cid _ Ht) by eauto.
  rewrite (link_user_ledger E cid _ w c0 Hc0 (Hwf _ _ Hc0)).
  eexists. split; [by apply find_after_link|].
  simpl. apply without_actor_fields.
Qed.

Lemma linked_actor_is_found_witness :
  exists c',
    find_customer_by_userid
      (customers (run_link (lib_with_holidays ∅) (Register ["7"; "2"]) two_customers)) 7
    = Some ("2"%string, c') /\
    name c' = name (new_customer "Borealis") /\ visits c' = visits (new_customer "Borealis") /\
    projects_sum c' = projects_sum (new_customer "Borealis") /\
    discount c' = discount (new_customer "Borealis").
Proof.
  apply (linked_actor_is_found (lib_with_holidays ∅) (Register ["7"; "2"]) two_customers
           "2" 7 (new_customer "Borealis")).
  - reflexivity.
  - vm_compute. reflexivity.
  - intros k c. unfold two_customers; simpl.
    intros [[<- <-]|[_ [[<- <-]|[_ H]]%lookup_insert_Some]]%lookup_insert_Some.
    + simpl. apply NoDup_singleton.
    + simpl. apply NoDup_nil_2.
    + by rewrite lookup_empty in H.
Defined.

(** What [link_user] answers in a ledger without repeated ids. *)
Lemma link_user_reply E cid uid w c0 :
  customers w !! cid = Some c0 -> NoDup (ids c0) ->
  (link_user E cid uid w).2
  = match py_int E uid with Some _ => inr ReplyDone | None => inl ValueError end.
Proof.
  intros Hc0 Hnd. unfold link_user, unlink_everywhere, customer_at, store_customer.
  unfold bind, lookup_or, get, modify, ret, raise. simpl.
  rewrite lookup_fmap, Hc0. simpl.
  destruct (decide (uid ∈ ids (without_actor uid c0))) as [Hin|Hnin].
  - rewrite ids_without_actor in Hin. by apply not_elem_of_list_remove in Hin.
  - simpl. by destruct (py_int E uid).
Qed.

(** X9: in a ledger whose actor lists have no repetition, /link and
    /register to a customer that exists never answer "already linked",
    also when the actor is linked to that customer: the actor is moved to
    the end of the target's list and the answer is "done", or the error of
    [int(uid)] when the id is not a number; in that case the id has been
    stored all the same. *)
Theorem link_stores_before_notifying E cid uid w c0 :
  customers w !! cid = Some c0 -> ledger_wf (customers w) ->
  (cmd_link E [cid; uid] w).2
  = inr (match py_int E uid with Some _ => ReplyDone | None => ReplyError ValueError end) /\
  (cmd_register E [uid; cid] w).2
  = inr (match py_int E uid with Some _ => ReplyDone | None => ReplyError ValueError end) /\
  (exists c, customers (cmd_link E [cid; uid] w).1 !! cid = Some c /\
             ids c = list_remove uid (ids c0) ++ [uid]) /\
  (exists c, customers (cmd_register E [uid; cid] w).1 !! cid = Some c /\
             ids c = list_remove uid (ids c0) ++ [uid]).
Proof.
  intros Hc0 Hwf.
  pose proof (link_user_reply E cid uid w c0 Hc0 (Hwf _ _ Hc0)) as Hr.
  pose proof (link_user_ledger E cid uid w c0 Hc0 (Hwf _ _ Hc0)) as Hl.
  assert (cmd_link E [cid; uid] w
          = match link_user E cid uid w with
            | (w', inl e) => (w', inr (ReplyError e))
            | r => r
            end) as Hlink.
  { unfold cmd_link, try_except, bind, get, ret. simpl.
    rewrite decide_False by congruence. by destruct (link_user E cid uid w) as [w' [e|r]]. }
  assert (cmd_register E [uid; cid] w
          = match link_user E cid uid w with
            | (w', inl e) => (w', inr (ReplyError e))
            | r => r
            end) as Hreg.
  { unfold cmd_register, try_except, bind, get, ret. simpl.
    rewrite decide_False by congruence. by destruct (link_user E cid uid w) as [w' [e|r]]. }
  rewrite Hlink, Hreg.
  destruct (link_user E cid uid w) as [w' [e|r]]; simpl in *;
    destruct (py_int E uid); simplify_eq; (split; [done|]); (split; [done|]);
    rewrite Hl, lookup_insert_eq; split; eexists; (split; [done|]);
    simpl; by rewrite ids_without_actor.
Qed.

Lemma link_stores_before_notifying_witness :
  (cmd_link (lib_with_holidays ∅) ["2"; "welder"] two_customers).2
  = inr (ReplyError ValueError) /\
  exists c, customers (cmd_link (lib_with_holidays ∅) ["2"; "welder"] two_customers).1
            !! "2"%string = Some c /\
            ids c = ["welder"%string].
Proof.
  pose proof (link_stores_before_notifying (lib_with_holidays ∅) "2" "welder" two_customers
                (new_customer "Borealis")) as H.
  destruct H as (H1 & _ & H3 & _).
  - vm_compute. reflexivity.
  - intros k c. unfold two_customers; simpl.
    intros [[<- <-]|[_ [[<- <-]|[_ H]]%lookup_insert_Some]]%lookup_insert_Some.
    + simpl. apply NoDup_singleton.
    + simpl. apply NoDup_nil_2.
    + by rewrite lookup_empty in H.
  - split; [exact H1|exact H3].
Defined.

(** X10: /unlink of an actor listed under the customer answers "done";
    afterwards the actor belongs to no customer (its menus and quotes are
    refused), the customer keeps its name, visits, project sum and flag,
    and every other record is as it was. *)
Theorem unlink_removes_actor cid u w c :
  ledger_wf (customers w) -> actor_unique (customers w) ->
  customers w !! cid = Some c -> str (Z.pos u) ∈ ids c ->
  (cmd_unlink [cid; str (Z.pos u)] w).2 = inr ReplyDone /\
  customers (cmd_unlink [cid; str (Z.pos u)] w).1
  = <[cid := set_ids (list_remove (str (Z.pos u))) c]> (customers w) /\
  find_customer_by_userid (customers (cmd_unlink [cid; str (Z.pos u)] w).1) u = None /\
  (forall E ms t data,
      on_menu E ms t u data (cmd_unlink [cid; str (Z.pos u)] w).1
      = ((cmd_unlink [cid; str (Z.pos u)] w).1, inr MenuNotLinked)).
Proof.
  intros Hwf Hu Hc Hin.
  assert (cmd_unlink [cid; str (Z.pos u)] w
          = (set_customers (fun L => <[cid := set_ids (list_remove (str (Z.pos u))) c]> L) w,
             inr ReplyDone)) as ->.
  { unfold cmd_unlink, try_except, store_customer, bind, get, ret, modify. simpl.
    rewrite Hc. by rewrite decide_True. }
  assert (find_customer_by_userid
            (<[cid := set_ids (list_remove (str (Z.pos u))) c]> (customers w)) u = None) as Hf.
  { apply find_customer_none. intros k c' Hk Hin'.
    destruct (decide (cid = k)) as [->|Hne].
    - rewrite lookup_insert_eq in Hk. simplify_eq. simpl in Hin'.
      by apply not_elem_of_list_remove in Hin'; [|eapply Hwf].
    - rewrite lookup_insert_ne in Hk by done. by destruct Hne; eapply Hu. }
  simpl. repeat split; try done.
  intros E ms t data. unfold on_menu, bind, get. simpl. by rewrite Hf.
Qed.

Lemma unlink_removes_actor_witness :
  find_customer_by_userid (customers (cmd_unlink ["1"; str 7] two_customers).1) 7 = None.
Proof.
  refine (proj1 (proj2 (proj2
            (unlink_removes_actor "1" 7 two_customers
               (set_ids (fun _ => ["7"%string]) (new_customer "Acme")) _ _ _ _)))).
  - intros k c. unfold two_customers; simpl.
    intros [[<- <-]|[_ [[<- <-]|[_ H]]%lookup_insert_Some]]%lookup_insert_Some.
    + simpl. apply NoDup_singleton.
    + simpl. apply NoDup_nil_2.
    + by rewrite lookup_empty in H.
  - intros a k1 k2 c1 c2. unfold two_customers; simpl.
    intros [[<- <-]|[? [[<- <-]|[_ H1]]%lookup_insert_Some]]%lookup_insert_Some
           [[<- <-]|[? [[<- <-]|[_ H2]]%lookup_insert_Some]]%lookup_insert_Some;
      simpl; try done; try (by rewrite lookup_empty in H1);
      try (by rewrite lookup_empty in H2);
      intros Ha1 Ha2; by (apply elem_of_nil in Ha1 || apply elem_of_nil in Ha2).
  - vm_compute. reflexivity.
  - simpl. by left.
Defined.

Lemma find_after_delete L cid c u :
  actor_unique L -> L !! cid = Some c -> str (Z.pos u) ∈ ids c ->
  find_customer_by_userid (delete cid L) u = None.
Proof.
  intros Hu Hc Hin. apply find_customer_none. intros k c' Hk Hin'.
  apply lookup_delete_Some in Hk as [Hne Hk]. destruct Hne. by eapply Hu.
Qed.

(** The "delete customer" button of the actions keyboard. *)
Lemma admin_select_action_remove E cid c0 d w :
  customers w !! cid = Some c0 -> colon_free cid = true -> cid <> ""%string ->
  admin_visit w = Some d ->
  admin_select_action E ("admin_action:remove:" +:+ cid) w
  = (set_customers (delete cid)
       (set_admin_visit (Some (set_d_customer_name (name c0) (set_d_cid cid d))) w),
     inr (Some END)).
Proof.
  intros Hc Hcf Hne Hd. unfold admin_select_action, select_action_delete.
  rewrite decide_False by payload_ne.
  assert (forall p, startswith ("admin_action:remove:" +:+ cid) ("admin_" +:+ p)
                    = startswith ("action:remove:" +:+ cid) p) as Hsw
    by (intros p; apply (startswith_app_both "admin_")).
  change "admin_delete_"%string with ("admin_" +:+ "delete_")%string.
  change "admin_unlink_specific:"%string with ("admin_" +:+ "unlink_specific:")%string.
  change "admin_add_amount:"%string with ("admin_" +:+ "add_amount:")%string.
  change "admin_reset_sum:"%string with ("admin_" +:+ "reset_sum:")%string.
  rewrite !Hsw.
  replace (startswith ("action:remove:" +:+ cid) "delete_") with false by done.
  unfold bind at 1. unfold ret at 1.
  replace (startswith ("action:remove:" +:+ cid) "unlink_specific:") with false by done.
  replace (startswith ("action:remove:" +:+ cid) "add_amount:") with false by done.
  replace (startswith ("action:remove:" +:+ cid) "reset_sum:") with false by done.
  unfold select_action_menu.
  change ("admin_action:remove:" +:+ cid)
    with ("admin_action" +:+ ":" +:+ "remove" +:+ ":" +:+ cid).
  rewrite split_colon_3 by done.
  unfold customer_at, draft_update, bind, lookup_or, get, ret, modify. simpl.
  rewrite decide_False by done. simpl. rewrite Hd. simpl. rewrite Hc. simpl.
  rewrite Hc. done.
Qed.

(** X11: deleting a customer, by /remove or by the "delete customer"
    button of the wizard, removes the record with its visits and its links
    and leaves every other record as it was: the id no longer resolves,
    and an actor that was linked to the customer belongs to no customer
    afterwards.  The button also ends the conversation. *)
Theorem remove_cascades E cid w c d :
  customers w !! cid = Some c -> actor_unique (customers w) ->
  colon_free cid = true -> cid <> ""%string -> admin_visit w = Some d ->
  (cmd_remove [cid] w).2 = inr ReplyDone /\
  customers (cmd_remove [cid] w).1 = delete cid (customers w) /\
  (admin_select_action E ("admin_action:remove:" +:+ cid) w).2 = inr (Some END) /\
  customers (admin_select_action E ("admin_action:remove:" +:+ cid) w).1
  = delete cid (customers w) /\
  visits_at (cmd_remove [cid] w).1 cid = [] /\
  (forall u, str (Z.pos u) ∈ ids c ->
             find_customer_by_userid (delete cid (customers w)) u = None) /\
  (forall k, k <> cid -> delete cid (customers w) !! k = customers w !! k).
Proof.
  intros Hc Hu Hcf Hne Hd.
  assert (cmd_remove [cid] w = (set_customers (delete cid) w, inr ReplyDone)) as ->.
  { unfold cmd_remove, try_except, bind, get, ret, modify. simpl.
    by rewrite decide_False by congruence. }
  rewrite (admin_select_action_remove E cid c d w) by done. simpl.
  repeat split; try done.
  - unfold visits_at. simpl. by rewrite lookup_delete_eq.
  - intros u Hin. by eapply find_after_delete.
  - intros k Hk. by apply lookup_delete_ne.
Qed.

Lemma remove_cascades_witness :
  find_customer_by_userid (delete "1"%string (customers two_customers)) 7 = None.
Proof.
  pose proof (remove_cascades (lib_with_holidays ∅) "1"
                (set_admin_visit (Some empty_draft) two_customers)
                (set_ids (fun _ => ["7"%string]) (new_customer "Acme")) empty_draft) as H.
  destruct H as (_ & _ & _ & _ & _ & H & _).
  - vm_compute. reflexivity.
  - intros a k1 k2 c1 c2. unfold two_customers; simpl.
    intros [[<- <-]|[? [[<- <-]|[_ H1]]%lookup_insert_Some]]%lookup_insert_Some
           [[<- <-]|[? [[<- <-]|[_ H2]]%lookup_insert_Some]]%lookup_insert_Some;
      simpl; try done; try (by rewrite lookup_empty in H1);
      try (by rewrite lookup_empty in H2);
      intros Ha1 Ha2; by (apply elem_of_nil in Ha1 || apply elem_of_nil in Ha2).
  - reflexivity.
  - discriminate.
  - reflexivity.
  - apply (H 7%positive). simpl. by left.
Defined.

Lemma add_to_sum_add a b c : add_to_sum b (add_to_sum a c) = add_to_sum (a + b) c.
Proof.
  unfold add_to_sum, recalc_discount, set_projects_sum, set_discount. simpl.
  destruct ((4 <=? Z.of_nat (length (visits c))) || (60000 <=? projects_sum c + a));
    simpl; by rewrite Z.add_assoc.
Qed.

Lemma set_sum_add_to_sum a b c : set_sum b (add_to_sum a c) = set_sum b c.
Proof.
  unfold set_sum, add_to_sum, recalc_discount, set_projects_sum, set_discount. simpl.
  by destruct ((4 <=? Z.of_nat (length (visits c))) || (60000 <=? projects_sum c + a)).
Qed.

Lemma cmd_addsum_run E cid s a w c :
  customers w !! cid = Some c -> py_int E s = Some a ->
  cmd_addsum E [cid; s] w
  = (set_customers (fun L => <[cid := add_to_sum a c]> L) w, inr ReplyDone).
Proof.
  intros Hc Hs. unfold cmd_addsum, try_except, update_customer, customer_at, store_customer,
    bind, lookup_or, get, ret, modify. simpl. rewrite Hs. simpl.
  rewrite decide_False by congruence. simpl. by rewrite Hc.
Qed.

Lemma cmd_setsum_run E cid s a w c :
  customers w !! cid = Some c -> py_int E s = Some a ->
  cmd_setsum E [cid; s] w
  = (set_customers (fun L => <[cid := set_sum a c]> L) w, inr ReplyDone).
Proof.
  intros Hc Hs. unfold cmd_setsum, try_except, update_customer, customer_at, store_customer,
    bind, lookup_or, get, ret, modify. simpl. rewrite Hs. simpl.
  rewrite decide_False by congruence. simpl. by rewrite Hc.
Qed.

Lemma recalc_discount_fields c :
  name (recalc_discount c) = name c /\ ids (recalc_discount c) = ids c /\
  visits (recalc_discount c) = visits c /\ projects_sum (recalc_discount c) = projects_sum c.
Proof. unfold recalc_discount. by case_match. Qed.

Lemma discount_recalc c :
  discount (recalc_discount c) = true
  <-> (4 <= length (visits c))%nat \/ 60000 <= projects_sum c.
Proof.
  pose proof (recalc_discount_ok c) as Hok. unfold flag_ok in Hok. rewrite Hok.
  rewrite eligible_iff.
  by destruct (recalc_discount_fields c) as (_ & _ & -> & ->).
Qed.

(** X12: /addsum adds the amount to the customer's project sum (a
    negative amount lowers it) and /setsum replaces the sum; both keep the
    name, the linked actors and the visits, and set the flag to
    [visits >= 4 or sum >= 60000] for the new sum.  Two additions are one
    addition of the total, and a /setsum makes an earlier /addsum
    irrelevant. *)
Theorem sum_commands E cid w c s a s' b :
  customers w !! cid = Some c -> py_int E s = Some a -> py_int E s' = Some b ->
  (exists c1,
      customers (cmd_addsum E [cid; s] w).1 = <[cid := c1]> (customers w) /\
      projects_sum c1 = projects_sum c + a /\
      name c1 = name c /\ ids c1 = ids c /\ visits c1 = visits c /\
      (discount c1 = true <-> (4 <= length (visits c))%nat \/ 60000 <= projects_sum c + a)) /\
  (exists c1,
      customers (cmd_setsum E [cid; s] w).1 = <[cid := c1]> (customers w) /\
      projects_sum c1 = a /\
      name c1 = name c /\ ids c1 = ids c /\ visits c1 = visits c /\
      (discount c1 = true <-> (4 <= length (visits c))%nat \/ 60000 <= a)) /\
  customers (cmd_addsum E [cid; s'] (cmd_addsum E [cid; s] w).1).1
  = <[cid := add_to_sum (a + b) c]> (customers w) /\
  customers (cmd_setsum E [cid; s'] (cmd_addsum E [cid; s] w).1).1
  = customers (cmd_setsum E [cid; s'] w).1.
Proof.
  intros Hc Hs Hs'.
  rewrite (cmd_addsum_run E cid s a w c Hc Hs).
  rewrite (cmd_setsum_run E cid s a w c Hc Hs).
  rewrite (cmd_setsum_run E cid s' b w c Hc Hs'). simpl.
  split; [|split; [|split]].
  - exists (add_to_sum a c). split; [done|].
    pose proof (recalc_discount_fields (set_projects_sum (projects_sum c + a) c))
      as (Hn & Hi & Hv & Hp).
    unfold add_to_sum. rewrite Hn, Hi, Hv, Hp. simpl. repeat split; try done.
    + by intros Hd%discount_recalc.
    + intros He. by apply discount_recalc.
  - exists (set_sum a c). split; [done|].
    pose proof (recalc_discount_fields (set_projects_sum a c)) as (Hn & Hi & Hv & Hp).
    unfold set_sum. rewrite Hn, Hi, Hv, Hp. simpl. repeat split; try done.
    + by intros Hd%discount_recalc.
    + intros He. by apply discount_recalc.
  - erewrite cmd_addsum_run; [|simpl; apply lookup_insert_eq|done]. simpl.
    by rewrite insert_insert_eq, add_to_sum_add.
  - erewrite cmd_setsum_run; [|simpl; apply lookup_insert_eq|done]. simpl.
    by rewrite insert_insert_eq, set_sum_add_to_sum.
Qed.

Lemma sum_commands_witness :
  customers (cmd_addsum (lib_with_holidays ∅) ["2"; "35000"]
               (cmd_addsum (lib_with_holidays ∅) ["2"; "25000"] two_customers).1).1
  = <["2"%string := add_to_sum (25000 + 35000) (new_customer "Borealis")]>
      (customers two_customers).
Proof.
  pose proof (sum_commands (lib_with_holidays ∅) "2" two_customers (new_customer "Borealis")
                "25000" 25000 "35000" 35000) as H.
  destruct H as (_ & _ & H & _); [vm_compute; reflexivity..|exact H].
Defined.

(** X13: the text commands always answer.  None of them raises; a wrong
    number of arguments is answered with the usage line and an unknown
    customer id with "not found", the state untouched in both cases; and
    /addsum and /setsum read the amount before they look the customer up,
    so an amount that is not a number is answered with the error of
    [int()] whether or not the customer exists. *)
Theorem commands_always_answer E w :
  (forall c, (forall data, c <> CmdQuickLink data) ->
             exists r, (run_command E c w).2 = inr r) /\
  (forall args, length args <> 2%nat ->
     cmd_register E args w = (w, inr ReplyUsage) /\ cmd_link E args w = (w, inr ReplyUsage) /\
     cmd_unlink args w = (w, inr ReplyUsage) /\ cmd_addsum E args w = (w, inr ReplyUsage) /\
     cmd_setsum E args w = (w, inr ReplyUsage)) /\
  (forall args, length args <> 1%nat ->
     cmd_remove args w = (w, inr ReplyUsage) /\
     cmd_clearvisits args w = (w, inr ReplyUsage)) /\
  cmd_create [] w = (w, inr ReplyUsage) /\
  (forall cid x, customers w !! cid = None ->
     cmd_register E [x; cid] w = (w, inr ReplyNotFound) /\
     cmd_link E [cid; x] w = (w, inr ReplyNotFound) /\
     cmd_unlink [cid; x] w = (w, inr ReplyNotFound) /\
     cmd_remove [cid] w = (w, inr ReplyNotFound) /\
     cmd_clearvisits [cid] w = (w, inr ReplyNotFound) /\
     (forall a, py_int E x = Some a ->
      cmd_addsum E [cid; x] w = (w, inr ReplyNotFound) /\
      cmd_setsum E [cid; x] w = (w, inr ReplyNotFound))) /\
  (forall cid x, py_int E x = None ->
     cmd_addsum E [cid; x] w = (w, inr (ReplyError ValueError)) /\
     cmd_setsum E [cid; x] w = (w, inr (ReplyError ValueError))).
Proof.
  split; [|split; [|split; [|split; [|split]]]].
  - intros c Hc. destruct c as [data|args|args|args|args|args|args|args|args]; simpl;
      [by destruct (Hc data)|..];
      match goal with
      | |- exists r, (?f w).2 = inr r =>
          unfold cmd_register, cmd_create, cmd_link, cmd_unlink, cmd_addsum, cmd_setsum,
            cmd_remove, cmd_clearvisits, try_except;
          match goal with
          | |- exists r, (match ?m w with _ => _ end).2 = inr r =>
              destruct (m w) as [w' [e|r]]; simpl; eauto
          end
      end.
  - intros args Hlen.
    destruct args as [|a0 [|a1 [|a2 l]]]; simpl in Hlen; try lia; done.
  - intros args Hlen.
    destruct args as [|a0 [|a1 l]]; simpl in Hlen; try lia; done.
  - done.
  - intros cid x Hc.
    unfold cmd_register, cmd_link, cmd_unlink, cmd_remove, cmd_clearvisits, cmd_addsum,
      cmd_setsum, try_except, bind, lookup_or, get, ret. simpl.
    rewrite Hc. rewrite !decide_True by done. repeat split; try done.
    all: rewrite H; simpl; by rewrite decide_True.
  - intros cid x Hx.
    unfold cmd_addsum, cmd_setsum, try_except, bind, lookup_or, get, ret, raise. simpl.
    by rewrite Hx.
Qed.

(** ** Deleting visits *)

(** Rendering the visit list leaves the state alone, whether or not it
    raises: the rendered call is replaced by its outcome. *)
Ltac kill_render :=
  repeat match goal with
         | |- context [render_visits ?E ?vs ?w] =>
             let H := fresh in
             pose proof (render_visits_pure E vs w) as H;
             destruct (render_visits E vs w) as [? [?|[]]]; simpl in H; subst; simpl
         end.

(** The ledger after a press on "admin_delete_visit:<cid>:<index>". *)
Lemma admin_delete_visit_ledger E cid s z c w :
  customers w !! cid = Some c -> colon_free cid = true -> colon_free s = true ->
  py_int E s = Some z ->
  customers (admin_select_action E ("admin_delete_visit:" +:+ cid +:+ ":" +:+ s) w).1
  = if (0 <=? z) && (z <? Z.of_nat (length (visits c)))
    then <[cid := pop_visit (Z.to_nat z) c]> (customers w)
    else customers w.
Proof.
  intros Hc Hcf Hs Hz.
  assert (startswith ("admin_delete_visit:" +:+ cid +:+ ":" +:+ s) "admin_delete_" = true)
    as Hsw by apply (startswith_app "admin_delete_" ("visit:" +:+ cid +:+ ":" +:+ s)).
  assert (split_colon ("admin_delete_visit:" +:+ cid +:+ ":" +:+ s)
          = ["admin_delete_visit"%string; cid; s])
    as Hsp by (by apply (split_colon_3 "admin_delete_visit" cid s)).
  unfold admin_select_action, select_action_delete.
  rewrite decide_False by payload_ne. rewrite Hsw, Hsp.
  unfold customer_at, store_customer, render_date, bind, lookup_or, get, ret, raise, modify.
  simpl. rewrite Hc. simpl. rewrite Hz. simpl.
  destruct ((0 <=? z) && (z <? Z.of_nat (length (visits c)))) eqn:Hb; simpl.
  - apply andb_true_iff in Hb as [H0%Z.leb_le Hlt%Z.ltb_lt].
    destruct (lookup_lt_is_Some_2 (visits c) (Z.to_nat z)) as [v Hv]; [lia|].
    rewrite Hv. simpl.
    destruct (decide (v_date v = "free")); simpl; [by kill_render|].
    destruct (strptime E (v_date v)); simpl; [by kill_render|done].
  - by kill_render.
Qed.

(** The ledger after a press on "admin_delete_all:<cid>". *)
Lemma admin_delete_all_ledger E cid c w :
  customers w !! cid = Some c -> colon_free cid = true ->
  admin_select_action E ("admin_delete_all:" +:+ cid) w
  = (set_customers (fun L => <[cid := clear_visits c]> L) w, inr (Some SELECT_ACTION)).
Proof.
  intros Hc Hcf. unfold admin_select_action, select_action_delete.
  rewrite decide_False by payload_ne.
  change ("admin_delete_all:" +:+ cid) with ("admin_delete_" +:+ ("all:" +:+ cid)) at 1.
  rewrite startswith_app.
  change ("admin_delete_all:" +:+ cid) with ("admin_delete_all" +:+ ":" +:+ cid).
  rewrite split_colon_2 by done.
  unfold customer_at, store_customer, bind, lookup_or, get, ret, modify. simpl.
  by rewrite Hc.
Qed.

Lemma visit_rows_button cid k vs i :
  (i < length vs)%nat ->
  ("admin_delete_visit:" +:+ cid +:+ ":" +:+ str (Z.of_nat (k + i)))%string
  ∈ concat (visit_rows cid k vs).
Proof.
  revert k i. induction vs as [|v vs IH]; intros k i Hi; simpl in Hi; [lia|].
  simpl. destruct i as [|i].
  - rewrite Nat.add_0_r. right. by left.
  - do 2 right. replace (k + S i)%nat with (S k + i)%nat by lia. apply IH. lia.
Qed.

Lemma visits_pop_visit i c : visits (pop_visit i c) = take i (visits c) ++ drop (S i) (visits c).
Proof. unfold pop_visit. by destruct (recalc_discount_fields (set_visits (list_pop i (visits c)) c))
         as (_ & _ & -> & _). Qed.

(** X14: the delete button shown beside the [i]-th visit removes that
    visit and no other: the visits before it and after it stay, in order,
    and the list is one shorter.  A press whose index is negative or not
    below the number of visits (a button of an outdated message) leaves
    the ledger as it was, and "delete all" empties the list. *)
Theorem delete_visit_button E cid w c :
  customers w !! cid = Some c -> colon_free cid = true ->
  (forall n : nat, py_int E (str (Z.of_nat n)) = Some (Z.of_nat n)) ->
  (forall i, (i < length (visits c))%nat ->
     ("admin_delete_visit:" +:+ cid +:+ ":" +:+ str (Z.of_nat i))%string
     ∈ buttons (kb_admin_visits_management cid (visits c)) /\
     exists c',
       customers
         (admin_select_action E ("admin_delete_visit:" +:+ cid +:+ ":" +:+ str (Z.of_nat i)) w).1
       = <[cid := c']> (customers w) /\
       visits c' = take i (visits c) ++ drop (S i) (visits c) /\
       (length (visits c') + 1 = length (visits c))%nat /\
       name c' = name c /\ ids c' = ids c /\ projects_sum c' = projects_sum c) /\
  (forall s z, colon_free s = true -> py_int E s = Some z ->
     z < 0 \/ Z.of_nat (length (visits c)) <= z ->
     customers (admin_select_action E ("admin_delete_visit:" +:+ cid +:+ ":" +:+ s) w).1
     = customers w) /\
  customers (admin_select_action E ("admin_delete_all:" +:+ cid) w).1
  = <[cid := clear_visits c]> (customers w).
Proof.
  intros Hc Hcf Hint. split; [|split].
  - intros i Hi. split.
    + unfold buttons, kb_admin_visits_management. rewrite concat_app, elem_of_app. left.
      apply (visit_rows_button cid 0 (visits c) i Hi).
    + exists (pop_visit i c).
      rewrite (admin_delete_visit_ledger E cid _ (Z.of_nat i) c w Hc Hcf (colon_free_str _)
                 (Hint i)).
      replace ((0 <=? Z.of_nat i) && (Z.of_nat i <? Z.of_nat (length (visits c)))) with true
        by (symmetry; apply andb_true_iff; split; [apply Z.leb_le|apply Z.ltb_lt]; lia).
      rewrite Nat2Z.id. split; [done|]. rewrite visits_pop_visit. split; [done|].
      split.
      * rewrite length_app, length_take, length_drop. lia.
      * unfold pop_visit.
        by destruct (recalc_discount_fields (set_visits (list_pop i (visits c)) c))
          as (-> & -> & _ & ->).
  - intros s z Hs Hz Hout.
    rewrite (admin_delete_visit_ledger E cid s z c w Hc Hcf Hs Hz).
    replace ((0 <=? z) && (z <? Z.of_nat (length (visits c)))) with false; [done|].
    symmetry. apply andb_false_iff. destruct Hout; [left; apply Z.leb_gt|right; apply Z.ltb_ge]; lia.
  - by rewrite (admin_delete_all_ledger E cid c w Hc Hcf).
Qed.

Lemma delete_visit_button_witness :
  customers (admin_select_action (lib_with_holidays ∅) ("admin_delete_all:" +:+ "1")
               (st scenario_D_start)).1
  = <["1"%string := clear_visits (new_customer "Acme")]> (customers (st scenario_D_start)).
Proof.
  refine (proj2 (proj2 (delete_visit_button (lib_with_holidays ∅) "1" (st scenario_D_start)
                          (new_customer "Acme") _ _ _))).
  - vm_compute. reflexivity.
  - reflexivity.
  - intros n. simpl. destruct (int_of_digits_str_nat n) as [-> ->]. done.
Defined.

(** ** Creating customers and loading the ledger *)

Lemma ensure_customer_run nm w cid :
  generate_customer_id w = (w, inr cid) ->
  ensure_customer nm w
  = (set_customers (fun L => <[cid := new_customer nm]> L) w, inr cid) /\
  customers w !! cid = None.
Proof.
  intros Hg. pose proof (generate_customer_id_fresh w w cid Hg) as [_ Hfresh].
  unfold ensure_customer, bind, get, store_customer, modify, ret. rewrite Hg. simpl.
  by rewrite decide_True.
Qed.



Lemma str_of_nat_inj (i j : nat) :
  (1 <= i)%nat -> (1 <= j)%nat -> str (Z.of_nat i) = str (Z.of_nat j) -> i = j.
Proof.
  intros Hi Hj H.
  assert (exists p, Z.of_nat i = Z.pos p) as [p Hp] by (exists (Pos.of_nat i); lia).
  assert (exists q, Z.of_nat j = Z.pos q) as [q Hq] by (exists (Pos.of_nat j); lia).
  rewrite Hp, Hq in H. apply str_pos_inj in H. lia.
Qed.

(** On a ledger keyed by 1 to [n] the next id is [n + 1]. *)
Lemma generate_customer_id_numbered n w :
  numbered n (customers w) ->
  generate_customer_id w = (w, inr (str (Z.of_nat (S n)))).
Proof.
  intros Hn. destruct n as [|n].
  - rewrite generate_customer_id_empty; [done|].
    apply map_eq. intros k. rewrite lookup_empty.
    destruct (customers w !! k) eqn:Hk; [|done].
    destruct (proj1 (Hn k)) as (i & Hi & _); [eauto|lia].
  - assert (is_Some (customers w !! str (Z.of_nat (S n)))) as Hk
      by (apply Hn; exists (S n); split; [lia|done]).
    destruct (int_of_digits_str_nat (S n)) as [Hd Hv].
    destruct (generate_customer_id_numeric w _ Hk Hd)
      as (m & Hg & (k' & Hk' & Hd' & Hm) & Hmax).
    rewrite Hg. do 3 f_equal.
    apply Hn in Hk' as (i & Hi & ->).
    destruct (int_of_digits_str_nat i) as [_ Hvi]. rewrite Hvi in Hm.
    specialize (Hmax _ Hk Hd). rewrite Hv in Hmax. lia.
Qed.

Lemma create_customers_snoc names nm w :
  create_customers (names ++ [nm]) w = (ensure_customer nm (create_customers names w)).1.
Proof. unfold create_customers. by rewrite foldl_app. Qed.

Lemma create_customers_invariant names :
  numbered (length names) (customers (create_customers names initial_world)) /\
  (forall i nm, names !! i = Some nm ->
     customers (create_customers names initial_world) !! str (Z.of_nat (S i))
     = Some (new_customer nm)) /\
  size (customers (create_customers names initial_world)) = length names.
Proof.
  induction names as [|nm names (Hn & Hat & Hsize)] using rev_ind.
  - split; [|split; [done|done]]. intros k. simpl. rewrite lookup_empty. split.
    + by intros [? ?].
    + intros (i & Hi & _). lia.
  - rewrite create_customers_snoc.
    set (w := create_customers names initial_world) in *.
    pose proof (generate_customer_id_numbered _ w Hn) as Hg.
    destruct (ensure_customer_run nm w _ Hg) as [Hrun Hfresh]. rewrite Hrun. simpl.
    rewrite length_app. simpl. split; [|split].
    + intros k. destruct (decide (str (Z.of_nat (S (length names))) = k)) as [<-|Hne].
      * rewrite lookup_insert_eq. split; [|eauto]. intros _.
        exists (S (length names)). split; [lia|done].
      * rewrite lookup_insert_ne by done. rewrite (Hn k). split.
        -- intros (i & Hi & ->). exists i. split; [lia|done].
        -- intros (i & Hi & ->). exists i. split; [|done].
           destruct (decide (i = S (length names))) as [->|]; [done|lia].
    + intros i nm' Hi.
      apply lookup_app_Some in Hi as [Hi|[Hlen Hi]].
      * rewrite lookup_insert_ne; [by apply Hat|].
        apply lookup_lt_Some in Hi. intros Heq%str_of_nat_inj; lia.
      * apply list_lookup_singleton_Some in Hi as [Hi <-].
        replace i with (length names) by lia. apply lookup_insert_eq.
    + rewrite map_size_insert_None by done. lia.
Qed.

(** X16: customers created one after the other, starting from the empty
    ledger, are numbered "1", "2", "3", ... in the order of their
    creation, each with a fresh, empty record. *)
Theorem customers_are_numbered_in_order names :
  (forall i nm, names !! i = Some nm ->
     customers (create_customers names initial_world) !! str (Z.of_nat (S i))
     = Some (new_customer nm)) /\
  size (customers (create_customers names initial_world)) = length names /\
  (forall k, is_Some (customers (create_customers names initial_world) !! k)
             <-> exists i, (1 <= i <= length names)%nat /\ k = str (Z.of_nat i)).
Proof.
  destruct (create_customers_invariant names) as (Hn & Hat & Hsize).
  split; [exact Hat|]. split; [exact Hsize|exact Hn].
Qed.

(** *** Loading *)

Lemma cleanup_data_lookup L cid c :
  cleanup_data L !! cid = Some c
  <-> L !! cid = Some c /\ ~ (ids c = [] /\ isdigit cid = true).
Proof. unfold cleanup_data. by rewrite map_lookup_filter_Some. Qed.



(** X18: a customer that was created and to which no actor was linked
    does not survive a restart: the record [ensure_customer] has just
    stored is deleted by the next load of the saved ledger, and so is the
    same record after visits were added to it. *)
Theorem created_customer_is_lost_on_reload nm w cid w' :
  (ensure_customer nm w).2 = inr cid ->
  customers (ensure_customer nm w).1 !! cid = Some (new_customer nm) /\
  customers (load_data (Some (customers (ensure_customer nm w).1)) w') !! cid = None /\
  (forall vs,
     customers (load_data
                  (Some (<[cid := set_visits vs (new_customer nm)]>
                           (customers (ensure_customer nm w).1))) w') !! cid = None).
Proof.
  intros Hr.
  assert (generate_customer_id w = (w, inr cid)) as Hg.
  { pose proof (generate_customer_id_world w) as Hw.
    unfold ensure_customer, bind in Hr.
    destruct (generate_customer_id w) as [w1 [e|cid1]] eqn:Hg; simpl in *; [done|]. subst w1.
    unfold get, store_customer, modify, ret in Hr.
    destruct (decide (customers w !! cid1 = None)); simpl in Hr; congruence. }
  assert (isdigit cid = true) as Hd.
  { unfold generate_customer_id, bind, get, ret, lookup_or in Hg. simpl in Hg.
    destruct (decide (customers w = ∅)); [by simplify_eq|].
    destruct (py_max _) as [m|] eqn:Hm; simpl in Hg; [|done]. simplify_eq.
    apply py_max_spec in Hm as [Hin _].
    apply elem_of_numeric_ids in Hin as (k & _ & _ & Hk).
    pose proof (int_of_digits_nonneg k) as Hnn.
    assert (exists p, m + 1 = Z.pos p) as [p ->] by (exists (Z.to_pos (m + 1)); lia).
    apply isdigit_str_pos. }
  destruct (ensure_customer_run nm w cid Hg) as [Hrun Hfresh]. rewrite Hrun. simpl.
  split; [apply lookup_insert_eq|]. split.
  - apply eq_None_not_Some. intros [c Hc]. apply cleanup_data_lookup in Hc as [Hc Hkeep].
    rewrite lookup_insert_eq in Hc. simplify_eq. by apply Hkeep.
  - intros vs. apply eq_None_not_Some. intros [c Hc].
    apply cleanup_data_lookup in Hc as [Hc Hkeep].
    rewrite lookup_insert_eq in Hc. simplify_eq. by apply Hkeep.
Qed.

Lemma created_customer_is_lost_on_reload_witness :
  customers
    (load_data (Some (customers (ensure_customer "Cobalt" two_customers).1)) initial_world)
  !! "3"%string = None.
Proof.
  refine (proj1 (proj2 (created_customer_is_lost_on_reload "Cobalt" two_customers "3"
                          initial_world _))).
  vm_compute. reflexivity.
Defined.

(** ** Tracked messages *)

Lemma py_last_slice_pos {A} m (l : list A) :
  1 <= m -> py_last_slice m l = drop (length l - Z.to_nat m) l.
Proof. intros Hm. unfold py_last_slice. by rewrite decide_True by lia. Qed.

Lemma py_last_slice_length {A} m (l : list A) :
  1 <= m -> Z.of_nat (length (py_last_slice m l)) <= m.
Proof. intros Hm. rewrite py_last_slice_pos, length_drop by done. lia. Qed.

Lemma py_last_slice_short {A} m (l : list A) :
  1 <= m -> Z.of_nat (length l) <= m -> py_last_slice m l = l.
Proof.
  intros Hm Hl. rewrite py_last_slice_pos by done.
  replace (length l - Z.to_nat m)%nat with 0%nat by lia. done.
Qed.

(** Trimming after every append keeps the last [max_tracked] items of
    everything appended. *)
Lemma append_tracked_slice max_tracked l x :
  1 <= max_tracked ->
  append_tracked x max_tracked (py_last_slice max_tracked l)
  = py_last_slice max_tracked (l ++ [x]).
Proof.
  intros Hm. unfold append_tracked. rewrite !py_last_slice_pos by done.
  rewrite !length_app, length_drop. simpl.
  destruct (decide (length l < Z.to_nat max_tracked)%nat) as [Hlt|Hge].
  - replace (length l - Z.to_nat max_tracked)%nat with 0%nat by lia. simpl.
    rewrite decide_False by lia.
    replace (length l + 1 - Z.to_nat max_tracked)%nat with 0%nat by lia. done.
  - rewrite decide_True by lia.
    rewrite !drop_app_le by (rewrite ?length_drop; lia).
    rewrite drop_drop. do 2 f_equal. lia.
Qed.

Lemma tracked_since_delete_snoc ops op :
  tracked_since_delete (ops ++ [op])
  = match op with
    | Track message_id => tracked_since_delete ops ++ [message_id]
    | _ => []
    end.
Proof. unfold tracked_since_delete. by rewrite foldl_snoc. Qed.

Lemma tracking_invariant max_tracked ops :
  1 <= max_tracked ->
  default [] (foldl (tracking_step max_tracked) None ops)
  = py_last_slice max_tracked (tracked_since_delete ops).
Proof.
  intros Hm. induction ops as [|op ops IH] using rev_ind.
  - by rewrite py_last_slice_short by (simpl; lia).
  - rewrite foldl_snoc, tracked_since_delete_snoc. destruct op as [x| |mid]; simpl.
    + rewrite IH. by apply append_tracked_slice.
    + rewrite py_last_slice_short by (simpl; lia).
      by destruct (foldl (tracking_step max_tracked) None ops).
    + by rewrite py_last_slice_short by (simpl; lia).
Qed.

(** X19: the tracked list of an actor holds the ids handed to the tracker
    since the list was last emptied, in order, cut down to the last
    [max_tracked] of them: it never grows beyond [max_tracked], it is the
    whole history while that is short enough, the next deletion asks the
    bot to delete exactly these messages (the clean-up of the menu: all of
    them but the message that was pressed), and the deletion after it asks
    for nothing. *)
Theorem tracking_keeps_latest max_tracked ops :
  1 <= max_tracked ->
  default [] (foldl (tracking_step max_tracked) None ops)
  = py_last_slice max_tracked (tracked_since_delete ops) /\
  Z.of_nat (length (default [] (foldl (tracking_step max_tracked) None ops))) <= max_tracked /\
  (Z.of_nat (length (tracked_since_delete ops)) <= max_tracked ->
   default [] (foldl (tracking_step max_tracked) None ops) = tracked_since_delete ops) /\
  (delete_calculation_messages (foldl (tracking_step max_tracked) None ops)).1
  = drop (length (tracked_since_delete ops) - Z.to_nat max_tracked) (tracked_since_delete ops) /\
  (forall current_mid,
     (menu_clear_tracked current_mid (foldl (tracking_step max_tracked) None ops)).1
     = filter (fun mid => mid <> current_mid)
         (drop (length (tracked_since_delete ops) - Z.to_nat max_tracked)
               (tracked_since_delete ops))) /\
  (delete_calculation_messages
     (delete_calculation_messages (foldl (tracking_step max_tracked) None ops)).2).1 = [].
Proof.
  intros Hm. pose proof (tracking_invariant max_tracked ops Hm) as Hinv.
  split; [done|]. split; [|split; [|split; [|split]]].
  - rewrite Hinv. by apply py_last_slice_length.
  - intros Hshort. rewrite Hinv. by apply py_last_slice_short.
  - rewrite <- py_last_slice_pos, <- Hinv by done.
    by destruct (foldl (tracking_step max_tracked) None ops).
  - intros current_mid. unfold menu_clear_tracked. simpl.
    by rewrite <- py_last_slice_pos, <- Hinv by done.
  - by destruct (foldl (tracking_step max_tracked) None ops).
Qed.

Lemma tracking_keeps_latest_witness :
  default [] (foldl (tracking_step 10) None
                [Track 100; MenuClear 100; Track 101; Track 102; Track 103; Track 104;
                 Track 105; Track 106; Track 107; Track 108; Track 109; Track 110; Track 111])
  = [102; 103; 104; 105; 106; 107; 108; 109; 110; 111].
Proof.
  refine (proj1 (tracking_keeps_latest 10
            [Track 100; MenuClear 100; Track 101; Track 102; Track 103; Track 104;
             Track 105; Track 106; Track 107; Track 108; Track 109; Track 110; Track 111] _)).
  lia.
Defined.

Lemma welcomes_since_delete_snoc uid ops op :
  welcomes_since_delete uid (ops ++ [op])
  = match op with
    | Welcome user_id message_id =>
        if decide (user_id = uid) then welcomes_since_delete uid ops ++ [message_id]
        else welcomes_since_delete uid ops
    | Registered user_id =>
        if decide (user_id = uid) then [] else welcomes_since_delete uid ops
    end.
Proof. unfold welcomes_since_delete. by rewrite foldl_snoc. Qed.

Lemma welcome_invariant max_tracked ops uid :
  1 <= max_tracked ->
  default [] (foldl (welcome_step max_tracked) ∅ ops !! uid)
  = py_last_slice max_tracked (welcomes_since_delete uid ops).
Proof.
  intros Hm. induction ops as [|op ops IH] using rev_ind.
  - simpl. rewrite lookup_empty. by rewrite py_last_slice_short by (simpl; lia).
  - rewrite foldl_snoc, welcomes_since_delete_snoc.
    destruct op as [u x|u]; simpl;
      unfold add_pending_welcome_message, delete_pending_welcome_messages; simpl.
    + destruct (decide (u = uid)) as [->|Hne].
      * rewrite lookup_insert_eq. simpl. rewrite IH. by apply append_tracked_slice.
      * by rewrite lookup_insert_ne.
    + destruct (decide (u = uid)) as [->|Hne].
      * rewrite lookup_delete_eq. simpl. by rewrite py_last_slice_short by (simpl; lia).
      * by rewrite lookup_delete_ne.
Qed.

Lemma append_tracked_nonempty x max_tracked l :
  1 <= max_tracked -> append_tracked x max_tracked l <> [].
Proof.
  intros Hm. unfold append_tracked. case_decide as Hlen.
  - rewrite py_last_slice_pos by done. intros Hnil%(f_equal length).
    rewrite length_drop, length_app in *. simpl in *. lia.
  - by destruct l.
Qed.

Lemma welcome_lists_nonempty max_tracked ops uid l :
  1 <= max_tracked -> foldl (welcome_step max_tracked) ∅ ops !! uid = Some l -> l <> [].
Proof.
  intros Hm. revert l. induction ops as [|op ops IH] using rev_ind; intros l.
  - simpl. by rewrite lookup_empty.
  - rewrite foldl_snoc. destruct op as [u x|u]; simpl;
      unfold add_pending_welcome_message, delete_pending_welcome_messages; simpl.
    + destruct (decide (u = uid)) as [->|Hne].
      * rewrite lookup_insert_eq. intros [= <-]. by apply append_tracked_nonempty.
      * rewrite lookup_insert_ne by done. apply IH.
    + destruct (decide (u = uid)) as [->|Hne].
      * by rewrite lookup_delete_eq.
      * rewrite lookup_delete_ne by done. apply IH.
Qed.

(** X20: the store of pending welcome messages keeps, for every actor, the
    welcome messages sent to that actor since its list was last deleted,
    cut down to the last [max_tracked]; a stored list is never empty and
    never longer than [max_tracked].  Deleting the list of one actor asks
    the bot to delete exactly these messages, removes the actor's key and
    leaves the lists of all other actors as they were. *)
Theorem pending_welcome_per_actor max_tracked ops uid :
  1 <= max_tracked ->
  default [] (foldl (welcome_step max_tracked) ∅ ops !! uid)
  = drop (length (welcomes_since_delete uid ops) - Z.to_nat max_tracked)
         (welcomes_since_delete uid ops) /\
  (forall l, foldl (welcome_step max_tracked) ∅ ops !! uid = Some l ->
             l <> [] /\ Z.of_nat (length l) <= max_tracked) /\
  (delete_pending_welcome_messages uid (foldl (welcome_step max_tracked) ∅ ops)).1
  = drop (length (welcomes_since_delete uid ops) - Z.to_nat max_tracked)
         (welcomes_since_delete uid ops) /\
  (delete_pending_welcome_messages uid (foldl (welcome_step max_tracked) ∅ ops)).2 !! uid = None /\
  (forall u, u <> uid ->
     (delete_pending_welcome_messages uid (foldl (welcome_step max_tracked) ∅ ops)).2 !! u
     = foldl (welcome_step max_tracked) ∅ ops !! u).
Proof.
  intros Hm. pose proof (welcome_invariant max_tracked ops uid Hm) as Hinv.
  rewrite py_last_slice_pos in Hinv by done.
  split; [done|]. split; [|split; [done|split]].
  - intros l Hl. split; [by eapply welcome_lists_nonempty|].
    rewrite Hl in Hinv. simpl in Hinv. rewrite Hinv, length_drop. lia.
  - apply lookup_delete_eq.
  - intros u Hu. by apply lookup_delete_ne.
Qed.

Lemma pending_welcome_per_actor_witness :
  default [] (foldl (welcome_step 10) ∅
                [Welcome 7 100; Welcome 8 200; Registered 7; Welcome 7 101; Welcome 7 102]
              !! 7%positive)
  = [101; 102].
Proof.
  refine (proj1 (pending_welcome_per_actor 10
            [Welcome 7 100; Welcome 8 200; Registered 7; Welcome 7 101; Welcome 7 102]
            7%positive _)).
  lia.
Defined.

(** ** The operator's panels *)

(** A press on "admin_unlink_specific:<cid>:<uid>". *)
Lemma admin_unlink_specific_run E cid uid c w :
  customers w !! cid = Some c -> colon_free cid = true -> colon_free uid = true ->
  admin_select_action E ("admin_unlink_specific:" +:+ cid +:+ ":" +:+ uid) w
  = (if decide (uid ∈ ids c)
     then set_customers (fun L => <[cid := set_ids (list_remove uid) c]> L) w
     else w,
     inr (Some SELECT_ACTION)).
Proof.
  intros Hc Hcid Huid.
  set (data := ("admin_unlink_specific:" +:+ cid +:+ ":" +:+ uid)%string).
  assert (data <> "admin_cancel"%string) as Hnc by (unfold data; payload_ne).
  assert (startswith data "admin_delete_" = false) as Hdel
    by apply (startswith_app_both "admin_" ("unlink_specific:" +:+ cid +:+ ":" +:+ uid)
                "delete_").
  assert (startswith data "admin_unlink_specific:" = true) as Hun
    by apply (startswith_app "admin_unlink_specific:" (cid +:+ ":" +:+ uid)).
  assert (split_colon data = ["admin_unlink_specific"%string; cid; uid]) as Hsp
    by (by apply (split_colon_3 "admin_unlink_specific" cid uid)).
  clearbody data.
  unfold admin_select_action, select_action_delete.
  rewrite decide_False by done. rewrite Hdel, Hun, Hsp.
  unfold customer_at, store_customer, bind, lookup_or, get, ret, modify. simpl.
  rewrite Hc. simpl. by destruct (decide (uid ∈ ids c)).
Qed.

(** A press on "admin_add_amount:<cid>:<amount>". *)
Lemma admin_add_amount_run E cid s a c w :
  customers w !! cid = Some c -> colon_free cid = true -> colon_free s = true ->
  py_int E s = Some a ->
  admin_select_action E ("admin_add_amount:" +:+ cid +:+ ":" +:+ s) w
  = (set_customers (fun L => <[cid := add_to_sum a c]> L) w, inr (Some SELECT_ACTION)).
Proof.
  intros Hc Hcid Hs Ha.
  set (data := ("admin_add_amount:" +:+ cid +:+ ":" +:+ s)%string).
  assert (data <> "admin_cancel"%string) as Hnc by (unfold data; payload_ne).
  assert (startswith data "admin_delete_" = false) as Hdel
    by apply (startswith_app_both "admin_" ("add_amount:" +:+ cid +:+ ":" +:+ s) "delete_").
  assert (startswith data "admin_unlink_specific:" = false) as Hun
    by apply (startswith_app_both "admin_" ("add_amount:" +:+ cid +:+ ":" +:+ s)
                "unlink_specific:").
  assert (startswith data "admin_add_amount:" = true) as Hadd
    by apply (startswith_app "admin_add_amount:" (cid +:+ ":" +:+ s)).
  assert (split_colon data = ["admin_add_amount"%string; cid; s]) as Hsp
    by (by apply (split_colon_3 "admin_add_amount" cid s)).
  clearbody data.
  unfold admin_select_action, select_action_delete.
  rewrite decide_False by done. rewrite Hdel, Hun, Hadd, Hsp.
  unfold update_customer, customer_at, store_customer, bind, lookup_or, get, ret, modify. simpl.
  rewrite Ha. simpl. by rewrite Hc.
Qed.

(** A press on "admin_reset_sum:<cid>". *)
Lemma admin_reset_sum_run E cid c w :
  customers w !! cid = Some c -> colon_free cid = true ->
  admin_select_action E ("admin_reset_sum:" +:+ cid) w
  = (set_customers (fun L => <[cid := reset_sum c]> L) w, inr (Some SELECT_ACTION)).
Proof.
  intros Hc Hcid.
  set (data := ("admin_reset_sum:" +:+ cid)%string).
  assert (data <> "admin_cancel"%string) as Hnc by (unfold data; payload_ne).
  assert (startswith data "admin_delete_" = false) as Hdel
    by apply (startswith_app_both "admin_" ("reset_sum:" +:+ cid) "delete_").
  assert (startswith data "admin_unlink_specific:" = false) as Hun
    by apply (startswith_app_both "admin_" ("reset_sum:" +:+ cid) "unlink_specific:").
  assert (startswith data "admin_add_amount:" = false) as Hadd
    by apply (startswith_app_both "admin_" ("reset_sum:" +:+ cid) "add_amount:").
  assert (startswith data "admin_reset_sum:" = true) as Hres
    by apply (startswith_app "admin_reset_sum:" cid).
  assert (split_colon data = ["admin_reset_sum"%string; cid]) as Hsp
    by (by apply (split_colon_2 "admin_reset_sum" cid)).
  clearbody data.
  unfold admin_select_action, select_action_delete.
  rewrite decide_False by done. rewrite Hdel, Hun, Hadd, Hres, Hsp.
  unfold update_customer, customer_at, store_customer, bind, lookup_or, get, ret, modify. simpl.
  by rewrite Hc.
Qed.

(** A press on "admin_set_exact:<cid>" while the panel of [cid] is open. *)
Lemma admin_set_exact_run E cid c d w :
  customers w !! cid = Some c -> colon_free cid = true -> cid <> ""%string ->
  admin_visit w = Some d -> d_cid d = Some cid ->
  admin_select_action E ("admin_set_exact:" +:+ cid) w
  = (set_set_sum_cid (Some cid)
       (set_admin_visit (Some (set_d_customer_name (name c) (set_d_cid cid d))) w),
     inr (Some SET_SUM)).
Proof.
  intros Hc Hcid Hne Hd Hdc.
  set (data := ("admin_set_exact:" +:+ cid)%string).
  assert (data <> "admin_cancel"%string) as Hnc by (unfold data; payload_ne).
  assert (startswith data "admin_delete_" = false) as Hdel
    by apply (startswith_app_both "admin_" ("set_exact:" +:+ cid) "delete_").
  assert (startswith data "admin_unlink_specific:" = false) as Hun
    by apply (startswith_app_both "admin_" ("set_exact:" +:+ cid) "unlink_specific:").
  assert (startswith data "admin_add_amount:" = false) as Hadd
    by apply (startswith_app_both "admin_" ("set_exact:" +:+ cid) "add_amount:").
  assert (startswith data "admin_reset_sum:" = false) as Hres
    by apply (startswith_app_both "admin_" ("set_exact:" +:+ cid) "reset_sum:").
  assert (startswith data "admin_link_user:" = false) as Hlink
    by apply (startswith_app_both "admin_" ("set_exact:" +:+ cid) "link_user:").
  assert (startswith data "admin_set_exact:" = true) as Hex
    by apply (startswith_app "admin_set_exact:" cid).
  assert (split_colon data = ["admin_set_exact"%string; cid]) as Hsp
    by (by apply (split_colon_2 "admin_set_exact" cid)).
  clearbody data.
  unfold admin_select_action, select_action_delete, select_action_menu.
  rewrite decide_False by done. rewrite Hdel, Hun, Hadd, Hres, Hlink, Hex, Hsp.
  unfold customer_at, draft_update, bind, lookup_or, get, ret, modify. simpl.
  rewrite Hd. simpl. rewrite Hdc. simpl. rewrite decide_False by done. simpl.
  rewrite Hd. simpl. by rewrite Hc.
Qed.

(** The amount typed after "set exact". *)
Lemma admin_set_sum_handler_run E text a cid c w :
  py_int E (strip E text) = Some a -> set_sum_cid w = Some cid -> cid <> ""%string ->
  customers w !! cid = Some c ->
  admin_set_sum_handler E text w
  = (set_customers (fun L => <[cid := set_sum a c]> L) w, inr (Some SELECT_ACTION)).
Proof.
  intros Ha Hs Hne Hc.
  unfold admin_set_sum_handler, try_except, update_customer, customer_at, store_customer,
    bind, lookup_or, get, ret, modify. simpl.
  rewrite Ha. simpl. rewrite Hs. rewrite decide_False by done.
  rewrite decide_False by congruence. simpl. by rewrite Hc.
Qed.

Lemma admin_set_sum_handler_nan E text w :
  py_int E (strip E text) = None ->
  admin_set_sum_handler E text w = (w, inr (Some SET_SUM)).
Proof.
  intros Ha. unfold admin_set_sum_handler, try_except, bind, lookup_or, get, ret, raise.
  simpl. by rewrite Ha.
Qed.

Lemma kb_admin_user_management_button L cid c uid :
  L !! cid = Some c -> uid ∈ ids c ->
  exists kb, kb_admin_user_management L cid = Some kb /\
             ("admin_unlink_specific:" +:+ cid +:+ ":" +:+ uid)%string ∈ buttons kb.
Proof.
  intros Hc Hin. unfold kb_admin_user_management. rewrite Hc. simpl.
  eexists. split; [done|]. unfold buttons. rewrite concat_app, elem_of_app. left.
  apply list_elem_of_In, in_concat.
  exists [("admin_user_info:" +:+ cid +:+ ":" +:+ uid)%string;
          ("admin_unlink_specific:" +:+ cid +:+ ":" +:+ uid)%string].
  split; [|right; by left]. apply list_elem_of_In, list_elem_of_fmap. by exists uid.
Qed.

(** X21: the users panel and its handler agree.  The "unlink" button shown
    beside an actor of a customer removes that actor from that customer and
    keeps every other actor of the list, in a ledger whose lists have no
    repetition; the other records, and the name, visits, project sum and
    flag of this one, stay.  Pressing the same button again, or a button
    for an actor the customer does not list, changes nothing.  The
    conversation stays in the actions panel. *)
Theorem users_panel_unlinks E cid w c :
  customers w !! cid = Some c -> colon_free cid = true -> NoDup (ids c) ->
  (forall uid, uid ∈ ids c -> colon_free uid = true ->
     (exists kb, kb_admin_user_management (customers w) cid = Some kb /\
                 ("admin_unlink_specific:" +:+ cid +:+ ":" +:+ uid)%string ∈ buttons kb) /\
     admin_select_action E ("admin_unlink_specific:" +:+ cid +:+ ":" +:+ uid) w
     = (set_customers (fun L => <[cid := set_ids (list_remove uid) c]> L) w,
        inr (Some SELECT_ACTION)) /\
     (uid ∉ list_remove uid (ids c)) /\
     (forall u, u <> uid -> (u ∈ list_remove uid (ids c) <-> u ∈ ids c)) /\
     admin_select_action E ("admin_unlink_specific:" +:+ cid +:+ ":" +:+ uid)
       (admin_select_action E ("admin_unlink_specific:" +:+ cid +:+ ":" +:+ uid) w).1
     = ((admin_select_action E ("admin_unlink_specific:" +:+ cid +:+ ":" +:+ uid) w).1,
        inr (Some SELECT_ACTION))) /\
  (forall uid, uid ∉ ids c -> colon_free uid = true ->
     admin_select_action E ("admin_unlink_specific:" +:+ cid +:+ ":" +:+ uid) w
     = (w, inr (Some SELECT_ACTION))).
Proof.
  intros Hc Hcid Hnd. split.
  - intros uid Hin Huid.
    split; [by eapply kb_admin_user_management_button|].
    rewrite (admin_unlink_specific_run E cid uid c w Hc Hcid Huid).
    rewrite decide_True by done. split; [done|].
    split; [by apply not_elem_of_list_remove|]. split.
    + intros u Hu. split; [apply elem_of_list_remove_1|by apply elem_of_list_remove_ne].
    + simpl.
      erewrite admin_unlink_specific_run; [|simpl; apply lookup_insert_eq|done|done].
      simpl. rewrite decide_False; [done|]. by apply not_elem_of_list_remove.
  - intros uid Hnin Huid.
    rewrite (admin_unlink_specific_run E cid uid c w Hc Hcid Huid).
    by rewrite decide_False.
Qed.

Lemma users_panel_unlinks_witness :
  admin_select_action (lib_with_holidays ∅) ("admin_unlink_specific:" +:+ "1" +:+ ":" +:+ "9")
    two_customers
  = (two_customers, inr (Some SELECT_ACTION)).
Proof.
  refine (proj2 (users_panel_unlinks (lib_with_holidays ∅) "1" two_customers
                   (set_ids (fun _ => ["7"%string]) (new_customer "Acme")) _ _ _) "9" _ _).
  - vm_compute. reflexivity.
  - reflexivity.
  - simpl. apply NoDup_singleton.
  - simpl. intros [?|H]%elem_of_cons; [done|by apply elem_of_nil in H].
  - reflexivity.
Defined.

(** X22: the projects panel and its handlers agree.  Each of the three
    amount buttons adds its amount to the customer's project sum, two
    presses add up, "reset" sets the sum to zero, and each time the flag
    is recomputed from the visits and the new sum; "set exact" asks for a
    number and the typed number replaces the sum, while a text that is not
    a number leaves the ledger alone and asks again. *)
Theorem projects_panel_sums E cid w c d :
  customers w !! cid = Some c -> colon_free cid = true -> cid <> ""%string ->
  admin_visit w = Some d -> d_cid d = Some cid ->
  (forall n, 0 <= n -> py_int E (str n) = Some n) ->
  (exists kb,
      kb_admin_projects_management (customers w) cid = Some kb /\
      (forall a, a ∈ [10000; 25000; 50000] ->
         ("admin_add_amount:" +:+ cid +:+ ":" +:+ str a)%string ∈ buttons kb) /\
      ("admin_reset_sum:" +:+ cid)%string ∈ buttons kb /\
      ("admin_set_exact:" +:+ cid)%string ∈ buttons kb) /\
  (forall a, 0 <= a ->
     admin_select_action E ("admin_add_amount:" +:+ cid +:+ ":" +:+ str a) w
     = (set_customers (fun L => <[cid := add_to_sum a c]> L) w, inr (Some SELECT_ACTION)) /\
     projects_sum (add_to_sum a c) = projects_sum c + a /\
     (discount (add_to_sum a c) = true
      <-> (4 <= length (visits c))%nat \/ 60000 <= projects_sum c + a)) /\
  (forall a b, 0 <= a -> 0 <= b ->
     customers
       (admin_select_action E ("admin_add_amount:" +:+ cid +:+ ":" +:+ str b)
          (admin_select_action E ("admin_add_amount:" +:+ cid +:+ ":" +:+ str a) w).1).1
     = <[cid := add_to_sum (a + b) c]> (customers w)) /\
  (admin_select_action E ("admin_reset_sum:" +:+ cid) w
   = (set_customers (fun L => <[cid := reset_sum c]> L) w, inr (Some SELECT_ACTION)) /\
   projects_sum (reset_sum c) = 0 /\
   (discount (reset_sum c) = true <-> (4 <= length (visits c))%nat)) /\
  (admin_select_action E ("admin_set_exact:" +:+ cid) w).2 = inr (Some SET_SUM) /\
  customers (admin_select_action E ("admin_set_exact:" +:+ cid) w).1 = customers w /\
  (forall text a, py_int E (strip E text) = Some a ->
     (admin_set_sum_handler E text (admin_select_action E ("admin_set_exact:" +:+ cid) w).1).2
     = inr (Some SELECT_ACTION) /\
     customers
       (admin_set_sum_handler E text (admin_select_action E ("admin_set_exact:" +:+ cid) w).1).1
     = <[cid := set_sum a c]> (customers w)) /\
  (forall text, py_int E (strip E text) = None ->
     admin_set_sum_handler E text (admin_select_action E ("admin_set_exact:" +:+ cid) w).1
     = ((admin_select_action E ("admin_set_exact:" +:+ cid) w).1, inr (Some SET_SUM))).
Proof.
  intros Hc Hcid Hne Hd Hdc Hint.
  assert (forall a, 0 <= a ->
             admin_select_action E ("admin_add_amount:" +:+ cid +:+ ":" +:+ str a) w
             = (set_customers (fun L => <[cid := add_to_sum a c]> L) w,
                inr (Some SELECT_ACTION))) as Hadd.
  { intros a Ha. apply admin_add_amount_run; [done|done|apply colon_free_str|by apply Hint]. }
  rewrite (admin_set_exact_run E cid c d w Hc Hcid Hne Hd Hdc).
  split; [|split; [|split; [|split; [|split; [done|split; [done|split]]]]]].
  - unfold kb_admin_projects_management. rewrite Hc. simpl. eexists. split; [done|].
    unfold buttons. simpl. split; [|split].
    + intros a Ha.
      repeat (apply elem_of_cons in Ha as [->|Ha]; [solve [repeat first [by left|right]]|]).
      by apply elem_of_nil in Ha.
    + do 4 right. by left.
    + do 3 right. by left.
  - intros a Ha. split; [by apply Hadd|].
    pose proof (recalc_discount_fields
                  (set_projects_sum (projects_sum c + a) c)) as (_ & _ & Hv & Hp).
    unfold add_to_sum. split; [by rewrite Hp|].
    rewrite discount_recalc. simpl. done.
  - intros a b Ha Hb. rewrite (Hadd a Ha). simpl.
    erewrite admin_add_amount_run;
      [|simpl; apply lookup_insert_eq|done|apply colon_free_str|by apply Hint].
    simpl. by rewrite insert_insert_eq, add_to_sum_add.
  - split; [by apply admin_reset_sum_run|].
    pose proof (recalc_discount_fields (set_projects_sum 0 c)) as (_ & _ & Hv & Hp).
    unfold reset_sum. split; [by rewrite Hp|].
    rewrite discount_recalc. simpl. split; [intros [?|?]; [done|lia]|by left].
  - intros text a Ha. simpl.
    erewrite admin_set_sum_handler_run; [|done|done|done|done]. done.
  - intros text Ha. simpl. by apply admin_set_sum_handler_nan.
Qed.

Lemma projects_panel_sums_witness :
  customers
    (admin_select_action (lib_with_holidays ∅)
       ("admin_add_amount:" +:+ "1" +:+ ":" +:+ str 10000)
       (admin_select_action (lib_with_holidays ∅)
          ("admin_add_amount:" +:+ "1" +:+ ":" +:+ str 50000)
          (set_admin_visit (Some (set_d_cid "1" empty_draft)) two_customers)).1).1
  = <["1"%string := add_to_sum (50000 + 10000)
                      (set_ids (fun _ => ["7"%string]) (new_customer "Acme"))]>
      (customers two_customers).
Proof.
  pose proof (projects_panel_sums (lib_with_holidays ∅) "1"
                (set_admin_visit (Some (set_d_cid "1" empty_draft)) two_customers)
                (set_ids (fun _ => ["7"%string]) (new_customer "Acme"))
                (set_d_cid "1" empty_draft)) as H.
  destruct H as (_ & _ & H & _).
  - vm_compute. reflexivity.
  - reflexivity.
  - discriminate.
  - reflexivity.
  - reflexivity.
  - intros n Hn. simpl. destruct (int_of_digits_str_nat (Z.to_nat n)) as [H1 H2].
    rewrite Z2Nat.id in H1, H2 by done. by rewrite H1, H2.
  - apply (H 50000 10000); lia.
Defined.

(** ** Bringing an actor in, and finding it again *)

(** The button under the "new user" notice opens the panel and remembers
    the actor. *)
Lemma admin_open_panel_link uid w :
  admin_open_panel true ("admin_panel_link:" +:+ uid) w
  = (set_admin_visit None (set_pending_link_user_id (Some uid) w), inr (Some SELECT_CUSTOMER)).
Proof.
  unfold admin_open_panel, cmd_admin. simpl negb. cbv iota.
  rewrite startswith_app.
  change ("admin_panel_link:" +:+ uid)%string with ("admin_panel_link" +:+ String ":" uid)%string.
  rewrite after_colon_app by done.
  by unfold bind, lookup_or, ret, modify.
Qed.

(** A customer button of the quick-link keyboard. *)
Lemma admin_quick_link_run E cid uid c w :
  customers w !! cid = Some c -> colon_free cid = true -> colon_free uid = true ->
  admin_quick_link E ("admin_quick_link:" +:+ cid +:+ ":" +:+ uid) w = link_user E cid uid w.
Proof.
  intros Hc Hcid Huid. unfold admin_quick_link.
  change ("admin_quick_link:" +:+ cid +:+ ":" +:+ uid)%string
    with ("admin_quick_link" +:+ ":" +:+ cid +:+ ":" +:+ uid)%string.
  rewrite split_colon_3 by done. unfold bind, lookup_or, get, ret. simpl.
  by rewrite decide_False by congruence.
Qed.

Lemma kb_admin_quick_customers_button L cid uid :
  is_Some (L !! cid) ->
  ("admin_quick_link:" +:+ cid +:+ ":" +:+ uid)%string ∈ buttons (kb_admin_quick_customers L uid).
Proof.
  intros Hc. unfold buttons, kb_admin_quick_customers. rewrite concat_app, elem_of_app. left.
  apply list_elem_of_In, in_concat.
  exists [("admin_quick_link:" +:+ cid +:+ ":" +:+ uid)%string].
  split; [|by left]. apply list_elem_of_In, list_elem_of_fmap. exists cid.
  split; [done|]. by apply elem_of_customer_keys.
Qed.

(** X23: bringing a new actor in.  The button under the "new user" notice
    opens the panel with the quick-link keyboard for that actor, which has
    one button per customer; in a ledger whose actor lists have no
    repetition, pressing the button of a customer links the actor to that
    customer: the actor is then found under it, with the name, visits,
    project sum and flag the customer had.  The ledger is written before
    the actor is notified, so this holds also when [int(user_id)] raises. *)
Theorem quick_link_panel E u w :
  ledger_wf (customers w) ->
  admin_open_panel true ("admin_panel_link:" +:+ str (Z.pos u)) w
  = (set_admin_visit None (set_pending_link_user_id (Some (str (Z.pos u))) w),
     inr (Some SELECT_CUSTOMER)) /\
  cmd_admin_markup (admin_open_panel true ("admin_panel_link:" +:+ str (Z.pos u)) w).1
  = kb_admin_quick_customers (customers w) (str (Z.pos u)) /\
  forall cid c,
    customers w !! cid = Some c -> colon_free cid = true ->
    ("admin_quick_link:" +:+ cid +:+ ":" +:+ str (Z.pos u))%string
    ∈ buttons (cmd_admin_markup
                 (admin_open_panel true ("admin_panel_link:" +:+ str (Z.pos u)) w).1) /\
    (admin_quick_link E ("admin_quick_link:" +:+ cid +:+ ":" +:+ str (Z.pos u))
       (admin_open_panel true ("admin_panel_link:" +:+ str (Z.pos u)) w).1).2
    = match py_int E (str (Z.pos u)) with
      | Some _ => inr ReplyDone
      | None => inl ValueError
      end /\
    exists c',
      find_customer_by_userid
        (customers
           (admin_quick_link E ("admin_quick_link:" +:+ cid +:+ ":" +:+ str (Z.pos u))
              (admin_open_panel true ("admin_panel_link:" +:+ str (Z.pos u)) w).1).1) u
      = Some (cid, c') /\
      name c' = name c /\ visits c' = visits c /\
      projects_sum c' = projects_sum c /\ discount c' = discount c.
Proof.
  intros Hwf. rewrite admin_open_panel_link. split; [done|].
  assert (cmd_admin_markup
            (set_admin_visit None (set_pending_link_user_id (Some (str (Z.pos u))) w))
          = kb_admin_quick_customers (customers w) (str (Z.pos u))) as Hkb.
  { unfold cmd_admin_markup. simpl. rewrite decide_False; [done|]. apply str_nonempty. }
  simpl. rewrite Hkb. split; [done|].
  intros cid c Hc Hcid. split; [apply kb_admin_quick_customers_button; eauto|].
  rewrite (admin_quick_link_run E cid (str (Z.pos u)) c) by (done || apply colon_free_str).
  split.
  - by rewrite (link_user_reply E cid _ _ c) by (done || by eapply Hwf).
  - rewrite (link_user_ledger E cid _ _ c) by (done || by eapply Hwf). simpl.
    eexists. split; [by apply find_after_link|].
    simpl. apply without_actor_fields.
Qed.

Lemma quick_link_panel_witness :
  cmd_admin_markup (admin_open_panel true ("admin_panel_link:" +:+ str (Z.pos 9)) two_customers).1
  = kb_admin_quick_customers (customers two_customers) (str (Z.pos 9)).
Proof.
  refine (proj1 (proj2 (quick_link_panel (lib_with_holidays ∅) 9 two_customers _))).
  intros k c. unfold two_customers; simpl.
  intros [[<- <-]|[_ [[<- <-]|[_ H]]%lookup_insert_Some]]%lookup_insert_Some.
  - simpl. apply NoDup_singleton.
  - simpl. apply NoDup_nil_2.
  - by rewrite lookup_empty in H.
Defined.

(** The search of the wizard runs the loop of [find_customer_by_userid]. *)
Lemma admin_find_customer_handler_found E text u cid c w :
  strip E text = str (Z.pos u) ->
  find_customer_by_userid (customers w) u = Some (cid, c) -> cid <> ""%string ->
  admin_find_customer_handler E text w
  = (set_admin_visit (Some (set_d_customer_name (name c) (set_d_cid cid empty_draft))) w,
     inr (Some SELECT_ACTION)).
Proof.
  intros Hs Hf Hne. pose proof (find_customer_sound _ _ _ _ Hf) as [Hc _].
  unfold find_customer_by_userid in Hf.
  unfold admin_find_customer_handler, try_except, customer_at, bind, lookup_or, get, ret, modify.
  rewrite Hs. simpl. rewrite Hf. rewrite decide_False by done. by rewrite Hc.
Qed.

Lemma admin_find_customer_handler_none E text u w :
  strip E text = str (Z.pos u) ->
  find_customer_by_userid (customers w) u = None ->
  admin_find_customer_handler E text w = (w, inr (Some SELECT_CUSTOMER)).
Proof.
  intros Hs Hf. unfold find_customer_by_userid in Hf.
  unfold admin_find_customer_handler, try_except, bind, get, ret.
  rewrite Hs. simpl. by rewrite Hf.
Qed.

(** X24: the search of the wizard and the lookup behind the actors' menus
    agree.  For an actor id typed by the operator, in a ledger where no id
    is repeated and no actor is linked twice, the search opens the panel of
    the customer that lists the actor; the "unlink" button of that panel
    for this actor is on its users keyboard, and after a press the actor
    is found under no customer, the same search answers "not linked", and
    every other record is as it was. *)
Theorem search_then_unlink E text u w cid c :
  strip E text = str (Z.pos u) ->
  ledger_wf (customers w) -> actor_unique (customers w) ->
  customers w !! cid = Some c -> str (Z.pos u) ∈ ids c ->
  cid <> ""%string -> colon_free cid = true ->
  admin_find_customer_handler E text w
  = (set_admin_visit (Some (set_d_customer_name (name c) (set_d_cid cid empty_draft))) w,
     inr (Some SELECT_ACTION)) /\
  (exists kb,
      kb_admin_user_management (customers (admin_find_customer_handler E text w).1) cid
      = Some kb /\
      ("admin_unlink_specific:" +:+ cid +:+ ":" +:+ str (Z.pos u))%string ∈ buttons kb) /\
  find_customer_by_userid
    (customers
       (admin_select_action E ("admin_unlink_specific:" +:+ cid +:+ ":" +:+ str (Z.pos u))
          (admin_find_customer_handler E text w).1).1) u = None /\
  (admin_find_customer_handler E text
     (admin_select_action E ("admin_unlink_specific:" +:+ cid +:+ ":" +:+ str (Z.pos u))
        (admin_find_customer_handler E text w).1).1).2 = inr (Some SELECT_CUSTOMER) /\
  (forall k, k <> cid ->
     customers
       (admin_select_action E ("admin_unlink_specific:" +:+ cid +:+ ":" +:+ str (Z.pos u))
          (admin_find_customer_handler E text w).1).1 !! k
     = customers w !! k).
Proof.
  intros Hs Hwf Hu Hc Hin Hne Hcid.
  rewrite (admin_find_customer_handler_found E text u cid c w Hs
             (find_customer_unique _ _ _ _ Hu Hc Hin) Hne).
  split; [done|]. simpl.
  split; [by eapply kb_admin_user_management_button|].
  rewrite (admin_unlink_specific_run E cid (str (Z.pos u)) c) by (done || apply colon_free_str).
  rewrite decide_True by done. simpl.
  assert (find_customer_by_userid
            (<[cid := set_ids (list_remove (str (Z.pos u))) c]> (customers w)) u = None) as Hf.
  { apply find_customer_none. intros k c' Hk Hin'.
    destruct (decide (cid = k)) as [->|Hnk].
    - rewrite lookup_insert_eq in Hk. simplify_eq. simpl in Hin'.
      by apply not_elem_of_list_remove in Hin'; [|eapply Hwf].
    - rewrite lookup_insert_ne in Hk by done. by destruct Hnk; eapply Hu. }
  split; [done|]. split.
  - by erewrite admin_find_customer_handler_none.
  - intros k Hk. by apply lookup_insert_ne.
Qed.

Lemma search_then_unlink_witness :
  find_customer_by_userid
    (customers
       (admin_select_action (lib_with_holidays ∅)
          ("admin_unlink_specific:" +:+ "1" +:+ ":" +:+ str (Z.pos 7))
          (admin_find_customer_handler (lib_with_holidays ∅) "7" two_customers).1).1) 7 = None.
Proof.
  refine (proj1 (proj2 (proj2
            (search_then_unlink (lib_with_holidays ∅) "7" 7 two_customers "1"
               (set_ids (fun _ => ["7"%string]) (new_customer "Acme")) _ _ _ _ _ _ _)))).
  - reflexivity.
  - intros k c. unfold two_customers; simpl.
    intros [[<- <-]|[_ [[<- <-]|[_ H]]%lookup_insert_Some]]%lookup_insert_Some.
    + simpl. apply NoDup_singleton.
    + simpl. apply NoDup_nil_2.
    + by rewrite lookup_empty in H.
  - intros a k1 k2 c1 c2. unfold two_customers; simpl.
    intros [[<- <-]|[? [[<- <-]|[_ H1]]%lookup_insert_Some]]%lookup_insert_Some
           [[<- <-]|[? [[<- <-]|[_ H2]]%lookup_insert_Some]]%lookup_insert_Some;
      simpl; try done; try (by rewrite lookup_empty in H1);
      try (by rewrite lookup_empty in H2);
      intros Ha1 Ha2; by (apply elem_of_nil in Ha1 || apply elem_of_nil in Ha2).
  - vm_compute. reflexivity.
  - simpl. by left.
  - discriminate.
  - reflexivity.
Defined.

(** ** The actions panel *)

Lemma render_visits_ok E vs w :
  Forall (fun v => v_date v = "free"%string \/ is_Some (strptime E (v_date v))) vs ->
  render_visits E vs w = (w, inr tt).
Proof.
  induction 1 as [|v vs Hv _ IH]; [done|]. simpl. unfold bind, render_date.
  destruct (decide (v_date v = "free")) as [|Hne]; [exact IH|].
  destruct Hv as [?|[sel Hsel]]; [done|]. unfold bind, lookup_or. rewrite Hsel. exact IH.
Qed.

(** A press on "admin_action:<action>:<cid>" reaches the menu of actions
    with the draft pointed at the customer. *)
Lemma admin_action_run E a cid c d w :
  customers w !! cid = Some c -> colon_free cid = true -> cid <> ""%string ->
  admin_visit w = Some d -> colon_free a = true ->
  admin_select_action E ("admin_action:" +:+ a +:+ ":" +:+ cid) w
  = (let w' := set_admin_visit (Some (set_d_customer_name (name c) (set_d_cid cid d))) w in
     if decide (Some a = Some "back"%string) then (w', inr (Some SELECT_ACTION))
     else if decide (Some a = Some "tariff"%string) then (w', inr (Some SELECT_ACTION))
     else if decide (Some a = Some "visits"%string) then
       (let! _ := render_visits E (visits c) in
        let! _ := render_visits E (visits c) in ret (Some SELECT_ACTION)) w'
     else if decide (Some a = Some "users"%string) then (w', inr (Some SELECT_ACTION))
     else if decide (Some a = Some "projects"%string) then (w', inr (Some SELECT_ACTION))
     else if decide (Some a = Some "add_visit"%string) then (w', inr (Some SELECT_DATE))
     else if decide (Some a = Some "remove"%string)
       then (set_customers (delete cid) w', inr (Some END))
     else if decide (Some a = Some "clear_visits"%string)
       then (set_customers (fun L => <[cid := clear_visits c]> L) w', inr (Some SELECT_ACTION))
     else (w', inr None)).
Proof.
  intros Hc Hcid Hne Hd Ha.
  set (data := ("admin_action:" +:+ a +:+ ":" +:+ cid)%string).
  assert (data <> "admin_cancel"%string) as Hnc by (unfold data; payload_ne).
  assert (startswith data "admin_delete_" = false) as Hdel
    by apply (startswith_app_both "admin_" ("action:" +:+ a +:+ ":" +:+ cid) "delete_").
  assert (startswith data "admin_unlink_specific:" = false) as Hun
    by apply (startswith_app_both "admin_" ("action:" +:+ a +:+ ":" +:+ cid) "unlink_specific:").
  assert (startswith data "admin_add_amount:" = false) as Hadd
    by apply (startswith_app_both "admin_" ("action:" +:+ a +:+ ":" +:+ cid) "add_amount:").
  assert (startswith data "admin_reset_sum:" = false) as Hres
    by apply (startswith_app_both "admin_" ("action:" +:+ a +:+ ":" +:+ cid) "reset_sum:").
  assert (startswith data "admin_link_user:" = false) as Hlink
    by apply (startswith_app_both "admin_" ("action:" +:+ a +:+ ":" +:+ cid) "link_user:").
  assert (startswith data "admin_set_exact:" = false) as Hex
    by apply (startswith_app_both "admin_" ("action:" +:+ a +:+ ":" +:+ cid) "set_exact:").
  assert (split_colon data = ["admin_action"%string; a; cid]) as Hsp
    by (by apply (split_colon_3 "admin_action" a cid)).
  clearbody data.
  unfold admin_select_action, select_action_delete, select_action_menu.
  rewrite decide_False by done. rewrite Hdel, Hun, Hadd, Hres, Hlink, Hex, Hsp.
  unfold update_customer, customer_at, store_customer, draft_update.
  unfold bind at 1 2. unfold ret at 1. unfold get at 1. simpl.
  rewrite (decide_False _ _ Hne).
  unfold bind, lookup_or, get, ret, modify. simpl. rewrite Hd. simpl. rewrite Hc. simpl.
  repeat (case_decide; [simpl; rewrite ?Hc; simpl; rewrite ?Hc; done|]). done.
Qed.

Lemma kb_admin_actions_buttons L cid kb b :
  kb_admin_actions L cid = Some kb -> b ∈ buttons kb ->
  b = "admin_cancel"%string \/
  exists a, a ∈ ["tariff"; "visits"; "users"; "projects"; "add_visit"; "remove";
                 "clear_visits"]%string /\
            b = ("admin_action:" +:+ a +:+ ":" +:+ cid)%string.
Proof.
  unfold kb_admin_actions. destruct (L !! cid); [|done]. simpl. intros [= <-].
  unfold buttons. simpl. intros Hb.
  apply elem_of_cons in Hb as [->|Hb];
    [right; exists "tariff"%string; split; [solve [repeat first [by left|right]]|done]|].
  apply elem_of_cons in Hb as [->|Hb];
    [right; exists "visits"%string; split; [solve [repeat first [by left|right]]|done]|].
  apply elem_of_cons in Hb as [->|Hb];
    [right; exists "users"%string; split; [solve [repeat first [by left|right]]|done]|].
  apply elem_of_cons in Hb as [->|Hb];
    [right; exists "projects"%string; split; [solve [repeat first [by left|right]]|done]|].
  apply elem_of_cons in Hb as [->|Hb];
    [right; exists "add_visit"%string; split; [solve [repeat first [by left|right]]|done]|].
  apply elem_of_cons in Hb as [->|Hb];
    [right; exists "remove"%string; split; [solve [repeat first [by left|right]]|done]|].
  apply elem_of_cons in Hb as [->|Hb];
    [right; exists "clear_visits"%string; split; [solve [repeat first [by left|right]]|done]|].
  apply elem_of_cons in Hb as [->|Hb]; [by left|].
  by apply elem_of_nil in Hb.
Qed.

(** X25: the actions panel has no dead button.  With the panel of a
    customer open, whose stored visits have dates that can be displayed,
    every button of [kb_admin_actions] is answered with a state of the
    conversation: "cancel" and "delete customer" end it, "add a visit" asks
    for the date, the others stay on the panel; "delete customer" and
    "clear visits" write to the ledger and no other button does, the first removing the record,
    the second emptying its visits.  The "back" button of the sub-panels
    returns to the panel without a write. *)
Theorem actions_panel_has_no_dead_button E cid w c d kb :
  customers w !! cid = Some c -> colon_free cid = true -> cid <> ""%string ->
  admin_visit w = Some d ->
  Forall (fun v => v_date v = "free"%string \/ is_Some (strptime E (v_date v))) (visits c) ->
  kb_admin_actions (customers w) cid = Some kb ->
  (forall b, b ∈ buttons kb ->
     exists s,
       (admin_select_action E b w).2 = inr (Some s) /\
       ((b = "admin_cancel"%string \/ b = ("admin_action:remove:" +:+ cid)%string) /\ s = END \/
        b = ("admin_action:add_visit:" +:+ cid)%string /\ s = SELECT_DATE \/
        (b <> "admin_cancel"%string /\ b <> ("admin_action:remove:" +:+ cid)%string /\
         b <> ("admin_action:add_visit:" +:+ cid)%string) /\ s = SELECT_ACTION) /\
       (b = ("admin_action:remove:" +:+ cid)%string /\
        customers (admin_select_action E b w).1 = delete cid (customers w) \/
        b = ("admin_action:clear_visits:" +:+ cid)%string /\
        customers (admin_select_action E b w).1 = <[cid := clear_visits c]> (customers w) \/
        (b <> ("admin_action:remove:" +:+ cid)%string /\
         b <> ("admin_action:clear_visits:" +:+ cid)%string) /\
        customers (admin_select_action E b w).1 = customers w)) /\
  (admin_select_action E ("admin_action:back:" +:+ cid) w).2 = inr (Some SELECT_ACTION) /\
  customers (admin_select_action E ("admin_action:back:" +:+ cid) w).1 = customers w /\
  ("admin_action:back:" +:+ cid)%string ∈ buttons (kb_admin_back cid) /\
  ("admin_action:back:" +:+ cid)%string ∈ buttons (kb_admin_visits_management cid (visits c)).
Proof.
  intros Hc Hcid Hne Hd Hvs Hkb.
  assert (forall a, colon_free a = true ->
            admin_select_action E ("admin_action:" +:+ a +:+ ":" +:+ cid) w = _) as Hrun
    by (intros a Ha; exact (admin_action_run E a cid c d w Hc Hcid Hne Hd Ha)).
  split; [|split; [|split; [|split]]].
  - intros b Hb.
    destruct (kb_admin_actions_buttons _ _ _ _ Hkb Hb) as [->|(a & Ha & ->)].
    { exists END. split; [done|]. split; [left; split; [by left|done]|].
      right. right. split; [split; payload_ne|done]. }
    split_elem; rewrite Hrun by done; simpl; unfold bind, ret;
      rewrite ?(render_visits_ok E (visits c) _ Hvs); simpl;
      eexists; (split; [reflexivity|]); split;
      solve [ left; split; [by right|done]
            | left; by split
            | right; left; by split
            | right; right; split; [repeat split; payload_ne|done] ].
  - change ("admin_action:back:" +:+ cid)%string
      with ("admin_action:" +:+ "back" +:+ ":" +:+ cid)%string.
    by rewrite (Hrun "back"%string) by done.
  - change ("admin_action:back:" +:+ cid)%string
      with ("admin_action:" +:+ "back" +:+ ":" +:+ cid)%string.
    by rewrite (Hrun "back"%string) by done.
  - unfold buttons, kb_admin_back. simpl. by left.
  - unfold buttons, kb_admin_visits_management. rewrite !concat_app, !elem_of_app.
    right. right. simpl. by left.
Qed.

Lemma actions_panel_has_no_dead_button_witness :
  (admin_select_action (lib_with_holidays ∅) ("admin_action:back:" +:+ "1")
     (set_admin_visit (Some empty_draft) two_customers)).2 = inr (Some SELECT_ACTION).
Proof.
  pose proof (actions_panel_has_no_dead_button (lib_with_holidays ∅) "1"
                (set_admin_visit (Some empty_draft) two_customers)
                (set_ids (fun _ => ["7"%string]) (new_customer "Acme")) empty_draft) as H.
  edestruct H as (_ & H2 & _); [..|exact H2].
  - vm_compute. reflexivity.
  - reflexivity.
  - discriminate.
  - reflexivity.
  - simpl. constructor.
  - vm_compute. reflexivity.
Defined.
